(** * Compliance scoring, reward tokens and leaderboard ranking

    A shallow embedding of the two Django applications of the repository:

    - [drivewise]          records are keyed directly off a Vehicle and a
                           Leaderboard table is maintained;
    - [expensetrackerapp]  records are keyed off a DrivingSession.

    Database tables are lists of rows in primary-key order.  Integers are
    Python integers, hence [Z]; an integer column holds the 64-bit signed
    ones and a write of any other value fails ([IntegerField] below);
    nullable columns are [option]; the [float] results of the Vehicle
    properties are IEEE 754 binary64 values.  Texts are held in UTF-8.
    Timestamps ([recorded_at], [last_updated], ...) are not modelled. *)

From Stdlib Require Import ZArith List String Ascii Bool Lia Floats.
From Stdlib Require Import Sorting.Permutation Sorting.Sorted.
From Stdlib Require DecimalString.
Import ListNotations.

Open Scope string_scope.
Open Scope list_scope.
Open Scope Z_scope.

Set Implicit Arguments.
Set Warnings "-inexact-float".

(* ------------------------------------------------------------------ *)
(** ** The ComplianceRecord model (both applications) *)

(** The two [models.py] declare the same columns; only the owner differs:
    a nullable [vehicle] foreign key in drivewise, a [driving_session]
    foreign key in expensetrackerapp.  [Owner] is that column. *)
Record ComplianceRecord (Owner : Type) : Type := mkComplianceRecord {
  owner : Owner;
  traffic_sign : nat;
  speed_limit : option Z;
  actual_speed : option Z;
  no_horn_zone : bool;
  horn_applied : bool;
  seatbelt_required : bool;
  seatbelt_worn : bool;
  violation_type : string;
  severity : string;
  violation_description : option string;
  compliance_score : Z
}.

Arguments mkComplianceRecord {Owner}.

(** Truth value of a nullable integer attribute: [None] and [0] are false. *)
Definition truthy (x : option Z) : bool :=
  match x with
  | None => false
  | Some n => negb (n =? 0)
  end.

(** [ComplianceRecord.calculate_compliance_score], statement by statement. *)
Definition calculate_compliance_score {Owner} (self : ComplianceRecord Owner) : Z :=
  let score := 100 in
  let score :=
    match speed_limit self, actual_speed self with
    | Some limit, Some actual =>
        if truthy (Some limit) && truthy (Some actual) then
          if actual >? limit then
            let score := score - 20 in
            if actual >? limit + 20 then score - 10 else score
          else score
        else score
    | _, _ => score
    end in
  let score :=
    if no_horn_zone self && horn_applied self then score - 15 else score in
  let score :=
    if seatbelt_required self && negb (seatbelt_worn self) then score - 25
    else score in
  Z.max 0 score.

(** The penalties as the specification words them. *)
Definition speed_applicable {Owner} (r : ComplianceRecord Owner) : Prop :=
  exists limit actual,
    speed_limit r = Some limit /\ actual_speed r = Some actual /\
    limit <> 0 /\ actual <> 0.

Definition spec_speed_penalty {Owner} (r : ComplianceRecord Owner) : Z :=
  match speed_limit r, actual_speed r with
  | Some limit, Some actual =>
      if negb (limit =? 0) && negb (actual =? 0) && (limit <? actual)
      then 20 + (if limit + 20 <? actual then 10 else 0)
      else 0
  | _, _ => 0
  end.

Definition spec_horn_penalty {Owner} (r : ComplianceRecord Owner) : Z :=
  if no_horn_zone r && horn_applied r then 15 else 0.

Definition spec_seatbelt_penalty {Owner} (r : ComplianceRecord Owner) : Z :=
  if seatbelt_required r && negb (seatbelt_worn r) then 25 else 0.

Definition spec_penalties {Owner} (r : ComplianceRecord Owner) : Z :=
  spec_speed_penalty r + spec_horn_penalty r + spec_seatbelt_penalty r.

(* ------------------------------------------------------------------ *)
(** ** Python built-ins used by the models and views *)

Module Py.

(** Round-half-even of the rational [p / q], [0 < q]. *)
Definition round_half_even (p q : Z) : Z :=
  let f := p / q in
  let r := p mod q in
  match 2 * r ?= q with
  | Lt => f
  | Gt => f + 1
  | Eq => if Z.even f then f else f + 1
  end.

(** [a / b] on integers: the binary64 value nearest to the exact quotient.
    The quotient is computed with at least 55 significant bits and a sticky
    bit, then rounded once to 53 bits, ties to even.  Python raises
    ZeroDivisionError for [b = 0]; every caller below guards the divisor,
    and the model answers NaN there. *)
Definition truediv (a b : Z) : float :=
  if b =? 0 then nan
  else
    let k := Z.max 0 (55 + Z.log2 (Z.abs b) - Z.log2 (Z.abs a)) in
    let n := Z.abs a * 2 ^ k in
    let q := n / Z.abs b in
    let sticky := if n mod Z.abs b =? 0 then 0 else 1 in
    SF2Prim
      (binary_normalize 53 1024 (Z.sgn a * Z.sgn b * (2 * q + sticky))
         (- k - 1) false).

(** The number of hundredths nearest to a finite float (ties to even on the
    exact binary value); [None] for infinities and NaN. *)
Definition hundredths (x : float) : option Z :=
  match Prim2SF x with
  | S754_zero _ => Some 0
  | S754_finite s m e =>
      let v := (if s then -1 else 1) * Zpos m * 100 in
      Some (if 0 <=? e then v * 2 ^ e else round_half_even v (2 ^ (- e)))
  | _ => None
  end.

(** [round(x, 2)]: the decimal string of [x] correctly rounded to two places,
    read back as the nearest float; a zero result keeps the sign of [x] and
    non-finite values are returned unchanged. *)
Definition round2 (x : float) : float :=
  match hundredths x with
  | Some n => if n =? 0 then (x * 0)%float else truediv n 100
  | None => x
  end.

(** A text is held as its UTF-8 encoding.  [code_points] reads the code
    points back: [pending] bytes of a character are still to come, [acc]
    holds the bits read of it and [least] is the least code point of its
    length.  [None] for bytes that encode no text. *)
Definition scalar_value (least ch : N) : bool :=
  ((least <=? ch) && (ch <=? 1114111) && negb ((55296 <=? ch) && (ch <=? 57343)))%N.

Fixpoint code_points (s : string) (pending : nat) (least acc : N)
  : option (list N) :=
  match s with
  | EmptyString => match pending with O => Some [] | S _ => None end
  | String c s' =>
      let b := N_of_ascii c in
      match pending with
      | O =>
          if (b <? 128)%N then option_map (cons b) (code_points s' 0 0%N 0%N)
          else if ((194 <=? b) && (b <=? 223))%N then
            code_points s' 1 128%N (b - 192)%N
          else if ((224 <=? b) && (b <=? 239))%N then
            code_points s' 2 2048%N (b - 224)%N
          else if ((240 <=? b) && (b <=? 244))%N then
            code_points s' 3 65536%N (b - 240)%N
          else None
      | S p =>
          if ((128 <=? b) && (b <=? 191))%N then
            let acc := (acc * 64 + (b - 128))%N in
            match p with
            | O =>
                if scalar_value least acc then
                  option_map (cons acc) (code_points s' 0 0%N 0%N)
                else None
            | S _ => code_points s' p least acc
            end
          else None
      end
  end.

(** The digit zero of every run of decimal digits (category Nd) of the
    Unicode database of CPython 3.11, version 14.0; the digits 1 to 9 follow
    their zero. *)
Definition decimal_zeros : list N := Eval cbv in map Z.to_N
  [48; 1632; 1776; 1984; 2406; 2534; 2662; 2790; 2918; 3046; 3174; 3302;
   3430; 3558; 3664; 3792; 3872; 4160; 4240; 6112; 6160; 6470; 6608; 6784;
   6800; 6992; 7088; 7232; 7248; 42528; 43216; 43264; 43472; 43504; 43600;
   44016; 65296; 66720; 68912; 69734; 69872; 69942; 70096; 70384; 70736;
   70864; 71248; 71360; 71472; 71904; 72016; 72784; 73040; 73120; 92768;
   92864; 93008; 120782; 120792; 120802; 120812; 120822; 123200; 123632;
   125264; 130032].

(** The white space beyond ASCII ([Py_UNICODE_ISSPACE]). *)
Definition unicode_spaces : list N := Eval cbv in map Z.to_N
  [133; 160; 5760; 8192; 8193; 8194; 8195; 8196; 8197; 8198; 8199; 8200;
   8201; 8202; 8232; 8233; 8239; 8287; 12288].

Definition decimal (ch : N) : option N :=
  match find (fun zero => (zero <=? ch) && (ch <=? zero + 9))%N decimal_zeros with
  | Some zero => Some (ch - zero)%N
  | None => None
  end.

(** [_PyUnicode_TransformDecimalAndSpaceToASCII], one character at a time:
    ASCII is kept, other white space becomes a blank, other decimal digits
    become ASCII digits, anything else a question mark. *)
Definition to_ascii (ch : N) : ascii :=
  if (ch <? 127)%N then ascii_of_N ch
  else if existsb (N.eqb ch) unicode_spaces then " "%char
  else
    match decimal ch with
    | Some d => ascii_of_N (48 + d)
    | None => "?"%char
    end.

(** [Py_ISSPACE] and the decimal digits of [PyLong_FromString]. *)
Definition is_space (c : ascii) : bool :=
  let n := nat_of_ascii c in
  ((9 <=? n) && (n <=? 13) || (n =? 32))%nat.

Definition is_digit (c : ascii) : bool :=
  let n := nat_of_ascii c in ((48 <=? n) && (n <=? 57))%nat.

Definition digit_value (c : ascii) : Z := Z.of_nat (nat_of_ascii c) - 48.

Fixpoint lstrip (s : list ascii) : list ascii :=
  match s with
  | c :: s' => if is_space c then lstrip s' else s
  | [] => []
  end.

(** [sys.int_info.default_max_str_digits]. *)
Definition max_str_digits : nat := 4300.

(** Digits up to the end of the text or trailing white space, single
    underscores allowed between digits; [count] is the number of digits
    read. *)
Fixpoint digits (s : list ascii) (acc : Z) (count : nat) (after_digit : bool)
  : option Z :=
  match s with
  | [] =>
      if after_digit && (count <=? max_str_digits)%nat then Some acc else None
  | c :: s' =>
      if is_digit c then digits s' (acc * 10 + digit_value c) (S count) true
      else if (Ascii.eqb c "_") && after_digit then
        match s' with
        | d :: _ => if is_digit d then digits s' acc count false else None
        | [] => None
        end
      else if is_space c && after_digit then
        match lstrip s' with
        | [] => if (count <=? max_str_digits)%nat then Some acc else None
        | _ :: _ => None
        end
      else None
  end.

(** [int(s)] on a text: optional surrounding white space, an optional sign,
    then decimal digits of any script, single underscores allowed between
    digits.  [None] stands for ValueError. *)
Definition int_of_str (s : string) : option Z :=
  match code_points s 0 0%N 0%N with
  | None => None
  | Some text =>
      match lstrip (map to_ascii text) with
      | "-"%char :: s' => option_map Z.opp (digits s' 0 0 false)
      | "+"%char :: s' => digits s' 0 0 false
      | s' => digits s' 0 0 false
      end
  end.

(** [sum(...)] of integers. *)
Definition sum (xs : list Z) : Z := fold_left Z.add xs 0.

End Py.

(* ------------------------------------------------------------------ *)
(** ** Tables *)

(** Rows are addressed by their position in the table (the primary key). *)
Definition indexed_from {A} (n : nat) (objects : list A) : list (nat * A) :=
  combine (seq n (List.length objects)) objects.

Definition indexed {A} (objects : list A) : list (nat * A) :=
  indexed_from 0 objects.

(** A condition on the columns, read on a numbered row. *)
Definition on_row {A} (p : A -> bool) (row : nat * A) : bool := p (snd row).

(** [Model.save()] of a row that already has a primary key. *)
Fixpoint save_row {A} (pk : nat) (row : A) (objects : list A) : list A :=
  match objects, pk with
  | [], _ => []
  | _ :: rest, O => row :: rest
  | x :: rest, S pk' => x :: save_row pk' row rest
  end.

(** [objects.filter(...).first()]: the matching row of least primary key. *)
Definition first {A} (p : A -> bool) (objects : list A) : option (nat * A) :=
  hd_error (filter (on_row p) (indexed objects)).

(** [objects.get(...)]: DoesNotExist, the single match, or
    MultipleObjectsReturned. *)
Inductive Lookup (A : Type) : Type :=
| DoesNotExist
| Found (pk : nat) (row : A)
| MultipleObjectsReturned.

Arguments DoesNotExist {A}.
Arguments Found {A}.
Arguments MultipleObjectsReturned {A}.

Definition get {A} (p : A -> bool) (objects : list A) : Lookup A :=
  match filter (on_row p) (indexed objects) with
  | [] => DoesNotExist
  | [(pk, row)] => Found pk row
  | _ => MultipleObjectsReturned
  end.

(** [enumerate(rows, start)]. *)
Fixpoint enumerate {A} (start : Z) (rows : list A) : list (Z * A) :=
  match rows with
  | [] => []
  | x :: rest => (start, x) :: enumerate (start + 1) rest
  end.

(** Assignment to the attribute [compliance_score]. *)
Definition set_compliance_score {Owner} (self : ComplianceRecord Owner)
    (value : Z) : ComplianceRecord Owner :=
  mkComplianceRecord (owner self) (traffic_sign self) (speed_limit self)
    (actual_speed self) (no_horn_zone self) (horn_applied self)
    (seatbelt_required self) (seatbelt_worn self) (violation_type self)
    (severity self) (violation_description self) value.

(** [ComplianceRecord.save], the same in both applications: the score is
    recomputed, then the row is written.  [pk = None] is a row not yet in
    the table.  The saved object is returned with the table. *)
Definition save {Owner} (pk : option nat) (self : ComplianceRecord Owner)
    (objects : list (ComplianceRecord Owner))
  : ComplianceRecord Owner * list (ComplianceRecord Owner) :=
  let self := set_compliance_score self (calculate_compliance_score self) in
  match pk with
  | Some pk => (self, save_row pk self objects)
  | None => (self, objects ++ [self])
  end.

(** [models.IntegerField].  The settings module is not part of the sources;
    the model takes SQLite, the database engine of a Django project unless
    configured otherwise: a column holds the 64-bit signed integers and the
    driver raises OverflowError for any other value, so the statement that
    writes the row fails. *)
Definition IntegerField (value : Z) : bool :=
  (- 2 ^ 63 <=? value) && (value <=? 2 ^ 63 - 1).

(** [models.IntegerField(null=True)]. *)
Definition IntegerField_null (value : option Z) : bool :=
  match value with
  | Some value => IntegerField value
  | None => true
  end.

(** The integer columns of a ComplianceRecord row all hold their value. *)
Definition storable {Owner} (self : ComplianceRecord Owner) : bool :=
  IntegerField_null (speed_limit self)
  && IntegerField_null (actual_speed self)
  && IntegerField (compliance_score self).

(** [ComplianceRecord.objects.create(...)]: [save] of a new row; [None]
    when the INSERT raises, the table being left as it was. *)
Definition create {Owner} (self : ComplianceRecord Owner)
    (objects : list (ComplianceRecord Owner))
  : option (ComplianceRecord Owner * list (ComplianceRecord Owner)) :=
  let saved := save None self objects in
  if storable (fst saved) then Some saved else None.

(* ------------------------------------------------------------------ *)
(** ** drivewise *)

Module DriveWise.

(** A foreign key to Vehicle is modelled by the vehicle's [vehicle_id], which
    the model declares unique. *)
Definition CRecord : Type := ComplianceRecord (option string).

Module TrafficSign.
Record t : Type := mk {
  sign_type : string;
  sign_value : string;
  location : string
}.
End TrafficSign.

Module Vehicle.

Record t : Type := mk {
  vehicle_id : string;
  vehicle_type : string;
  owner_name : option string
}.

(** [ComplianceRecord.objects.filter(vehicle=self)]. *)
Definition of_vehicle (self : t) (r : CRecord) : bool :=
  match owner r with
  | Some v => String.eqb v (vehicle_id self)
  | None => false
  end.

Definition violation_type__in (types : list string) (r : CRecord) : bool :=
  existsb (String.eqb (violation_type r)) types.

Definition total_violations (objects : list CRecord) (self : t) : Z :=
  Z.of_nat (List.length (filter
    (fun r => of_vehicle self r &&
              violation_type__in
                ["speed_violation"; "horn_violation"; "seatbelt_violation"] r)
    objects)).

Definition total_trips (objects : list CRecord) (self : t) : Z :=
  Z.of_nat (List.length (filter (of_vehicle self) objects)).

Definition compliance_rate (objects : list CRecord) (self : t) : float :=
  let total_trips := total_trips objects self in
  if total_trips =? 0 then 100%float
  else
    let violations := total_violations objects self in
    Py.round2 (Py.truediv (total_trips - violations) total_trips * 100)%float.

Definition average_compliance_score (objects : list CRecord) (self : t) : float :=
  let records := filter (of_vehicle self) objects in
  match records with
  | [] => 100%float
  | _ :: _ =>
      let total_score := Py.sum (map (@compliance_score _) records) in
      Py.round2 (Py.truediv total_score (Z.of_nat (List.length records)))
  end.

Definition qualifies_for_leaderboard (objects : list CRecord) (self : t) : bool :=
  3 <=? total_trips objects self.

End Vehicle.

Module RewardToken.

Record t : Type := mk {
  vehicle : string;
  tokens_earned : Z;
  tokens_spent : Z
}.

Definition tokens_available (self : t) : Z :=
  tokens_earned self - tokens_spent self.

Definition of_vehicle (v : Vehicle.t) (self : t) : bool :=
  String.eqb (vehicle self) (Vehicle.vehicle_id v).

(** Both counters are [models.IntegerField] columns. *)
Definition storable (self : t) : bool :=
  IntegerField (tokens_earned self) && IntegerField (tokens_spent self).

(** [reward_token.save()] of the row of key [pk]; [None] when the UPDATE
    raises. *)
Definition save (pk : nat) (self : t) (objects : list t) : option (list t) :=
  if storable self then Some (save_row pk self objects) else None.

(** [RewardToken.objects.get_or_create(vehicle=vehicle,
    defaults={'tokens_earned': tokens_earned})]: the row, whether it was
    created, and the table; [None] when several rows match and the call
    raises MultipleObjectsReturned. *)
Definition get_or_create (v : Vehicle.t) (tokens_earned : Z) (objects : list t)
  : option (nat * t * bool * list t) :=
  match get (of_vehicle v) objects with
  | DoesNotExist =>
      let row := mk (Vehicle.vehicle_id v) tokens_earned 0 in
      Some (List.length objects, row, true, objects ++ [row])
  | Found pk row => Some (pk, row, false, objects)
  | MultipleObjectsReturned => None
  end.

End RewardToken.

Module Leaderboard.

(** [compliance_rate] and [average_compliance_score] are
    DecimalField(max_digits=5, decimal_places=2) columns: the row holds the
    number of hundredths. *)
Record t : Type := mk {
  vehicle : string;
  rank : Z;
  total_violations : Z;
  total_trips : Z;
  compliance_rate : Z;
  average_compliance_score : Z;
  total_tokens_earned : Z
}.

(** The value a DecimalField(5, 2) column stores for a float: its number of
    hundredths.  [update_stats] only passes results of [round(x, 2)] that lie
    in [0, 100] whenever the scores of the table do, as they do after [save];
    beyond five digits, and for infinities and NaN, Django refuses the value
    and the model stores an arbitrary number. *)
Definition to_decimal (x : float) : Z :=
  match Py.hundredths x with
  | Some n => n
  | None => 0
  end.

Definition of_vehicle (v : Vehicle.t) (self : t) : bool :=
  String.eqb (vehicle self) (Vehicle.vehicle_id v).

(** The field defaults of a new row. *)
Definition create (v : Vehicle.t) : t :=
  mk (Vehicle.vehicle_id v) 0 0 0 10000 10000 0.

(** [cls.objects.get_or_create(vehicle=vehicle)]; the one-to-one column is
    unique, so the first match is the match. *)
Definition get_or_create (v : Vehicle.t) (objects : list t)
  : (nat * t) * list t :=
  match first (of_vehicle v) objects with
  | Some entry => (entry, objects)
  | None => ((List.length objects, create v), objects ++ [create v])
  end.

(** [update_stats]; [v] is [self.vehicle]. *)
Definition update_stats (records : list CRecord)
    (tokens : list RewardToken.t) (v : Vehicle.t)
    (entry : nat * t) (objects : list t) : list t :=
  let (pk, self) := entry in
  let total_violations := Vehicle.total_violations records v in
  let total_trips := Vehicle.total_trips records v in
  let compliance_rate := to_decimal (Vehicle.compliance_rate records v) in
  let average_compliance_score :=
    to_decimal (Vehicle.average_compliance_score records v) in
  let reward_token := first (RewardToken.of_vehicle v) tokens in
  let total_tokens_earned :=
    match reward_token with
    | Some (_, reward_token) => RewardToken.tokens_earned reward_token
    | None => 0
    end in
  save_row pk
    (mk (vehicle self) (rank self) total_violations total_trips
        compliance_rate average_compliance_score total_tokens_earned)
    objects.

(** [order_by('-total_trips', 'total_violations', '-compliance_rate')]:
    [precedes a b] when [a] may come before [b]. *)
Definition precedes (a b : t) : bool :=
  if total_trips a =? total_trips b then
    if total_violations a =? total_violations b then
      compliance_rate b <=? compliance_rate a
    else total_violations a <? total_violations b
  else total_trips b <? total_trips a.

(** The database leaves the order of rows with equal keys open; the model
    takes one order it may give, the primary-key order among equal keys (a
    stable insertion sort). *)
Fixpoint insert_entry (x : nat * t) (rows : list (nat * t)) : list (nat * t) :=
  match rows with
  | [] => [x]
  | y :: rest =>
      if precedes (snd x) (snd y) then x :: rows
      else y :: insert_entry x rest
  end.

Definition order_by (rows : list (nat * t)) : list (nat * t) :=
  fold_right insert_entry [] rows.

Definition set_rank (entry : t) (rank : Z) : t :=
  mk (vehicle entry) rank (total_violations entry) (total_trips entry)
     (compliance_rate entry) (average_compliance_score entry)
     (total_tokens_earned entry).

(** [Leaderboard.update_all_rankings].  The query of the vehicles with at
    least three records carries no ORDER BY either: the model takes the
    vehicles in table order. *)
Definition update_all_rankings (vehicles : list Vehicle.t)
    (records : list CRecord) (tokens : list RewardToken.t)
    (objects : list t) : list t :=
  let vehicles_with_records :=
    filter (fun v => 3 <=? Vehicle.total_trips records v) vehicles in
  let objects :=
    fold_left
      (fun objects vehicle =>
         let (leaderboard_entry, objects) := get_or_create vehicle objects in
         update_stats records tokens vehicle leaderboard_entry objects)
      vehicles_with_records objects in
  let leaderboard_entries := order_by (indexed objects) in
  fold_left
    (fun objects (item : Z * (nat * t)) =>
       let '(rank, (pk, entry)) := item in
       save_row pk (set_rank entry rank) objects)
    (enumerate 1 leaderboard_entries) objects.

End Leaderboard.

(** The database of the application. *)
Record DB : Type := mkDB {
  vehicles : list Vehicle.t;
  traffic_signs : list TrafficSign.t;
  compliance_records : list CRecord;
  reward_tokens : list RewardToken.t;
  leaderboard : list Leaderboard.t
}.

Definition empty : DB := mkDB [] [] [] [] [].

(** Modelled from the spec: the validated data of drivewise's
    SensorDataSerializer, whose module is not part of the sources.  The view
    reads the keys below; [drive_value] is the optional numeric "actual/drive
    value" of a SensorEvent, [int(...)] of which is the value itself. *)
Module SensorData.
Record t : Type := mk {
  vehicle_id : string;
  sign_type : string;
  sign_value : option string;
  location : option string;
  drive_value : option Z
}.
End SensorData.

(** [data.get(key, default)]. *)
Definition get_default {A} (x : option A) (default : A) : A :=
  match x with
  | Some v => v
  | None => default
  end.

Record ResponseData : Type := mkResponseData {
  violation_detected : bool;
  response_violation_type : option string;
  response_compliance_score : Z;
  response_violation_description : option string;
  response_tokens_earned : Z;
  response_total_trips : Z;
  current_rank : option Z
}.

Inductive Response : Type :=
| HTTP_201_CREATED (response_data : ResponseData)
| HTTP_200_OK (tokens_available : Z)
| HTTP_400_BAD_REQUEST
| HTTP_500_INTERNAL_SERVER_ERROR.

(** The token tiers of [process_sensor_data]. *)
Definition award_tokens (compliance_score : Z) : Z :=
  let tokens_earned := 0 in
  if compliance_score >=? 90 then 10
  else if compliance_score >=? 70 then 5
  else if compliance_score >=? 50 then 2
  else tokens_earned.

(** The record [process_sensor_data] hands to [ComplianceRecord.objects.create];
    [violation_type], [severity], [violation_description] and
    [compliance_score] are left to the field defaults. *)
Definition new_record (data : SensorData.t) (vehicle : Vehicle.t)
    (traffic_sign : nat) : CRecord :=
  let drive_value := get_default (SensorData.drive_value data) 0 in
  mkComplianceRecord
    (Some (Vehicle.vehicle_id vehicle))
    traffic_sign
    (if String.eqb (SensorData.sign_type data) "speed_limit"
     then Some drive_value else None)
    (if String.eqb (SensorData.sign_type data) "speed_limit"
     then Some drive_value else None)
    (String.eqb (SensorData.sign_type data) "no_horn")
    (if String.eqb (SensorData.sign_type data) "no_horn"
     then drive_value =? 1 else false)
    (String.eqb (Vehicle.vehicle_type vehicle) "four_wheeler")
    (if String.eqb (SensorData.sign_type data) "seatbelt"
     then drive_value =? 1 else false)
    "no_violation" "low" None 100.

(** [Vehicle.objects.get_or_create(vehicle_id=..., defaults=...)];
    [vehicle_id] is unique. *)
Definition get_or_create_vehicle (vehicle_id : string)
    (objects : list Vehicle.t) : Vehicle.t * list Vehicle.t :=
  match first (fun v => String.eqb (Vehicle.vehicle_id v) vehicle_id) objects with
  | Some (_, vehicle) => (vehicle, objects)
  | None =>
      let vehicle := Vehicle.mk vehicle_id "four_wheeler" (Some "Unknown") in
      (vehicle, objects ++ [vehicle])
  end.

(** The view [process_sensor_data], from the validated data on.  An
    exception leaves the rows written so far and answers 500.  The calls of
    [blockchain_service] only log and are left out. *)
Definition process_sensor_data (data : SensorData.t) (db : DB) : DB * Response :=
  let (vehicle, vehicles) :=
    get_or_create_vehicle (SensorData.vehicle_id data) (vehicles db) in
  let traffic_sign := List.length (traffic_signs db) in
  let traffic_signs :=
    traffic_signs db ++
      [TrafficSign.mk (SensorData.sign_type data)
         (get_default (SensorData.sign_value data) "")
         (get_default (SensorData.location data) "")] in
  match create (new_record data vehicle traffic_sign) (compliance_records db) with
  | None =>
      (mkDB vehicles traffic_signs (compliance_records db) (reward_tokens db)
         (leaderboard db),
       HTTP_500_INTERNAL_SERVER_ERROR)
  | Some (compliance_record, compliance_records) =>
      let compliance_score := calculate_compliance_score compliance_record in
      let violation_type := violation_type compliance_record in
      let tokens_earned := award_tokens compliance_score in
      match RewardToken.get_or_create vehicle tokens_earned (reward_tokens db) with
      | None =>
          (mkDB vehicles traffic_signs compliance_records (reward_tokens db)
             (leaderboard db),
           HTTP_500_INTERNAL_SERVER_ERROR)
      | Some (pk, reward_token, created, ledgers) =>
          let saved :=
            if negb created then
              RewardToken.save pk
                (RewardToken.mk (RewardToken.vehicle reward_token)
                   (RewardToken.tokens_earned reward_token + tokens_earned)
                   (RewardToken.tokens_spent reward_token))
                ledgers
            else Some ledgers in
          match saved with
          | None =>
              (mkDB vehicles traffic_signs compliance_records (reward_tokens db)
                 (leaderboard db),
               HTTP_500_INTERNAL_SERVER_ERROR)
          | Some reward_tokens =>
              let leaderboard :=
                Leaderboard.update_all_rankings vehicles compliance_records
                  reward_tokens (leaderboard db) in
              let current_rank :=
                option_map (fun entry => Leaderboard.rank (snd entry))
                  (first (Leaderboard.of_vehicle vehicle) leaderboard) in
              (mkDB vehicles traffic_signs compliance_records reward_tokens
                 leaderboard,
               HTTP_201_CREATED
                 (mkResponseData
                    (negb (String.eqb violation_type "no_violation"))
                    (if String.eqb violation_type "no_violation" then None
                     else Some violation_type)
                    compliance_score
                    (violation_description compliance_record)
                    tokens_earned
                    (Vehicle.total_trips compliance_records vehicle)
                    current_rank))
          end
      end
  end.

(** The view [spend_tokens]; [amount] is [request.data.get('amount', 0)], an
    integer of the request body.  A failed [get_object_or_404], and a [save]
    whose counter does not fit its column, raise inside the [try] and are
    answered by the [except] branch.  The call of [blockchain_service] only
    logs and is left out. *)
Definition spend_tokens (vehicle_id : string) (amount : option Z) (db : DB)
  : DB * Response :=
  match first (fun v => String.eqb (Vehicle.vehicle_id v) vehicle_id)
          (vehicles db) with
  | None => (db, HTTP_500_INTERNAL_SERVER_ERROR)
  | Some (_, vehicle) =>
      match get (RewardToken.of_vehicle vehicle) (reward_tokens db) with
      | Found pk reward_token =>
          let amount := get_default amount 0 in
          if RewardToken.tokens_available reward_token <? amount then
            (db, HTTP_400_BAD_REQUEST)
          else
            let reward_token :=
              RewardToken.mk (RewardToken.vehicle reward_token)
                (RewardToken.tokens_earned reward_token)
                (RewardToken.tokens_spent reward_token + amount) in
            match RewardToken.save pk reward_token (reward_tokens db) with
            | None => (db, HTTP_500_INTERNAL_SERVER_ERROR)
            | Some reward_tokens =>
                (mkDB (vehicles db) (traffic_signs db) (compliance_records db)
                   reward_tokens (leaderboard db),
                 HTTP_200_OK (RewardToken.tokens_available reward_token))
            end
      | _ => (db, HTTP_500_INTERNAL_SERVER_ERROR)
      end
  end.

(** The requests served, and a sequence of them. *)
Inductive Request : Type :=
| ProcessSensorData (data : SensorData.t)
| SpendTokens (vehicle_id : string) (amount : option Z).

Definition handle (request : Request) (db : DB) : DB * Response :=
  match request with
  | ProcessSensorData data => process_sensor_data data db
  | SpendTokens vehicle_id amount => spend_tokens vehicle_id amount db
  end.

Definition run (requests : list Request) (db : DB) : DB :=
  fold_left (fun db request => fst (handle request db)) requests db.

End DriveWise.

(* ------------------------------------------------------------------ *)
(** ** expensetrackerapp *)

Module ExpenseTracker.

(** A record belongs to a driving session (its primary key). *)
Definition CRecord : Type := ComplianceRecord nat.

Module TrafficSign.
Record t : Type := mk {
  sign_type : string;
  sign_value : string;
  location : string
}.
End TrafficSign.

Module Vehicle.
Record t : Type := mk {
  vehicle_id : string;
  vehicle_type : string;
  owner_name : option string
}.
End Vehicle.

Module DrivingSession.
Record t : Type := mk {
  vehicle : string;
  is_active : bool
}.
End DrivingSession.

Module RewardToken.

Record t : Type := mk {
  vehicle : string;
  tokens_earned : Z;
  tokens_spent : Z
}.

Definition tokens_available (self : t) : Z :=
  tokens_earned self - tokens_spent self.

Definition of_vehicle (v : Vehicle.t) (self : t) : bool :=
  String.eqb (vehicle self) (Vehicle.vehicle_id v).

(** Both counters are [models.IntegerField] columns. *)
Definition storable (self : t) : bool :=
  IntegerField (tokens_earned self) && IntegerField (tokens_spent self).

(** [reward_token.save()] of the row of key [pk]; [None] when the UPDATE
    raises. *)
Definition save (pk : nat) (self : t) (objects : list t) : option (list t) :=
  if storable self then Some (save_row pk self objects) else None.

Definition get_or_create (v : Vehicle.t) (tokens_earned : Z) (objects : list t)
  : option (nat * t * bool * list t) :=
  match get (of_vehicle v) objects with
  | DoesNotExist =>
      let row := mk (Vehicle.vehicle_id v) tokens_earned 0 in
      Some (List.length objects, row, true, objects ++ [row])
  | Found pk row => Some (pk, row, false, objects)
  | MultipleObjectsReturned => None
  end.

End RewardToken.

Record DB : Type := mkDB {
  vehicles : list Vehicle.t;
  driving_sessions : list DrivingSession.t;
  traffic_signs : list TrafficSign.t;
  compliance_records : list CRecord;
  reward_tokens : list RewardToken.t
}.

Definition empty : DB := mkDB [] [] [] [] [].

(** The validated data of SensorDataSerializer: the two boolean fields carry
    [default=False], the other optional fields may be absent. *)
Module SensorData.
Record t : Type := mk {
  vehicle_id : string;
  sign_type : string;
  sign_value : option string;
  actual_speed : option Z;
  horn_applied : bool;
  seatbelt_worn : bool;
  location : option string
}.
End SensorData.

Definition get_default {A} (x : option A) (default : A) : A :=
  match x with
  | Some v => v
  | None => default
  end.

Record ResponseData : Type := mkResponseData {
  compliance_record_id : nat;
  response_violation_type : string;
  response_severity : string;
  response_compliance_score : Z;
  response_violation_description : string;
  response_tokens_earned : Z
}.

Inductive Response : Type :=
| HTTP_201_CREATED (response_data : ResponseData)
| HTTP_200_OK (reward_token : RewardToken.t)
| HTTP_400_BAD_REQUEST
| HTTP_500_INTERNAL_SERVER_ERROR.

(** The token tiers of [process_sensor_data]. *)
Definition award_tokens (compliance_score : Z) : Z :=
  let tokens_earned := 0 in
  if compliance_score >=? 90 then 5
  else if compliance_score >=? 80 then 3
  else if compliance_score >=? 70 then 1
  else tokens_earned.

(** The [speed_limit] argument of the record: [Some None] is the column left
    null, [None] the ValueError of [int(...)]. *)
Definition speed_limit_of (data : SensorData.t) : option (option Z) :=
  match SensorData.sign_value data with
  | Some (String c rest) =>
      if String.eqb (SensorData.sign_type data) "speed_limit" then
        option_map Some (Py.int_of_str (String c rest))
      else Some None
  | _ => Some None
  end.

Definition new_record (data : SensorData.t) (vehicle : Vehicle.t)
    (driving_session traffic_sign : nat) (speed_limit : option Z) : CRecord :=
  let seatbelt_required :=
    String.eqb (Vehicle.vehicle_type vehicle) "four_wheeler" in
  mkComplianceRecord
    driving_session
    traffic_sign
    speed_limit
    (SensorData.actual_speed data)
    (String.eqb (SensorData.sign_type data) "no_horn")
    (SensorData.horn_applied data)
    seatbelt_required
    (SensorData.seatbelt_worn data)
    "no_violation" "low" None 100.

Definition get_or_create_vehicle (vehicle_id : string)
    (objects : list Vehicle.t) : Vehicle.t * list Vehicle.t :=
  match first (fun v => String.eqb (Vehicle.vehicle_id v) vehicle_id) objects with
  | Some (_, vehicle) => (vehicle, objects)
  | None =>
      let vehicle := Vehicle.mk vehicle_id "four_wheeler" (Some "Unknown") in
      (vehicle, objects ++ [vehicle])
  end.

(** [DrivingSession.objects.get_or_create(vehicle=vehicle, is_active=True)]:
    the session's primary key and the table; [None] for
    MultipleObjectsReturned. *)
Definition get_or_create_session (v : Vehicle.t)
    (objects : list DrivingSession.t) : option (nat * list DrivingSession.t) :=
  match get (fun s => String.eqb (DrivingSession.vehicle s) (Vehicle.vehicle_id v)
                      && Bool.eqb (DrivingSession.is_active s) true) objects with
  | DoesNotExist =>
      Some (List.length objects,
            objects ++ [DrivingSession.mk (Vehicle.vehicle_id v) true])
  | Found pk _ => Some (pk, objects)
  | MultipleObjectsReturned => None
  end.

(** The view [process_sensor_data], from the validated data on.  An
    exception leaves the rows written so far and answers 500. *)
Definition process_sensor_data (data : SensorData.t) (db : DB) : DB * Response :=
  let (vehicle, vehicles) :=
    get_or_create_vehicle (SensorData.vehicle_id data) (vehicles db) in
  match get_or_create_session vehicle (driving_sessions db) with
  | None =>
      (mkDB vehicles (driving_sessions db) (traffic_signs db)
         (compliance_records db) (reward_tokens db),
       HTTP_500_INTERNAL_SERVER_ERROR)
  | Some (driving_session, driving_sessions) =>
      let traffic_sign := List.length (traffic_signs db) in
      let traffic_signs :=
        traffic_signs db ++
          [TrafficSign.mk (SensorData.sign_type data)
             (get_default (SensorData.sign_value data) "")
             (get_default (SensorData.location data) "")] in
      match speed_limit_of data with
      | None =>
          (mkDB vehicles driving_sessions traffic_signs
             (compliance_records db) (reward_tokens db),
           HTTP_500_INTERNAL_SERVER_ERROR)
      | Some speed_limit =>
          let compliance_record_id := List.length (compliance_records db) in
          match create
                  (new_record data vehicle driving_session traffic_sign
                     speed_limit)
                  (compliance_records db) with
          | None =>
              (mkDB vehicles driving_sessions traffic_signs
                 (compliance_records db) (reward_tokens db),
               HTTP_500_INTERNAL_SERVER_ERROR)
          | Some (compliance_record, compliance_records) =>
              let tokens_earned :=
                award_tokens (compliance_score compliance_record) in
              match RewardToken.get_or_create vehicle tokens_earned
                      (reward_tokens db) with
              | None =>
                  (mkDB vehicles driving_sessions traffic_signs
                     compliance_records (reward_tokens db),
                   HTTP_500_INTERNAL_SERVER_ERROR)
              | Some (pk, reward_token, created, ledgers) =>
                  let saved :=
                    if negb created then
                      RewardToken.save pk
                        (RewardToken.mk (RewardToken.vehicle reward_token)
                           (RewardToken.tokens_earned reward_token
                            + tokens_earned)
                           (RewardToken.tokens_spent reward_token))
                        ledgers
                    else Some ledgers in
                  match saved with
                  | None =>
                      (mkDB vehicles driving_sessions traffic_signs
                         compliance_records (reward_tokens db),
                       HTTP_500_INTERNAL_SERVER_ERROR)
                  | Some reward_tokens =>
                      (mkDB vehicles driving_sessions traffic_signs
                         compliance_records reward_tokens,
                       HTTP_201_CREATED
                         (mkResponseData
                            compliance_record_id
                            (violation_type compliance_record)
                            (severity compliance_record)
                            (compliance_score compliance_record)
                            (get_default
                               (violation_description compliance_record)
                               "No violations detected")
                            tokens_earned))
                  end
              end
          end
      end
  end.

(** The view [spend_tokens]; [tokens] is [request.data.get('tokens', 0)].
    A failed [get_object_or_404], and a [save] whose counter does not fit
    its column, are answered by the [except] branch. *)
Definition spend_tokens (vehicle_id : string) (tokens : option Z) (db : DB)
  : DB * Response :=
  match first (fun v => String.eqb (Vehicle.vehicle_id v) vehicle_id)
          (vehicles db) with
  | None => (db, HTTP_500_INTERNAL_SERVER_ERROR)
  | Some (_, vehicle) =>
      match get (RewardToken.of_vehicle vehicle) (reward_tokens db) with
      | Found pk reward_token =>
          let tokens_to_spend := get_default tokens 0 in
          if tokens_to_spend >? RewardToken.tokens_available reward_token then
            (db, HTTP_400_BAD_REQUEST)
          else
            let reward_token :=
              RewardToken.mk (RewardToken.vehicle reward_token)
                (RewardToken.tokens_earned reward_token)
                (RewardToken.tokens_spent reward_token + tokens_to_spend) in
            match RewardToken.save pk reward_token (reward_tokens db) with
            | None => (db, HTTP_500_INTERNAL_SERVER_ERROR)
            | Some reward_tokens =>
                (mkDB (vehicles db) (driving_sessions db) (traffic_signs db)
                   (compliance_records db) reward_tokens,
                 HTTP_200_OK reward_token)
            end
      | _ => (db, HTTP_500_INTERNAL_SERVER_ERROR)
      end
  end.

(** The requests served, and a sequence of them. *)
Inductive Request : Type :=
| ProcessSensorData (data : SensorData.t)
| SpendTokens (vehicle_id : string) (tokens : option Z).

Definition handle (request : Request) (db : DB) : DB * Response :=
  match request with
  | ProcessSensorData data => process_sensor_data data db
  | SpendTokens vehicle_id tokens => spend_tokens vehicle_id tokens db
  end.

Definition run (requests : list Request) (db : DB) : DB :=
  fold_left (fun db request => fst (handle request db)) requests db.

End ExpenseTracker.

(* ------------------------------------------------------------------ *)
(** ** drivewise: the other views that read or write the tables *)

(** [order_by(key)] on rows, by a comparison of the keys; rows with equal
    keys stay in table order. *)
Fixpoint insert_by {A} (leb : A -> A -> bool) (x : A) (rows : list A) : list A :=
  match rows with
  | [] => [x]
  | y :: rest => if leb x y then x :: rows else y :: insert_by leb x rest
  end.

Definition sort_by {A} (leb : A -> A -> bool) (rows : list A) : list A :=
  fold_right (insert_by leb) [] rows.

(** [sequence] of optional values: [None] as soon as one is missing. *)
Fixpoint all_some {A} (xs : list (option A)) : option (list A) :=
  match xs with
  | [] => Some []
  | None :: _ => None
  | Some x :: rest => option_map (cons x) (all_some rest)
  end.

Module DriveWiseViews.

(** [str(n)] of an integer. *)
Definition str (n : Z) : string := DecimalString.NilZero.string_of_int (Z.to_int n).

(** [float(d)] of a decimal column holding [n] hundredths. *)
Definition float_of_decimal (n : Z) : float := Py.truediv n 100.

(** [vehicle.get_vehicle_type_display()]: the label of the choice, the value
    itself when it is none of the choices. *)
Definition get_vehicle_type_display (self : DriveWise.Vehicle.t) : string :=
  let value := DriveWise.Vehicle.vehicle_type self in
  if String.eqb value "two_wheeler" then "Two Wheeler"
  else if String.eqb value "four_wheeler" then "Four Wheeler"
  else if String.eqb value "commercial" then "Commercial Vehicle"
  else value.

(** [get_object_or_404(Vehicle, vehicle_id=vehicle_id)]; [None] is Http404. *)
Definition get_vehicle (vehicle_id : string) (db : DriveWise.DB)
  : option DriveWise.Vehicle.t :=
  option_map snd
    (first (fun v => String.eqb (DriveWise.Vehicle.vehicle_id v) vehicle_id)
       (DriveWise.vehicles db)).

Definition set_reward_tokens (db : DriveWise.DB)
    (reward_tokens : list DriveWise.RewardToken.t) : DriveWise.DB :=
  DriveWise.mkDB (DriveWise.vehicles db) (DriveWise.traffic_signs db)
    (DriveWise.compliance_records db) reward_tokens (DriveWise.leaderboard db).

Definition set_leaderboard (db : DriveWise.DB)
    (leaderboard : list DriveWise.Leaderboard.t) : DriveWise.DB :=
  DriveWise.mkDB (DriveWise.vehicles db) (DriveWise.traffic_signs db)
    (DriveWise.compliance_records db) (DriveWise.reward_tokens db) leaderboard.

(** The view [get_reward_tokens]: the serialized ledger, created with both
    counters 0 when the vehicle has none; 500 for an unknown vehicle or
    several ledgers. *)
Inductive TokensResponse : Type :=
| Tokens200 (reward_token : DriveWise.RewardToken.t)
| Tokens500.

Definition get_reward_tokens (vehicle_id : string) (db : DriveWise.DB)
  : DriveWise.DB * TokensResponse :=
  match get_vehicle vehicle_id db with
  | None => (db, Tokens500)
  | Some vehicle =>
      match DriveWise.RewardToken.get_or_create vehicle 0
              (DriveWise.reward_tokens db) with
      | None => (db, Tokens500)
      | Some (_, reward_token, _, reward_tokens) =>
          (set_reward_tokens db reward_tokens, Tokens200 reward_token)
      end
  end.

(** The view [get_vehicle_ranking]. *)
Record Ranking : Type := mkRanking {
  ranking_rank : Z;
  ranking_total_trips : Z;
  ranking_total_violations : Z;
  ranking_compliance_rate : float;
  ranking_average_compliance_score : float;
  ranking_total_tokens_earned : Z
}.

Inductive RankingResponse : Type :=
| Ranking200 (ranking : Ranking)
| Ranking400 (total_trips needed_entries : Z)
| Ranking404
| Ranking500.

Definition get_vehicle_ranking (vehicle_id : string) (db : DriveWise.DB)
  : RankingResponse :=
  match get_vehicle vehicle_id db with
  | None => Ranking500
  | Some vehicle =>
      let records := DriveWise.compliance_records db in
      if negb (DriveWise.Vehicle.qualifies_for_leaderboard records vehicle) then
        Ranking400 (DriveWise.Vehicle.total_trips records vehicle)
                   (3 - DriveWise.Vehicle.total_trips records vehicle)
      else
        match first (DriveWise.Leaderboard.of_vehicle vehicle)
                (DriveWise.leaderboard db) with
        | Some (_, leaderboard_entry) =>
            Ranking200
              (mkRanking
                 (DriveWise.Leaderboard.rank leaderboard_entry)
                 (DriveWise.Leaderboard.total_trips leaderboard_entry)
                 (DriveWise.Leaderboard.total_violations leaderboard_entry)
                 (float_of_decimal
                    (DriveWise.Leaderboard.compliance_rate leaderboard_entry))
                 (float_of_decimal
                    (DriveWise.Leaderboard.average_compliance_score
                       leaderboard_entry))
                 (DriveWise.Leaderboard.total_tokens_earned leaderboard_entry))
        | None => Ranking404
        end
  end.

(** The view [get_leaderboard].  A row of the answer; the time stamps and
    the blockchain list, always empty, are left out. *)
Record LeaderboardRow : Type := mkLeaderboardRow {
  row_rank : Z;
  row_vehicle_id : string;
  row_vehicle_type : string;
  row_owner_name : string;
  row_total_trips : Z;
  row_total_violations : Z;
  row_compliance_rate : float;
  row_average_compliance_score : float;
  row_total_tokens_earned : Z;
  row_qualification_status : string
}.

Inductive LeaderboardResponse : Type :=
| Leaderboard200 (leaderboard : list LeaderboardRow)
                 (total_qualified_vehicles : Z)
| Leaderboard500.

(** One row; [entry.vehicle] is looked up through the foreign key and
    [None] stands for a vehicle that does not exist. *)
Definition leaderboard_row (db : DriveWise.DB) (entry : DriveWise.Leaderboard.t)
  : option LeaderboardRow :=
  match get_vehicle (DriveWise.Leaderboard.vehicle entry) db with
  | None => None
  | Some vehicle =>
      Some (mkLeaderboardRow
        (DriveWise.Leaderboard.rank entry)
        (DriveWise.Vehicle.vehicle_id vehicle)
        (get_vehicle_type_display vehicle)
        (match DriveWise.Vehicle.owner_name vehicle with
         | Some (String c rest) => String c rest
         | _ => "Unknown"
         end)
        (DriveWise.Leaderboard.total_trips entry)
        (DriveWise.Leaderboard.total_violations entry)
        (float_of_decimal (DriveWise.Leaderboard.compliance_rate entry))
        (float_of_decimal (DriveWise.Leaderboard.average_compliance_score entry))
        (DriveWise.Leaderboard.total_tokens_earned entry)
        (if 3 <=? DriveWise.Leaderboard.total_trips entry then "Qualified"
         else "Needs " ++ str (3 - DriveWise.Leaderboard.total_trips entry)
              ++ " more entries"))
  end.

Definition rank_leb (a b : DriveWise.Leaderboard.t) : bool :=
  DriveWise.Leaderboard.rank a <=? DriveWise.Leaderboard.rank b.

(** [limit] is the query parameter, a text, or absent.  A text that is no
    integer, a negative bound (Django refuses negative indexing) and a bound
    beyond the 64-bit integers (no LIMIT of the database: the query raises)
    are answered 500 after the rankings were updated. *)
Definition get_leaderboard (limit : option string) (db : DriveWise.DB)
  : DriveWise.DB * LeaderboardResponse :=
  let db :=
    set_leaderboard db
      (DriveWise.Leaderboard.update_all_rankings (DriveWise.vehicles db)
         (DriveWise.compliance_records db) (DriveWise.reward_tokens db)
         (DriveWise.leaderboard db)) in
  let limit :=
    match limit with
    | None => Some 10
    | Some text => Py.int_of_str text
    end in
  match limit with
  | None => (db, Leaderboard500)
  | Some limit =>
      if (limit <? 0) || negb (IntegerField limit) then (db, Leaderboard500)
      else
        let leaderboard_entries :=
          firstn (Z.to_nat limit)
            (sort_by rank_leb (DriveWise.leaderboard db)) in
        match all_some (map (leaderboard_row db) leaderboard_entries) with
        | None => (db, Leaderboard500)
        | Some leaderboard_data =>
            let total_vehicles :=
              Z.of_nat (List.length
                (filter
                   (fun v => 3 <=? DriveWise.Vehicle.total_trips
                                     (DriveWise.compliance_records db) v)
                   (DriveWise.vehicles db))) in
            (db, Leaderboard200 leaderboard_data total_vehicles)
        end
  end.

(** Every call that can write, and a sequence of calls. *)
Inductive Call : Type :=
| ProcessSensorData (data : DriveWise.SensorData.t)
| SpendTokens (vehicle_id : string) (amount : option Z)
| GetRewardTokens (vehicle_id : string)
| GetLeaderboard (limit : option string).

Definition serve (call : Call) (db : DriveWise.DB) : DriveWise.DB :=
  match call with
  | ProcessSensorData data => fst (DriveWise.process_sensor_data data db)
  | SpendTokens vehicle_id amount =>
      fst (DriveWise.spend_tokens vehicle_id amount db)
  | GetRewardTokens vehicle_id => fst (get_reward_tokens vehicle_id db)
  | GetLeaderboard limit => fst (get_leaderboard limit db)
  end.

Definition session (calls : list Call) (db : DriveWise.DB) : DriveWise.DB :=
  fold_left (fun db call => serve call db) calls db.

End DriveWiseViews.

(* ------------------------------------------------------------------ *)
(** ** expensetrackerapp: the views get_reward_tokens and get_dashboard_stats *)

Module ExpenseTrackerViews.

Definition get_vehicle (vehicle_id : string) (db : ExpenseTracker.DB)
  : option ExpenseTracker.Vehicle.t :=
  option_map snd
    (first (fun v => String.eqb (ExpenseTracker.Vehicle.vehicle_id v) vehicle_id)
       (ExpenseTracker.vehicles db)).

Inductive TokensResponse : Type :=
| Tokens200 (reward_token : ExpenseTracker.RewardToken.t)
| Tokens500.

Definition get_reward_tokens (vehicle_id : string) (db : ExpenseTracker.DB)
  : ExpenseTracker.DB * TokensResponse :=
  match get_vehicle vehicle_id db with
  | None => (db, Tokens500)
  | Some vehicle =>
      match ExpenseTracker.RewardToken.get_or_create vehicle 0
              (ExpenseTracker.reward_tokens db) with
      | None => (db, Tokens500)
      | Some (_, reward_token, _, reward_tokens) =>
          (ExpenseTracker.mkDB (ExpenseTracker.vehicles db)
             (ExpenseTracker.driving_sessions db)
             (ExpenseTracker.traffic_signs db)
             (ExpenseTracker.compliance_records db) reward_tokens,
           Tokens200 reward_token)
      end
  end.

(** [driving_session__vehicle=vehicle]: the record's session exists and
    belongs to the vehicle. *)
Definition of_vehicle (db : ExpenseTracker.DB) (vehicle : ExpenseTracker.Vehicle.t)
    (r : ExpenseTracker.CRecord) : bool :=
  match nth_error (ExpenseTracker.driving_sessions db) (owner r) with
  | Some driving_session =>
      String.eqb (ExpenseTracker.DrivingSession.vehicle driving_session)
                 (ExpenseTracker.Vehicle.vehicle_id vehicle)
  | None => false
  end.

(** A number of the answer: the rate is an integer when the vehicle has no
    records and a float otherwise. *)
Inductive Number : Type :=
| Int (n : Z)
| Float (x : float).

(** [round(x, 2)] on either kind of number. *)
Definition round2 (x : Number) : Number :=
  match x with
  | Int n => Int n
  | Float x => Float (Py.round2 x)
  end.

(** The view [get_dashboard_stats]; the list of the ten most recent records
    of the answer is left out. *)
Record Stats : Type := mkStats {
  stats_total_trips : Z;
  stats_compliance_rate : Number;
  stats_violations : Z;
  stats_tokens_available : Z
}.

Inductive StatsResponse : Type :=
| Stats200 (stats : Stats)
| Stats500.

Definition get_dashboard_stats (vehicle_id : string) (db : ExpenseTracker.DB)
  : ExpenseTracker.DB * StatsResponse :=
  match get_vehicle vehicle_id db with
  | None => (db, Stats500)
  | Some vehicle =>
      let total_records :=
        Z.of_nat (List.length
          (filter (of_vehicle db vehicle) (ExpenseTracker.compliance_records db))) in
      let violations :=
        Z.of_nat (List.length
          (filter
             (fun r =>
                of_vehicle db vehicle r
                && existsb (String.eqb (violation_type r))
                     ["speed_violation"; "horn_violation"; "seatbelt_violation"])
             (ExpenseTracker.compliance_records db))) in
      let compliance_rate :=
        if total_records >? 0 then
          Float (Py.truediv (total_records - violations) total_records * 100)%float
        else Int 100 in
      match ExpenseTracker.RewardToken.get_or_create vehicle 0
              (ExpenseTracker.reward_tokens db) with
      | None => (db, Stats500)
      | Some (_, reward_token, _, reward_tokens) =>
          (ExpenseTracker.mkDB (ExpenseTracker.vehicles db)
             (ExpenseTracker.driving_sessions db)
             (ExpenseTracker.traffic_signs db)
             (ExpenseTracker.compliance_records db) reward_tokens,
           Stats200
             (mkStats total_records (round2 compliance_rate) violations
                (ExpenseTracker.RewardToken.tokens_available reward_token)))
      end
  end.

(** Every call that can write, and a sequence of calls. *)
Inductive Call : Type :=
| ProcessSensorData (data : ExpenseTracker.SensorData.t)
| SpendTokens (vehicle_id : string) (tokens : option Z)
| GetRewardTokens (vehicle_id : string)
| GetDashboardStats (vehicle_id : string).

Definition serve (call : Call) (db : ExpenseTracker.DB) : ExpenseTracker.DB :=
  match call with
  | ProcessSensorData data => fst (ExpenseTracker.process_sensor_data data db)
  | SpendTokens vehicle_id tokens =>
      fst (ExpenseTracker.spend_tokens vehicle_id tokens db)
  | GetRewardTokens vehicle_id => fst (get_reward_tokens vehicle_id db)
  | GetDashboardStats vehicle_id => fst (get_dashboard_stats vehicle_id db)
  end.

Definition session (calls : list Call) (db : ExpenseTracker.DB)
  : ExpenseTracker.DB :=
  fold_left (fun db call => serve call db) calls db.

End ExpenseTrackerViews.

(* ------------------------------------------------------------------ *)
(** ** Notions of the specification *)

(** A tier table: thresholds in descending order with the tokens awarded;
    the first tier whose threshold the score reaches applies, else 0. *)
Fixpoint tier_tokens (tiers : list (Z * Z)) (score : Z) : Z :=
  match tiers with
  | [] => 0
  | (threshold, tokens) :: rest =>
      if threshold <=? score then tokens else tier_tokens rest score
  end.

Definition tier_set_A : list (Z * Z) := [(90, 10); (70, 5); (50, 2)].
Definition tier_set_B : list (Z * Z) := [(90, 5); (80, 3); (70, 1)].

(** The ledger of a vehicle in either application, and what processing one
    sensor event does to it: created with [tokens_earned = delta] when
    absent, [delta] added to [tokens_earned] otherwise. *)
Definition dw_ledger (db : DriveWise.DB) (vehicle_id : string)
  : Lookup DriveWise.RewardToken.t :=
  get (fun t => String.eqb (DriveWise.RewardToken.vehicle t) vehicle_id)
      (DriveWise.reward_tokens db).

Definition dw_has_vehicle (db : DriveWise.DB) (vehicle_id : string) : bool :=
  existsb (fun v => String.eqb (DriveWise.Vehicle.vehicle_id v) vehicle_id)
          (DriveWise.vehicles db).

Definition dw_ledger_awarded (db db' : DriveWise.DB) (vehicle_id : string)
    (delta : Z) : Prop :=
  match dw_ledger db vehicle_id with
  | DoesNotExist =>
      dw_ledger db' vehicle_id =
        Found (List.length (DriveWise.reward_tokens db))
              (DriveWise.RewardToken.mk vehicle_id delta 0)
  | Found pk row =>
      dw_ledger db' vehicle_id =
        Found pk
          (DriveWise.RewardToken.mk (DriveWise.RewardToken.vehicle row)
             (DriveWise.RewardToken.tokens_earned row + delta)
             (DriveWise.RewardToken.tokens_spent row))
  | MultipleObjectsReturned => False
  end.

Definition et_ledger (db : ExpenseTracker.DB) (vehicle_id : string)
  : Lookup ExpenseTracker.RewardToken.t :=
  get (fun t => String.eqb (ExpenseTracker.RewardToken.vehicle t) vehicle_id)
      (ExpenseTracker.reward_tokens db).

Definition et_has_vehicle (db : ExpenseTracker.DB) (vehicle_id : string) : bool :=
  existsb (fun v => String.eqb (ExpenseTracker.Vehicle.vehicle_id v) vehicle_id)
          (ExpenseTracker.vehicles db).

Definition et_ledger_awarded (db db' : ExpenseTracker.DB) (vehicle_id : string)
    (delta : Z) : Prop :=
  match et_ledger db vehicle_id with
  | DoesNotExist =>
      et_ledger db' vehicle_id =
        Found (List.length (ExpenseTracker.reward_tokens db))
              (ExpenseTracker.RewardToken.mk vehicle_id delta 0)
  | Found pk row =>
      et_ledger db' vehicle_id =
        Found pk
          (ExpenseTracker.RewardToken.mk (ExpenseTracker.RewardToken.vehicle row)
             (ExpenseTracker.RewardToken.tokens_earned row + delta)
             (ExpenseTracker.RewardToken.tokens_spent row))
  | MultipleObjectsReturned => False
  end.

(** What one sensor event does in drivewise. *)
Definition dw_event_awards (data : DriveWise.SensorData.t) (db : DriveWise.DB)
  : Prop :=
  let (db', response) := DriveWise.process_sensor_data data db in
  match response with
  | DriveWise.HTTP_201_CREATED body =>
      exists record,
        DriveWise.compliance_records db' =
          DriveWise.compliance_records db ++ [record]
        /\ DriveWise.response_compliance_score body =
             calculate_compliance_score record
        /\ DriveWise.response_tokens_earned body =
             tier_tokens tier_set_A (calculate_compliance_score record)
        /\ dw_ledger_awarded db db' (DriveWise.SensorData.vehicle_id data)
             (DriveWise.response_tokens_earned body)
  | _ => DriveWise.reward_tokens db' = DriveWise.reward_tokens db
  end.


(** What one sensor event does in expensetrackerapp. *)
Definition et_event_awards (data : ExpenseTracker.SensorData.t)
    (db : ExpenseTracker.DB) : Prop :=
  let (db', response) := ExpenseTracker.process_sensor_data data db in
  match response with
  | ExpenseTracker.HTTP_201_CREATED body =>
      exists record,
        ExpenseTracker.compliance_records db' =
          ExpenseTracker.compliance_records db ++ [record]
        /\ ExpenseTracker.response_compliance_score body =
             calculate_compliance_score record
        /\ ExpenseTracker.response_tokens_earned body =
             tier_tokens tier_set_B (calculate_compliance_score record)
        /\ et_ledger_awarded db db' (ExpenseTracker.SensorData.vehicle_id data)
             (ExpenseTracker.response_tokens_earned body)
  | _ => ExpenseTracker.reward_tokens db' = ExpenseTracker.reward_tokens db
  end.

(** When an event is stored.  In drivewise the speed value of a speed_limit
    event must fit the two speed columns, and the ledger the event raises
    must hold counters of its columns with room for the largest award. *)
Definition dw_speed_fits (data : DriveWise.SensorData.t) : bool :=
  if String.eqb (DriveWise.SensorData.sign_type data) "speed_limit"
  then IntegerField (DriveWise.get_default (DriveWise.SensorData.drive_value data) 0)
  else true.

Definition dw_ledger_has_room (db : DriveWise.DB) (vehicle_id : string) : bool :=
  match dw_ledger db vehicle_id with
  | Found _ row =>
      DriveWise.RewardToken.storable row
      && IntegerField (DriveWise.RewardToken.tokens_earned row + 10)
  | _ => true
  end.

(** In expensetrackerapp the sign value of a speed_limit event must be a
    number, both speed columns must hold their value, the vehicle must have
    at most one active session, and the ledger needs room for 5 tokens. *)
Definition et_speed_fits (data : ExpenseTracker.SensorData.t) : bool :=
  match ExpenseTracker.speed_limit_of data with
  | Some speed_limit =>
      IntegerField_null speed_limit
      && IntegerField_null (ExpenseTracker.SensorData.actual_speed data)
  | None => false
  end.

Definition et_session (db : ExpenseTracker.DB) (vehicle_id : string)
  : Lookup ExpenseTracker.DrivingSession.t :=
  get (fun s => String.eqb (ExpenseTracker.DrivingSession.vehicle s) vehicle_id
                && Bool.eqb (ExpenseTracker.DrivingSession.is_active s) true)
      (ExpenseTracker.driving_sessions db).

Definition et_ledger_has_room (db : ExpenseTracker.DB) (vehicle_id : string)
  : bool :=
  match et_ledger db vehicle_id with
  | Found _ row =>
      ExpenseTracker.RewardToken.storable row
      && IntegerField (ExpenseTracker.RewardToken.tokens_earned row + 5)
  | _ => true
  end.

(** The ledger row after a spend of [requested] tokens. *)
Definition dw_spent (ledger : DriveWise.RewardToken.t) (requested : Z)
  : DriveWise.RewardToken.t :=
  DriveWise.RewardToken.mk
    (DriveWise.RewardToken.vehicle ledger)
    (DriveWise.RewardToken.tokens_earned ledger)
    (DriveWise.RewardToken.tokens_spent ledger + requested).

Definition et_spent (ledger : ExpenseTracker.RewardToken.t) (requested : Z)
  : ExpenseTracker.RewardToken.t :=
  ExpenseTracker.RewardToken.mk
    (ExpenseTracker.RewardToken.vehicle ledger)
    (ExpenseTracker.RewardToken.tokens_earned ledger)
    (ExpenseTracker.RewardToken.tokens_spent ledger + requested).

(** A spend request refused with the answer [refusal]: nothing changes. *)
Definition dw_spend_refused (db : DriveWise.DB) (refusal : DriveWise.Response)
    (result : DriveWise.DB * DriveWise.Response) : Prop :=
  snd result = refusal /\ fst result = db.

Definition et_spend_refused (db : ExpenseTracker.DB)
    (refusal : ExpenseTracker.Response)
    (result : ExpenseTracker.DB * ExpenseTracker.Response) : Prop :=
  snd result = refusal /\ fst result = db.

(** A spend request granted on the ledger [ledger] of key [pk]:
    [tokens_spent] grows by the amount and nothing else changes. *)
Definition dw_spend_granted (vehicle_id : string) (requested : Z)
    (db : DriveWise.DB) (pk : nat) (ledger : DriveWise.RewardToken.t)
    (result : DriveWise.DB * DriveWise.Response) : Prop :=
  let (db', response) := result in
  response =
    DriveWise.HTTP_200_OK
      (DriveWise.RewardToken.tokens_available ledger - requested)
  /\ dw_ledger db' vehicle_id = Found pk (dw_spent ledger requested)
  /\ List.length (DriveWise.reward_tokens db') =
       List.length (DriveWise.reward_tokens db)
  /\ (forall pk', pk' <> pk ->
        nth_error (DriveWise.reward_tokens db') pk' =
        nth_error (DriveWise.reward_tokens db) pk')
  /\ DriveWise.vehicles db' = DriveWise.vehicles db
  /\ DriveWise.traffic_signs db' = DriveWise.traffic_signs db
  /\ DriveWise.compliance_records db' = DriveWise.compliance_records db
  /\ DriveWise.leaderboard db' = DriveWise.leaderboard db.

Definition et_spend_granted (vehicle_id : string) (requested : Z)
    (db : ExpenseTracker.DB) (pk : nat) (ledger : ExpenseTracker.RewardToken.t)
    (result : ExpenseTracker.DB * ExpenseTracker.Response) : Prop :=
  let (db', response) := result in
  response = ExpenseTracker.HTTP_200_OK (et_spent ledger requested)
  /\ et_ledger db' vehicle_id = Found pk (et_spent ledger requested)
  /\ List.length (ExpenseTracker.reward_tokens db') =
       List.length (ExpenseTracker.reward_tokens db)
  /\ (forall pk', pk' <> pk ->
        nth_error (ExpenseTracker.reward_tokens db') pk' =
        nth_error (ExpenseTracker.reward_tokens db) pk')
  /\ ExpenseTracker.vehicles db' = ExpenseTracker.vehicles db
  /\ ExpenseTracker.driving_sessions db' = ExpenseTracker.driving_sessions db
  /\ ExpenseTracker.traffic_signs db' = ExpenseTracker.traffic_signs db
  /\ ExpenseTracker.compliance_records db' =
       ExpenseTracker.compliance_records db.



(** The outcome as the code has it: an amount within the balance is granted
    when the new counter fits its column; when it does not, the write raises
    and the request is answered 500 without any change. *)
Definition dw_spend_outcome (vehicle_id : string) (amount : option Z)
    (db : DriveWise.DB) (pk : nat) (ledger : DriveWise.RewardToken.t) : Prop :=
  let requested := DriveWise.get_default amount 0 in
  let available := DriveWise.RewardToken.tokens_available ledger in
  let result := DriveWise.spend_tokens vehicle_id amount db in
  (available < requested ->
     dw_spend_refused db DriveWise.HTTP_400_BAD_REQUEST result)
  /\ (requested <= available ->
        if DriveWise.RewardToken.storable (dw_spent ledger requested)
        then dw_spend_granted vehicle_id requested db pk ledger result
        else dw_spend_refused db DriveWise.HTTP_500_INTERNAL_SERVER_ERROR
               result).

Definition et_spend_outcome (vehicle_id : string) (tokens : option Z)
    (db : ExpenseTracker.DB) (pk : nat)
    (ledger : ExpenseTracker.RewardToken.t) : Prop :=
  let requested := ExpenseTracker.get_default tokens 0 in
  let available := ExpenseTracker.RewardToken.tokens_available ledger in
  let result := ExpenseTracker.spend_tokens vehicle_id tokens db in
  (available < requested ->
     et_spend_refused db ExpenseTracker.HTTP_400_BAD_REQUEST result)
  /\ (requested <= available ->
        if ExpenseTracker.RewardToken.storable (et_spent ledger requested)
        then et_spend_granted vehicle_id requested db pk ledger result
        else et_spend_refused db ExpenseTracker.HTTP_500_INTERNAL_SERVER_ERROR
               result).

(** A stored record whose score is the one its own fields give. *)
Definition score_derived {Owner} (r : ComplianceRecord Owner) : Prop :=
  compliance_score r = calculate_compliance_score r.

(** The rows the sensor endpoint of either application writes. *)
Definition dw_created (r : DriveWise.CRecord) : Prop :=
  exists data vehicle traffic_sign,
    r = fst (save None (DriveWise.new_record data vehicle traffic_sign) []).

Definition et_created (r : ExpenseTracker.CRecord) : Prop :=
  exists data vehicle driving_session traffic_sign speed_limit,
    r = fst (save None
               (ExpenseTracker.new_record data vehicle driving_session
                  traffic_sign speed_limit) []).

(** The primary violation of a record in the tie-break order of the
    specification: speed, then horn, then seatbelt. *)
Definition primary_violation {Owner} (r : ComplianceRecord Owner) : string :=
  if 0 <? spec_speed_penalty r then "speed_violation"
  else if 0 <? spec_horn_penalty r then "horn_violation"
  else if 0 <? spec_seatbelt_penalty r then "seatbelt_violation"
  else "no_violation".

(** What the drivewise endpoint reports about the violation. *)
Definition dw_reports_no_violation (data : DriveWise.SensorData.t)
    (db : DriveWise.DB) : Prop :=
  match snd (DriveWise.process_sensor_data data db) with
  | DriveWise.HTTP_201_CREATED body =>
      DriveWise.violation_detected body = false
      /\ DriveWise.response_violation_type body = None
  | _ => True
  end.

(** A record on which the speed rule cannot fire. *)
Definition speed_never_exceeded {Owner} (r : ComplianceRecord Owner) : Prop :=
  actual_speed r = speed_limit r
  /\ spec_speed_penalty r = 0
  /\ calculate_compliance_score r =
       100 - spec_horn_penalty r - spec_seatbelt_penalty r.

Definition default_classification {Owner} (r : ComplianceRecord Owner) : Prop :=
  violation_type r = "no_violation" /\ severity r = "low".

(** The number of a vehicle's records of one violation type. *)
Definition count_of (self : DriveWise.Vehicle.t) (type : string)
    (objects : list DriveWise.CRecord) : Z :=
  Z.of_nat (List.length (filter
    (fun r => DriveWise.Vehicle.of_vehicle self r
              && String.eqb (violation_type r) type) objects)).

(** The composite ranking key of the specification: [a] ranks above [b]
    with more trips, or as many trips and fewer violations, or as many of
    both and a higher compliance rate. *)
Definition ranks_above (a b : DriveWise.Leaderboard.t) : Prop :=
  DriveWise.Leaderboard.total_trips b < DriveWise.Leaderboard.total_trips a
  \/ (DriveWise.Leaderboard.total_trips a = DriveWise.Leaderboard.total_trips b
      /\ DriveWise.Leaderboard.total_violations a
         < DriveWise.Leaderboard.total_violations b)
  \/ (DriveWise.Leaderboard.total_trips a = DriveWise.Leaderboard.total_trips b
      /\ DriveWise.Leaderboard.total_violations a
         = DriveWise.Leaderboard.total_violations b
      /\ DriveWise.Leaderboard.compliance_rate b
         < DriveWise.Leaderboard.compliance_rate a).

(** The order of the query set: numbered rows, by their entries. *)
Definition before (a b : nat * DriveWise.Leaderboard.t) : Prop :=
  DriveWise.Leaderboard.precedes (snd a) (snd b) = true.

(** An item of the ranking loop: the key of the row written and the row. *)
Definition item_pk (item : Z * (nat * DriveWise.Leaderboard.t)) : nat :=
  fst (snd item).

Definition item_row (item : Z * (nat * DriveWise.Leaderboard.t))
  : DriveWise.Leaderboard.t :=
  DriveWise.Leaderboard.set_rank (snd (snd item)) (fst item).

Definition save_ranked (objects : list DriveWise.Leaderboard.t)
    (item : Z * (nat * DriveWise.Leaderboard.t)) : list DriveWise.Leaderboard.t :=
  let '(rank, (pk, entry)) := item in
  save_row pk (DriveWise.Leaderboard.set_rank entry rank) objects.

(** The ranks 1..n. *)
Definition ranks_1_to (n : nat) : list Z := map Z.of_nat (seq 1 n).

(* ------------------------------------------------------------------ *)
(** ** What one call may do to a table of ledgers *)

Section LedgerStep.

Variable T : Type.
Variables (vehicle : T -> string) (tokens_earned tokens_spent : T -> Z).

(** The table is left alone, or a ledger of a vehicle without one is
    appended with nothing spent, or one row is rewritten for the same vehicle
    with more earned, or with the same earned and no more spent than
    earned. *)
Inductive ledger_step : list T -> list T -> Prop :=
| step_unchanged objects : ledger_step objects objects
| step_created objects row :
    (forall x, In x objects -> vehicle x <> vehicle row) ->
    0 <= tokens_earned row -> tokens_spent row = 0 ->
    ledger_step objects (objects ++ [row])
| step_earned objects pk row row' :
    nth_error objects pk = Some row ->
    vehicle row' = vehicle row ->
    tokens_earned row <= tokens_earned row' ->
    tokens_spent row' = tokens_spent row ->
    ledger_step objects (save_row pk row' objects)
| step_spent objects pk row row' :
    nth_error objects pk = Some row ->
    vehicle row' = vehicle row ->
    tokens_earned row' = tokens_earned row ->
    tokens_spent row' <= tokens_earned row' ->
    ledger_step objects (save_row pk row' objects).

End LedgerStep.

Definition dw_ledger_step :=
  ledger_step DriveWise.RewardToken.vehicle DriveWise.RewardToken.tokens_earned
    DriveWise.RewardToken.tokens_spent.

Definition et_ledger_step :=
  ledger_step ExpenseTracker.RewardToken.vehicle
    ExpenseTracker.RewardToken.tokens_earned
    ExpenseTracker.RewardToken.tokens_spent.

(** expensetrackerapp: no vehicle has two ledgers or two active sessions. *)
Definition et_unique_rows (db : ExpenseTracker.DB) : Prop :=
  NoDup (map ExpenseTracker.RewardToken.vehicle (ExpenseTracker.reward_tokens db))
  /\ NoDup (map ExpenseTracker.DrivingSession.vehicle
              (filter ExpenseTracker.DrivingSession.is_active
                 (ExpenseTracker.driving_sessions db))).

(* ------------------------------------------------------------------ *)
(** ** The two passes of update_all_rankings *)

(** The leaderboard columns [update_stats] computes for a vehicle, on the
    row [self]. *)
Definition with_stats (records : list DriveWise.CRecord)
    (tokens : list DriveWise.RewardToken.t) (v : DriveWise.Vehicle.t)
    (self : DriveWise.Leaderboard.t) : DriveWise.Leaderboard.t :=
  DriveWise.Leaderboard.mk
    (DriveWise.Leaderboard.vehicle self) (DriveWise.Leaderboard.rank self)
    (DriveWise.Vehicle.total_violations records v)
    (DriveWise.Vehicle.total_trips records v)
    (DriveWise.Leaderboard.to_decimal
       (DriveWise.Vehicle.compliance_rate records v))
    (DriveWise.Leaderboard.to_decimal
       (DriveWise.Vehicle.average_compliance_score records v))
    (match first (DriveWise.RewardToken.of_vehicle v) tokens with
     | Some (_, reward_token) => DriveWise.RewardToken.tokens_earned reward_token
     | None => 0
     end).

(** A row that belongs to the vehicle and holds its current aggregates. *)
Definition is_current (records : list DriveWise.CRecord)
    (tokens : list DriveWise.RewardToken.t) (v : DriveWise.Vehicle.t)
    (e : DriveWise.Leaderboard.t) : Prop :=
  DriveWise.Leaderboard.vehicle e = DriveWise.Vehicle.vehicle_id v
  /\ with_stats records tokens v e = e.

(** The body of the first loop: the entry of one vehicle is fetched or
    created and its statistics are written. *)
Definition refresh_step (records : list DriveWise.CRecord)
    (tokens : list DriveWise.RewardToken.t)
    (objects : list DriveWise.Leaderboard.t) (vehicle : DriveWise.Vehicle.t)
  : list DriveWise.Leaderboard.t :=
  let (leaderboard_entry, objects) :=
    DriveWise.Leaderboard.get_or_create vehicle objects in
  DriveWise.Leaderboard.update_stats records tokens vehicle leaderboard_entry
    objects.

(** The vehicles the first loop visits. *)
Definition vehicles_with_records (vehicles : list DriveWise.Vehicle.t)
    (records : list DriveWise.CRecord) : list DriveWise.Vehicle.t :=
  filter (fun v => 3 <=? DriveWise.Vehicle.total_trips records v) vehicles.

(** The second loop: every row gets its position in the ordered query set
    as rank. *)
Definition rank_pass (objects : list DriveWise.Leaderboard.t)
  : list DriveWise.Leaderboard.t :=
  fold_left save_ranked
    (enumerate 1 (DriveWise.Leaderboard.order_by (indexed objects))) objects.

(* ------------------------------------------------------------------ *)
(** ** The choices of the database in update_all_rankings *)

(** The ranking loop over the rows in the order [ordered]. *)
Definition rank_pass_by (ordered : list (nat * DriveWise.Leaderboard.t))
    (objects : list DriveWise.Leaderboard.t) : list DriveWise.Leaderboard.t :=
  fold_left save_ranked (enumerate 1 ordered) objects.

(** The two queries of [update_all_rankings] carry no total order: the
    qualifying vehicles come without ORDER BY and the rows are ordered by a
    key that may tie.  A run is any execution the database allows: it
    returns the vehicles in some order [visit] and the rows in some order
    [ordered] that sorts them by the key.  [ranked] is the table a run
    leaves. *)
Definition ranking_run (vehicles : list DriveWise.Vehicle.t)
    (records : list DriveWise.CRecord) (tokens : list DriveWise.RewardToken.t)
    (objects ranked : list DriveWise.Leaderboard.t) : Prop :=
  exists visit ordered,
    Permutation visit (vehicles_with_records vehicles records)
    /\ Permutation ordered
         (indexed (fold_left (refresh_step records tokens) visit objects))
    /\ StronglySorted before ordered
    /\ ranked =
       rank_pass_by ordered
         (fold_left (refresh_step records tokens) visit objects).

(** No two rows of the table tie on the sort key. *)
Definition keys_distinct (objects : list DriveWise.Leaderboard.t) : Prop :=
  forall i j a b,
    nth_error objects i = Some a -> nth_error objects j = Some b -> i <> j ->
    ranks_above a b \/ ranks_above b a.

(** A row with its rank blanked: every column but the rank. *)
Definition unranked (entry : DriveWise.Leaderboard.t) : DriveWise.Leaderboard.t :=
  DriveWise.Leaderboard.set_rank entry 0.

(* ------------------------------------------------------------------ *)
(** ** The foreign key of the leaderboard *)

(** Every leaderboard row points to a vehicle of the vehicle table. *)
Definition dw_entries_have_vehicles (db : DriveWise.DB) : bool :=
  forallb
    (fun entry =>
       existsb
         (fun v => String.eqb (DriveWise.Vehicle.vehicle_id v)
                              (DriveWise.Leaderboard.vehicle entry))
         (DriveWise.vehicles db))
    (DriveWise.leaderboard db).
(* ------------------------------------------------------------------ *)
(** ** Concrete data used by the examples *)

Definition record_speeding : ComplianceRecord unit :=
  mkComplianceRecord tt 0%nat (Some 40) (Some 65) false false false false
    "no_violation" "low" None 100.

Definition record_zero_limit : ComplianceRecord unit :=
  mkComplianceRecord tt 0%nat (Some 0) (Some 65) false false false false
    "no_violation" "low" None 100.


(** drivewise: vehicle V1 buckles up at a seatbelt sign (score 100), then
    sounds the horn in a no-horn zone without the seatbelt being reported
    (score 60). *)
Definition dw_seatbelt_worn : DriveWise.SensorData.t :=
  DriveWise.SensorData.mk "V1" "seatbelt" (Some "Yes") (Some "Main St") (Some 1).

Definition dw_horn_applied : DriveWise.SensorData.t :=
  DriveWise.SensorData.mk "V1" "no_horn" (Some "Yes") (Some "Main St") (Some 1).

Definition dw_speed_65 : DriveWise.SensorData.t :=
  DriveWise.SensorData.mk "V1" "speed_limit" (Some "40") (Some "Main St") (Some 65).

Definition dw_db1 : DriveWise.DB :=
  fst (DriveWise.process_sensor_data dw_seatbelt_worn DriveWise.empty).

Definition dw_db2 : DriveWise.DB :=
  fst (DriveWise.process_sensor_data dw_horn_applied dw_db1).

(** expensetrackerapp: vehicle V1 passes a 40 km/h sign at 65 km/h with the
    seatbelt worn (score 70), then a no-horn sign in silence (score 100). *)
Definition et_speed_65 : ExpenseTracker.SensorData.t :=
  ExpenseTracker.SensorData.mk "V1" "speed_limit" (Some "40") (Some 65)
    false true (Some "Main St").

Definition et_no_horn : ExpenseTracker.SensorData.t :=
  ExpenseTracker.SensorData.mk "V1" "no_horn" (Some "Yes") None
    false true (Some "Main St").

Definition et_db1 : ExpenseTracker.DB :=
  fst (ExpenseTracker.process_sensor_data et_speed_65 ExpenseTracker.empty).

Definition et_db2 : ExpenseTracker.DB :=
  fst (ExpenseTracker.process_sensor_data et_no_horn et_db1).

(** Three records of vehicle V1 (a speed violation and a stop violation
    entered by hand) and one of V2. *)
Definition dw_v1 : DriveWise.Vehicle.t :=
  DriveWise.Vehicle.mk "V1" "four_wheeler" (Some "Unknown").

Definition dw_mixed_records : list DriveWise.CRecord :=
  [mkComplianceRecord (Some "V1") 0%nat (Some 40) (Some 65) false false true true
     "speed_violation" "high" None 70;
   mkComplianceRecord (Some "V2") 1%nat None None true true true true
     "horn_violation" "low" None 85;
   mkComplianceRecord (Some "V1") 2%nat None None false false true true
     "stop_violation" "medium" None 100;
   mkComplianceRecord (Some "V1") 3%nat None None false false true true
     "no_violation" "low" None 100].

(** Three events of V1 through the drivewise endpoint; two of them carry
    penalties. *)
Definition dw_three_events : list DriveWise.Request :=
  [DriveWise.ProcessSensorData dw_seatbelt_worn;
   DriveWise.ProcessSensorData dw_horn_applied;
   DriveWise.ProcessSensorData dw_speed_65].

Definition dw_db3 : DriveWise.DB := DriveWise.run dw_three_events DriveWise.empty.

(** A second vehicle with four events; V1 has three. *)
Definition dw_v2_event : DriveWise.Request :=
  DriveWise.ProcessSensorData
    (DriveWise.SensorData.mk "V2" "seatbelt" (Some "Yes") (Some "Ring Rd") (Some 1)).

Definition dw_db7 : DriveWise.DB :=
  DriveWise.run [dw_v2_event; dw_v2_event; dw_v2_event; dw_v2_event] dw_db3.

Definition dw_entry_v1 : DriveWise.Leaderboard.t :=
  DriveWise.Leaderboard.mk "V1" 2 0 3 10000 7833 17.

Definition dw_entry_v2 : DriveWise.Leaderboard.t :=
  DriveWise.Leaderboard.mk "V2" 1 0 4 10000 10000 40.

(** Ledgers with some tokens spent: V1 has earned 10 and spent 4 in
    drivewise, earned 6 and spent 2 in expensetrackerapp. *)
Definition dw_db_spent : DriveWise.DB :=
  fst (DriveWise.spend_tokens "V1" (Some 4) dw_db1).

Definition et_db_spent : ExpenseTracker.DB :=
  fst (ExpenseTracker.spend_tokens "V1" (Some 2) et_db2).

(* ------------------------------------------------------------------ *)
(** ** Sequences of calls used by the examples *)

(** drivewise, after V1's first event: a negative spend, the ledger read, a
    sensor event of a new vehicle, the leaderboard, a spend of 5. *)
Definition dw_calls : list DriveWiseViews.Call :=
  [DriveWiseViews.SpendTokens "V1" (Some (-3));
   DriveWiseViews.GetRewardTokens "V1";
   DriveWiseViews.ProcessSensorData
     (DriveWise.SensorData.mk "V2" "no_horn" None None (Some 1));
   DriveWiseViews.GetLeaderboard (Some "3");
   DriveWiseViews.SpendTokens "V1" (Some 5)].

(** expensetrackerapp, after V1's two events: the dashboard of V1, a spend,
    an event whose sign value is no number, the ledger of V1. *)
Definition et_calls : list ExpenseTrackerViews.Call :=
  [ExpenseTrackerViews.GetDashboardStats "V1";
   ExpenseTrackerViews.SpendTokens "V1" (Some 4);
   ExpenseTrackerViews.ProcessSensorData
     (ExpenseTracker.SensorData.mk "V2" "speed_limit" (Some "forty") (Some 50)
        false true None);
   ExpenseTrackerViews.GetRewardTokens "V1"].

(** The vehicle V2 of the examples. *)
Definition dw_v2 : DriveWise.Vehicle.t :=
  DriveWise.Vehicle.mk "V2" "four_wheeler" (Some "Unknown").

(** A sensor event of V2, as data of the endpoint. *)
Definition dw_v2_data : DriveWise.SensorData.t :=
  DriveWise.SensorData.mk "V2" "seatbelt" (Some "Yes") (Some "Ring Rd") (Some 1).

(** expensetrackerapp, a spend of V1 that is granted. *)
Definition et_spend_2 : ExpenseTracker.DB * ExpenseTracker.Response :=
  ExpenseTracker.spend_tokens "V1" (Some 2) et_db2.

(** Events whose speed does not fit the integer column: 2^63 km/h at a speed
    limit sign, in either application. *)
Definition dw_speed_overflow : DriveWise.SensorData.t :=
  DriveWise.SensorData.mk "V1" "speed_limit" (Some "40") (Some "Main St")
    (Some (2 ^ 63)).

Definition et_speed_overflow : ExpenseTracker.SensorData.t :=
  ExpenseTracker.SensorData.mk "V1" "speed_limit" (Some "40") (Some (2 ^ 63))
    false true (Some "Main St").

(** The text of 40 in Arabic-Indic digits (U+0664 U+0660), in UTF-8. *)
Definition arabic_indic_40 : string :=
  String (ascii_of_nat 217) (String (ascii_of_nat 164)
    (String (ascii_of_nat 217) (String (ascii_of_nat 160) EmptyString))).
(* ------------------------------------------------------------------ *)
(** ** Properties of the score *)

Lemma spec_speed_penalty_range {Owner} (r : ComplianceRecord Owner) :
  0 <= spec_speed_penalty r <= 30.
Proof.
  unfold spec_speed_penalty.
  destruct (speed_limit r) as [limit|]; [|lia].
  destruct (actual_speed r) as [actual|]; [|lia].
  destruct (negb (limit =? 0) && negb (actual =? 0) && (limit <? actual)); [|lia].
  destruct (limit + 20 <? actual); lia.
Qed.

Lemma spec_penalties_range {Owner} (r : ComplianceRecord Owner) :
  0 <= spec_penalties r <= 70.
Proof.
  pose proof (spec_speed_penalty_range r) as Hs.
  unfold spec_penalties, spec_horn_penalty, spec_seatbelt_penalty.
  destruct (no_horn_zone r && horn_applied r);
    destruct (seatbelt_required r && negb (seatbelt_worn r)); lia.
Qed.

Lemma score_is_100_minus_penalties {Owner} (r : ComplianceRecord Owner) :
  calculate_compliance_score r = Z.max 0 (100 - spec_penalties r).
Proof.
  unfold calculate_compliance_score, spec_penalties, spec_speed_penalty,
    spec_horn_penalty, spec_seatbelt_penalty, truthy.
  destruct (speed_limit r) as [limit|]; destruct (actual_speed r) as [actual|];
    cbn [negb andb];
    repeat match goal with
    | |- context [?a =? ?b] => destruct (Z.eqb_spec a b)
    | |- context [?a >? ?b] => rewrite (Z.gtb_ltb a b)
    | |- context [?a <? ?b] => destruct (Z.ltb_spec a b)
    | |- context [no_horn_zone r && horn_applied r] =>
        destruct (no_horn_zone r && horn_applied r)
    | |- context [seatbelt_required r && negb (seatbelt_worn r)] =>
        destruct (seatbelt_required r && negb (seatbelt_worn r))
    end; cbn [negb andb]; try lia.
Qed.

Lemma score_range {Owner} (r : ComplianceRecord Owner) :
  30 <= calculate_compliance_score r <= 100.
Proof.
  rewrite score_is_100_minus_penalties.
  pose proof (spec_penalties_range r). lia.
Qed.

(** C1: calculate_compliance_score returns max(0, 100 - p), p being the sum
    of the applicable penalties: 20 for actual_speed > speed_limit when both
    are present and non-zero, 10 more when actual_speed > speed_limit + 20,
    15 for a horn applied in a no-horn zone, 25 for a required seatbelt not
    worn; a missing or zero speed_limit or actual_speed gives no speed
    penalty, and the result lies in [0, 100]. *)
Theorem C1_score_formula :
  forall (Owner : Type) (r : ComplianceRecord Owner),
    calculate_compliance_score r = Z.max 0 (100 - spec_penalties r)
    /\ (~ speed_applicable r -> spec_speed_penalty r = 0)
    /\ (forall limit actual,
          speed_limit r = Some limit -> actual_speed r = Some actual ->
          limit <> 0 -> actual <> 0 ->
          spec_speed_penalty r =
            (if actual >? limit then 20 else 0)
            + (if actual >? limit + 20 then 10 else 0))
    /\ spec_horn_penalty r = (if no_horn_zone r && horn_applied r then 15 else 0)
    /\ spec_seatbelt_penalty r =
         (if seatbelt_required r && negb (seatbelt_worn r) then 25 else 0)
    /\ 0 <= calculate_compliance_score r <= 100.
Proof.
  intros Owner r. split; [apply score_is_100_minus_penalties|].
  split; [|split; [|split; [reflexivity|split; [reflexivity|]]]].
  - intros Hna. unfold spec_speed_penalty.
    destruct (speed_limit r) as [limit|] eqn:El; [|reflexivity].
    destruct (actual_speed r) as [actual|] eqn:Ea; [|reflexivity].
    destruct (Z.eqb_spec limit 0) as [->|Hl]; [reflexivity|].
    destruct (Z.eqb_spec actual 0) as [->|Ha]; [reflexivity|].
    exfalso. apply Hna. exists limit, actual. repeat split; assumption.
  - intros limit actual El Ea Hl Ha. unfold spec_speed_penalty.
    rewrite El, Ea.
    destruct (Z.eqb_spec limit 0); [contradiction|].
    destruct (Z.eqb_spec actual 0); [contradiction|].
    cbn [negb andb]. rewrite !Z.gtb_ltb.
    destruct (Z.ltb_spec limit actual); destruct (Z.ltb_spec (limit + 20) actual);
      lia.
  - pose proof (score_range r). lia.
Qed.

Lemma C1_score_formula_witness :
  calculate_compliance_score record_speeding = 70
  /\ spec_speed_penalty record_speeding = 30
  /\ spec_speed_penalty record_zero_limit = 0.
Proof.
  destruct (C1_score_formula record_speeding) as (Hscore & _ & Hspeed & _).
  destruct (C1_score_formula record_zero_limit) as (_ & Hnone & _).
  split; [rewrite Hscore; reflexivity|].
  split.
  - rewrite (Hspeed 40 65); [reflexivity|reflexivity|reflexivity|lia|lia].
  - apply Hnone. intros (limit & actual & Hl & _ & Hnz & _).
    simpl in Hl. injection Hl as <-. apply Hnz. reflexivity.
Defined.

(* ------------------------------------------------------------------ *)
(** ** Sanity checks of the Python built-ins *)

Example truediv_2_3 : Py.truediv 2 3 = 0.66666666666666663%float.
Proof. vm_compute. reflexivity. Qed.

Example round2_two_thirds :
  Py.round2 (Py.truediv 2 3 * 100)%float = 66.67%float.
Proof. vm_compute. reflexivity. Qed.

Example round2_half_even : Py.round2 0.125%float = 0.12%float.
Proof. vm_compute. reflexivity. Qed.

Example round2_binary_value : Py.round2 2.675%float = 2.67%float.
Proof. vm_compute. reflexivity. Qed.

Example int_of_str_40 : Py.int_of_str " 40 " = Some 40.
Proof. reflexivity. Qed.

Example int_of_str_neg : Py.int_of_str "-1_000" = Some (-1000).
Proof. reflexivity. Qed.

Example int_of_str_bad : Py.int_of_str "4x" = None.
Proof. reflexivity. Qed.

Lemma truediv_diag t : 0 < t -> Py.truediv t t = 1%float.
Proof.
  intros Ht. unfold Py.truediv.
  destruct (Z.eqb_spec t 0) as [->|_]; [lia|].
  rewrite (Z.abs_eq t) by lia.
  replace (55 + Z.log2 t - Z.log2 t) with 55 by lia.
  change (Z.max 0 55) with 55.
  rewrite (Z.mul_comm t (2 ^ 55)), Z.div_mul, Z.mod_mul by lia.
  rewrite Z.sgn_pos by lia.
  vm_compute. reflexivity.
Qed.

Lemma full_rate t :
  0 < t -> Py.round2 (Py.truediv (t - 0) t * 100)%float = 100%float.
Proof.
  intros Ht. rewrite Z.sub_0_r, truediv_diag by exact Ht.
  vm_compute. reflexivity.
Qed.

Example truediv_values :
  Py.truediv 1 3 = 0.3333333333333333%float
  /\ Py.truediv 235 3 = 78.33333333333333%float
  /\ Py.truediv (-7) 3 = (-2.3333333333333335)%float
  /\ Py.truediv 1 10 = 0.1%float
  /\ Py.truediv 0 7 = 0%float
  /\ Py.truediv (2 ^ 70 + 1) 3 = 3.935305402391371e+20%float.
Proof. vm_compute. repeat split. Qed.

Example round2_values :
  Py.round2 78.33333333333333%float = 78.33%float
  /\ Py.round2 (-0.125)%float = (-0.12)%float
  /\ Py.round2 0.005%float = 0.01%float
  /\ Py.round2 0.015%float = 0.01%float
  /\ Py.round2 100%float = 100%float
  /\ Py.round2 1e300%float = 1e300%float
  /\ Py.round2 infinity = infinity.
Proof. vm_compute. repeat split. Qed.

(* ------------------------------------------------------------------ *)
(** ** Tables: lookups and row updates *)

Section Tables.

Context {A : Type}.

Lemma indexed_from_cons n x (objects : list A) :
  indexed_from n (x :: objects) = (n, x) :: indexed_from (S n) objects.
Proof. reflexivity. Qed.

Lemma indexed_from_app n (l l' : list A) :
  indexed_from n (l ++ l') =
  indexed_from n l ++ indexed_from (n + List.length l) l'.
Proof.
  revert n. induction l as [|x l IH]; intros n.
  - simpl. rewrite Nat.add_0_r. reflexivity.
  - rewrite <- app_comm_cons, !indexed_from_cons, IH. simpl.
    rewrite Nat.add_succ_r. reflexivity.
Qed.

Lemma indexed_from_In n (l : list A) pk row :
  In (pk, row) (indexed_from n l) <->
  (n <= pk)%nat /\ nth_error l (pk - n) = Some row.
Proof.
  revert n. induction l as [|x l IH]; intros n.
  - simpl. split; [tauto|]. intros [_ H]. destruct (pk - n)%nat; discriminate.
  - rewrite indexed_from_cons. simpl. rewrite IH. split.
    + intros [H|[Hle H]].
      * injection H as <- <-. rewrite Nat.sub_diag. auto.
      * split; [lia|]. replace (pk - n)%nat with (S (pk - S n)) by lia.
        exact H.
    + intros [Hle H]. destruct (Nat.eq_dec n pk) as [<-|Hne].
      * rewrite Nat.sub_diag in H. injection H as <-. auto.
      * right. split; [lia|].
        replace (pk - n)%nat with (S (pk - S n)) in H by lia. exact H.
Qed.

Lemma length_save_row pk (row : A) objects :
  List.length (save_row pk row objects) = List.length objects.
Proof.
  revert pk. induction objects as [|x l IH]; intros [|pk]; simpl; auto.
Qed.

Lemma nth_error_save_row_eq pk (row : A) objects :
  (pk < List.length objects)%nat ->
  nth_error (save_row pk row objects) pk = Some row.
Proof.
  revert pk. induction objects as [|x l IH]; intros [|pk] H; simpl in *;
    try lia; auto. apply IH. lia.
Qed.

Lemma nth_error_save_row_neq pk pk' (row : A) objects :
  pk <> pk' ->
  nth_error (save_row pk row objects) pk' = nth_error objects pk'.
Proof.
  revert pk pk'. induction objects as [|x l IH]; intros [|pk] [|pk'] H;
    simpl; auto; try congruence.
Qed.

Variable p : A -> bool.

Lemma get_DoesNotExist_app objects x :
  get p objects = DoesNotExist -> p x = true ->
  get p (objects ++ [x]) = Found (List.length objects) x.
Proof.
  unfold get. unfold indexed; rewrite indexed_from_app, filter_app.
  destruct (filter (on_row p) (indexed_from 0 objects)) as [|[pk row] [|? ?]];
    try discriminate.
  intros _ Hx. simpl. unfold on_row at 1. simpl. rewrite Hx. reflexivity.
Qed.

Lemma filter_indexed_cons n x (objects : list A) :
  filter (on_row p) (indexed_from n (x :: objects)) =
  if p x then (n, x) :: filter (on_row p) (indexed_from (S n) objects)
  else filter (on_row p) (indexed_from (S n) objects).
Proof. reflexivity. Qed.

Lemma filter_save_row objects : forall n pk row row',
  filter (on_row p) (indexed_from n objects) = [(pk, row)] ->
  p row' = true ->
  filter (on_row p) (indexed_from n (save_row (pk - n) row' objects)) = [(pk, row')].
Proof.
  induction objects as [|x l IH]; intros n pk row row' Hf Hp.
  - discriminate.
  - rewrite filter_indexed_cons in Hf. destruct (p x) eqn:Hx.
    + injection Hf as <- <- Hrest. rewrite Nat.sub_diag. cbn [save_row].
      rewrite filter_indexed_cons, Hp, Hrest. reflexivity.
    + assert (Hin : In (pk, row) (indexed_from (S n) l)).
      { eapply (proj1 (filter_In (on_row p) _ _)). rewrite Hf. left. reflexivity. }
      apply indexed_from_In in Hin. destruct Hin as [Hle _].
      replace (pk - n)%nat with (S (pk - S n)) by lia. cbn [save_row].
      rewrite filter_indexed_cons, Hx. eapply IH; eassumption.
Qed.

Lemma get_Found_save_row objects pk row row' :
  get p objects = Found pk row -> p row' = true ->
  get p (save_row pk row' objects) = Found pk row'.
Proof.
  unfold get. unfold indexed.
  destruct (filter (on_row p) (indexed_from 0 objects)) as [|[pk0 row0] [|? ?]] eqn:Hf;
    try discriminate.
  intros H Hp. injection H as -> ->.
  pose proof (filter_save_row _ _ Hf Hp) as H. rewrite Nat.sub_0_r in H.
  rewrite H. reflexivity.
Qed.

Lemma get_Found_nth objects pk row :
  get p objects = Found pk row ->
  nth_error objects pk = Some row /\ p row = true.
Proof.
  unfold get. unfold indexed.
  destruct (filter (on_row p) (indexed_from 0 objects)) as [|[pk0 row0] [|? ?]] eqn:Hf;
    try discriminate.
  intros H. injection H as -> ->.
  assert (Hin : In (pk, row) (filter (on_row p) (indexed_from 0 objects))).
  { rewrite Hf. left. reflexivity. }
  apply filter_In in Hin. destruct Hin as [Hin Hp].
  apply indexed_from_In in Hin. rewrite Nat.sub_0_r in Hin. tauto.
Qed.

End Tables.

Lemma first_Some {A} (p : A -> bool) objects pk row :
  first p objects = Some (pk, row) ->
  nth_error objects pk = Some row /\ p row = true.
Proof.
  unfold first, indexed. intros H.
  destruct (filter (on_row p) (indexed_from 0 objects)) as [|x rest] eqn:Hf;
    [discriminate|]. injection H as ->.
  assert (Hin : In (pk, row) (filter (on_row p) (indexed_from 0 objects))).
  { rewrite Hf. left. reflexivity. }
  apply filter_In in Hin. destruct Hin as [Hin Hp].
  apply indexed_from_In in Hin. rewrite Nat.sub_0_r in Hin. tauto.
Qed.

Lemma first_existsb {A} (p : A -> bool) objects :
  existsb p objects = true ->
  exists pk row, first p objects = Some (pk, row).
Proof.
  intros H. apply existsb_exists in H. destruct H as (x & Hin & Hp).
  apply In_nth_error in Hin. destruct Hin as [n Hn].
  assert (Hin : In (n, x) (filter (on_row p) (indexed objects))).
  { apply filter_In. split; [|exact Hp].
    apply indexed_from_In. rewrite Nat.sub_0_r. split; [lia|exact Hn]. }
  unfold first. destruct (filter (on_row p) (indexed objects)) as [|[pk row] ?].
  - destruct Hin.
  - exists pk, row. reflexivity.
Qed.

Lemma get_Found_length {A} (p : A -> bool) objects pk row :
  get p objects = Found pk row -> (pk < List.length objects)%nat.
Proof.
  intros H. apply get_Found_nth in H. destruct H as [H _].
  apply nth_error_Some. congruence.
Qed.

(* ------------------------------------------------------------------ *)
(** ** Writes into integer columns *)

Lemma IntegerField_spec value :
  IntegerField value = true <-> - 2 ^ 63 <= value <= 2 ^ 63 - 1.
Proof.
  unfold IntegerField. rewrite andb_true_iff, !Z.leb_le. reflexivity.
Qed.

Lemma IntegerField_small value :
  - 1000 <= value <= 1000 -> IntegerField value = true.
Proof. intros H. apply IntegerField_spec. lia. Qed.

(** A row just saved holds a score between 30 and 100, so only the speed
    columns decide whether it can be stored. *)
Lemma storable_saved {Owner} (self : ComplianceRecord Owner) objects :
  storable (fst (save None self objects)) =
  IntegerField_null (speed_limit self) && IntegerField_null (actual_speed self).
Proof.
  unfold storable, save. cbn [fst speed_limit actual_speed compliance_score
                              set_compliance_score].
  rewrite IntegerField_small by (pose proof (score_range self); lia).
  apply andb_true_r.
Qed.

Lemma create_eq {Owner} (self : ComplianceRecord Owner) objects :
  create self objects =
  if IntegerField_null (speed_limit self) && IntegerField_null (actual_speed self)
  then Some (fst (save None self []), objects ++ [fst (save None self [])])
  else None.
Proof.
  unfold create. rewrite storable_saved.
  destruct (_ && _); reflexivity.
Qed.

Lemma create_Some {Owner} (self : ComplianceRecord Owner) objects record records :
  create self objects = Some (record, records) ->
  record = fst (save None self [])
  /\ records = objects ++ [record]
  /\ IntegerField_null (speed_limit self) = true
  /\ IntegerField_null (actual_speed self) = true.
Proof.
  rewrite create_eq. destruct (_ && _) eqn:Hfit; [|discriminate].
  apply andb_true_iff in Hfit. intros H. injection H as <- <-. tauto.
Qed.

(* ------------------------------------------------------------------ *)
(** ** Reward tokens *)

Lemma dw_award_tokens_tiers score :
  DriveWise.award_tokens score = tier_tokens tier_set_A score.
Proof.
  unfold DriveWise.award_tokens, tier_tokens, tier_set_A.
  rewrite !Z.geb_leb. reflexivity.
Qed.

Lemma et_award_tokens_tiers score :
  ExpenseTracker.award_tokens score = tier_tokens tier_set_B score.
Proof.
  unfold ExpenseTracker.award_tokens, tier_tokens, tier_set_B.
  rewrite !Z.geb_leb. reflexivity.
Qed.

Lemma save_new {Owner} (self : ComplianceRecord Owner) objects :
  snd (save None self objects) = objects ++ [fst (save None self objects)].
Proof. reflexivity. Qed.

Lemma save_score {Owner} pk (self : ComplianceRecord Owner) objects :
  compliance_score (fst (save pk self objects)) = calculate_compliance_score self
  /\ calculate_compliance_score (fst (save pk self objects)) =
     calculate_compliance_score self.
Proof. destruct pk; split; reflexivity. Qed.

Lemma dw_get_or_create_vehicle_id vehicle_id objects :
  DriveWise.Vehicle.vehicle_id
    (fst (DriveWise.get_or_create_vehicle vehicle_id objects)) = vehicle_id.
Proof.
  unfold DriveWise.get_or_create_vehicle.
  destruct (first _ objects) as [[pk v]|] eqn:Hf; [|reflexivity].
  apply first_Some in Hf. destruct Hf as [_ Hp].
  apply String.eqb_eq in Hp. exact Hp.
Qed.

Lemma et_get_or_create_vehicle_id vehicle_id objects :
  ExpenseTracker.Vehicle.vehicle_id
    (fst (ExpenseTracker.get_or_create_vehicle vehicle_id objects)) = vehicle_id.
Proof.
  unfold ExpenseTracker.get_or_create_vehicle.
  destruct (first _ objects) as [[pk v]|] eqn:Hf; [|reflexivity].
  apply first_Some in Hf. destruct Hf as [_ Hp].
  apply String.eqb_eq in Hp. exact Hp.
Qed.

Lemma award_tokens_bounds score :
  0 <= DriveWise.award_tokens score <= 10
  /\ 0 <= ExpenseTracker.award_tokens score <= 5.
Proof.
  unfold DriveWise.award_tokens, ExpenseTracker.award_tokens.
  repeat match goal with |- context [?a >=? ?b] => destruct (a >=? b) end; lia.
Qed.

Lemma dw_of_vehicle_id vehicle vehicle_id :
  DriveWise.Vehicle.vehicle_id vehicle = vehicle_id ->
  DriveWise.RewardToken.of_vehicle vehicle =
  fun t => String.eqb (DriveWise.RewardToken.vehicle t) vehicle_id.
Proof. intros <-. reflexivity. Qed.

Lemma et_of_vehicle_id vehicle vehicle_id :
  ExpenseTracker.Vehicle.vehicle_id vehicle = vehicle_id ->
  ExpenseTracker.RewardToken.of_vehicle vehicle =
  fun t => String.eqb (ExpenseTracker.RewardToken.vehicle t) vehicle_id.
Proof. intros <-. reflexivity. Qed.

Lemma dw_event_awards_holds data db : dw_event_awards data db.
Proof.
  unfold dw_event_awards, DriveWise.process_sensor_data.
  pose proof (dw_get_or_create_vehicle_id
                (DriveWise.SensorData.vehicle_id data) (DriveWise.vehicles db)) as Hid.
  destruct (DriveWise.get_or_create_vehicle _ _) as [vehicle vehicles].
  simpl in Hid.
  set (new := DriveWise.new_record data vehicle _).
  destruct (create new (DriveWise.compliance_records db))
    as [[record records]|] eqn:Hc; [|reflexivity].
  apply create_Some in Hc. destruct Hc as (Hrec & Hnew & _).
  unfold DriveWise.RewardToken.get_or_create.
  rewrite (dw_of_vehicle_id vehicle Hid).
  destruct (get _ (DriveWise.reward_tokens db)) as [|pk row|] eqn:Hget;
    [| |reflexivity].
  - exists record. simpl. rewrite dw_award_tokens_tiers, Hid.
    repeat split; try assumption.
    unfold dw_ledger_awarded, dw_ledger. rewrite Hget. simpl.
    apply get_DoesNotExist_app; [exact Hget|apply String.eqb_refl].
  - cbn [negb]. unfold DriveWise.RewardToken.save.
    destruct (DriveWise.RewardToken.storable _); [|reflexivity].
    exists record. simpl. rewrite dw_award_tokens_tiers.
    repeat split; try assumption.
    unfold dw_ledger_awarded, dw_ledger. rewrite Hget. simpl.
    apply get_Found_save_row with (row := row); [exact Hget|].
    apply get_Found_nth in Hget. simpl. tauto.
Qed.

Lemma dw_new_record_fits data vehicle traffic_sign :
  dw_speed_fits data = true ->
  IntegerField_null (speed_limit (DriveWise.new_record data vehicle traffic_sign))
  && IntegerField_null
       (actual_speed (DriveWise.new_record data vehicle traffic_sign)) = true.
Proof.
  unfold dw_speed_fits. cbn [DriveWise.new_record speed_limit actual_speed].
  destruct (String.eqb _ "speed_limit"); [|reflexivity].
  cbn [IntegerField_null]. intros ->. reflexivity.
Qed.

Lemma dw_raised_storable row delta :
  DriveWise.RewardToken.storable row
  && IntegerField (DriveWise.RewardToken.tokens_earned row + 10) = true ->
  0 <= delta <= 10 ->
  DriveWise.RewardToken.storable
    (DriveWise.RewardToken.mk (DriveWise.RewardToken.vehicle row)
       (DriveWise.RewardToken.tokens_earned row + delta)
       (DriveWise.RewardToken.tokens_spent row)) = true.
Proof.
  unfold DriveWise.RewardToken.storable. cbn.
  rewrite !andb_true_iff, !IntegerField_spec. lia.
Qed.

Lemma et_raised_storable row delta :
  ExpenseTracker.RewardToken.storable row
  && IntegerField (ExpenseTracker.RewardToken.tokens_earned row + 5) = true ->
  0 <= delta <= 5 ->
  ExpenseTracker.RewardToken.storable
    (ExpenseTracker.RewardToken.mk (ExpenseTracker.RewardToken.vehicle row)
       (ExpenseTracker.RewardToken.tokens_earned row + delta)
       (ExpenseTracker.RewardToken.tokens_spent row)) = true.
Proof.
  unfold ExpenseTracker.RewardToken.storable. cbn.
  rewrite !andb_true_iff, !IntegerField_spec. lia.
Qed.

(** The drivewise endpoint stores the event and answers 201 when the
    vehicle has at most one ledger and every value fits its column. *)
Lemma dw_event_stored data db :
  dw_ledger db (DriveWise.SensorData.vehicle_id data) <> MultipleObjectsReturned ->
  dw_speed_fits data = true ->
  dw_ledger_has_room db (DriveWise.SensorData.vehicle_id data) = true ->
  exists body,
    snd (DriveWise.process_sensor_data data db) = DriveWise.HTTP_201_CREATED body.
Proof.
  intros Hone Hfits Hroom. unfold DriveWise.process_sensor_data.
  pose proof (dw_get_or_create_vehicle_id
                (DriveWise.SensorData.vehicle_id data) (DriveWise.vehicles db)) as Hid.
  destruct (DriveWise.get_or_create_vehicle _ _) as [vehicle vehicles].
  simpl in Hid.
  rewrite create_eq, dw_new_record_fits by exact Hfits.
  unfold DriveWise.RewardToken.get_or_create.
  rewrite (dw_of_vehicle_id vehicle Hid).
  unfold dw_ledger_has_room, dw_ledger in *.
  destruct (get _ (DriveWise.reward_tokens db)) as [|pk row|];
    [| |congruence].
  - eexists. reflexivity.
  - cbn [negb]. unfold DriveWise.RewardToken.save.
    rewrite (dw_raised_storable row Hroom)
      by apply (award_tokens_bounds _).
    eexists. reflexivity.
Qed.

Lemma et_event_awards_holds data db : et_event_awards data db.
Proof.
  unfold et_event_awards, ExpenseTracker.process_sensor_data.
  pose proof (et_get_or_create_vehicle_id
                (ExpenseTracker.SensorData.vehicle_id data)
                (ExpenseTracker.vehicles db)) as Hid.
  destruct (ExpenseTracker.get_or_create_vehicle _ _) as [vehicle vehicles].
  simpl in Hid.
  destruct (ExpenseTracker.get_or_create_session _ _) as [[session sessions]|];
    [|reflexivity].
  destruct (ExpenseTracker.speed_limit_of data) as [limit|]; [|reflexivity].
  set (new := ExpenseTracker.new_record data vehicle _ _ _).
  destruct (create new (ExpenseTracker.compliance_records db))
    as [[record records]|] eqn:Hc; [|reflexivity].
  apply create_Some in Hc. destruct Hc as (Hrec & Hnew & _).
  assert (Hscore : compliance_score record = calculate_compliance_score record)
    by (rewrite Hrec; reflexivity).
  unfold ExpenseTracker.RewardToken.get_or_create.
  rewrite (et_of_vehicle_id vehicle Hid).
  destruct (get _ (ExpenseTracker.reward_tokens db)) as [|pk row|] eqn:Hget;
    [| |reflexivity].
  - exists record. simpl. rewrite et_award_tokens_tiers, Hid, Hscore.
    repeat split; try assumption.
    unfold et_ledger_awarded, et_ledger. rewrite Hget. simpl.
    apply get_DoesNotExist_app; [exact Hget|apply String.eqb_refl].
  - cbn [negb]. unfold ExpenseTracker.RewardToken.save.
    destruct (ExpenseTracker.RewardToken.storable _); [|reflexivity].
    exists record. simpl. rewrite et_award_tokens_tiers, Hscore.
    repeat split; try assumption.
    unfold et_ledger_awarded, et_ledger. rewrite Hget. simpl.
    apply get_Found_save_row with (row := row); [exact Hget|].
    apply get_Found_nth in Hget. simpl. tauto.
Qed.

Lemma et_session_lookup vehicle vehicle_id db :
  ExpenseTracker.Vehicle.vehicle_id vehicle = vehicle_id ->
  et_session db vehicle_id <> MultipleObjectsReturned ->
  exists driving_session driving_sessions,
    ExpenseTracker.get_or_create_session vehicle
      (ExpenseTracker.driving_sessions db) =
    Some (driving_session, driving_sessions).
Proof.
  intros <- Hone. unfold ExpenseTracker.get_or_create_session.
  unfold et_session in Hone.
  destruct (get _ (ExpenseTracker.driving_sessions db)) as [|pk s|];
    [eexists; eexists; reflexivity ..|congruence].
Qed.

(** The expensetrackerapp endpoint stores the event and answers 201 when
    the sign value is a number, the vehicle has at most one active session
    and one ledger, and every value fits its column. *)
Lemma et_event_stored data db :
  et_session db (ExpenseTracker.SensorData.vehicle_id data)
    <> MultipleObjectsReturned ->
  et_ledger db (ExpenseTracker.SensorData.vehicle_id data)
    <> MultipleObjectsReturned ->
  et_speed_fits data = true ->
  et_ledger_has_room db (ExpenseTracker.SensorData.vehicle_id data) = true ->
  exists body,
    snd (ExpenseTracker.process_sensor_data data db) =
    ExpenseTracker.HTTP_201_CREATED body.
Proof.
  intros Hsession Hone Hfits Hroom. unfold ExpenseTracker.process_sensor_data.
  pose proof (et_get_or_create_vehicle_id
                (ExpenseTracker.SensorData.vehicle_id data)
                (ExpenseTracker.vehicles db)) as Hid.
  destruct (ExpenseTracker.get_or_create_vehicle _ _) as [vehicle vehicles].
  simpl in Hid.
  destruct (et_session_lookup vehicle db Hid Hsession) as (s & ss & ->).
  unfold et_speed_fits in Hfits.
  destruct (ExpenseTracker.speed_limit_of data) as [limit|]; [|discriminate].
  rewrite create_eq. cbn [ExpenseTracker.new_record speed_limit actual_speed].
  rewrite Hfits.
  unfold ExpenseTracker.RewardToken.get_or_create.
  rewrite (et_of_vehicle_id vehicle Hid).
  unfold et_ledger_has_room, et_ledger in *.
  destruct (get _ (ExpenseTracker.reward_tokens db)) as [|pk row|];
    [| |congruence].
  - eexists. reflexivity.
  - cbn [negb]. unfold ExpenseTracker.RewardToken.save.
    rewrite (et_raised_storable row Hroom)
      by apply (award_tokens_bounds _).
    eexists. reflexivity.
Qed.

(** C3: the token delta of a processed sensor event is the tier of the
    freshly computed compliance score: tier set A (90 gives 10, 70 gives 5,
    50 gives 2, else 0) in the Vehicle-keyed application, tier set B (90 gives
    5, 80 gives 3, 70 gives 1, else 0) in the session-keyed one; the delta is
    added to the vehicle's tokens_earned, and a ledger with tokens_earned =
    delta is created when the vehicle has none.  The event is processed, with
    answer 201, whenever the vehicle has at most one ledger (and one active
    session, and a numeric sign value, in the session-keyed application) and
    the values written fit their integer columns; an event that is not
    processed leaves the ledgers as they were. *)
Theorem C3_token_award :
  (forall data db, dw_event_awards data db)
  /\ (forall data db,
        dw_ledger db (DriveWise.SensorData.vehicle_id data)
          <> MultipleObjectsReturned ->
        dw_speed_fits data = true ->
        dw_ledger_has_room db (DriveWise.SensorData.vehicle_id data) = true ->
        exists body,
          snd (DriveWise.process_sensor_data data db) =
          DriveWise.HTTP_201_CREATED body)
  /\ (forall data db, et_event_awards data db)
  /\ (forall data db,
        et_session db (ExpenseTracker.SensorData.vehicle_id data)
          <> MultipleObjectsReturned ->
        et_ledger db (ExpenseTracker.SensorData.vehicle_id data)
          <> MultipleObjectsReturned ->
        et_speed_fits data = true ->
        et_ledger_has_room db (ExpenseTracker.SensorData.vehicle_id data) = true ->
        exists body,
          snd (ExpenseTracker.process_sensor_data data db) =
          ExpenseTracker.HTTP_201_CREATED body)
  /\ (forall score,
        tier_tokens tier_set_A score =
          (if 90 <=? score then 10 else if 70 <=? score then 5
           else if 50 <=? score then 2 else 0)
        /\ tier_tokens tier_set_B score =
          (if 90 <=? score then 5 else if 80 <=? score then 3
           else if 70 <=? score then 1 else 0)).
Proof.
  split; [exact dw_event_awards_holds|].
  split; [exact dw_event_stored|].
  split; [exact et_event_awards_holds|].
  split; [exact et_event_stored|].
  intros score. split; reflexivity.
Qed.

(** The horn event of V1 is processed on top of its first event: score 60,
    2 tokens, the ledger raised from 10 to 12; in expensetrackerapp the
    no-horn event of V1 scores 100 and raises the ledger from 1 to 6. *)
Lemma C3_token_award_witness :
  (exists body,
     snd (DriveWise.process_sensor_data dw_horn_applied dw_db1) =
       DriveWise.HTTP_201_CREATED body
     /\ DriveWise.response_compliance_score body = 60
     /\ DriveWise.response_tokens_earned body = 2
     /\ dw_ledger dw_db1 "V1" =
          Found 0%nat (DriveWise.RewardToken.mk "V1" 10 0)
     /\ dw_ledger (fst (DriveWise.process_sensor_data dw_horn_applied dw_db1))
          "V1" = Found 0%nat (DriveWise.RewardToken.mk "V1" 12 0))
  /\ (exists body,
        snd (ExpenseTracker.process_sensor_data et_no_horn et_db1) =
          ExpenseTracker.HTTP_201_CREATED body
        /\ ExpenseTracker.response_compliance_score body = 100
        /\ ExpenseTracker.response_tokens_earned body = 5
        /\ et_ledger et_db1 "V1" =
             Found 0%nat (ExpenseTracker.RewardToken.mk "V1" 1 0)
        /\ et_ledger
             (fst (ExpenseTracker.process_sensor_data et_no_horn et_db1)) "V1" =
             Found 0%nat (ExpenseTracker.RewardToken.mk "V1" 6 0)).
Proof.
  destruct C3_token_award as (_ & Hdw & _ & Het & _). split.
  - destruct (Hdw dw_horn_applied dw_db1) as [body Hbody];
      [vm_compute; discriminate|reflexivity|reflexivity|].
    exists body. split; [exact Hbody|].
    vm_compute in Hbody. injection Hbody as <-.
    vm_compute. repeat split.
  - destruct (Het et_no_horn et_db1) as [body Hbody];
      [vm_compute; discriminate|vm_compute; discriminate|reflexivity
      |reflexivity|].
    exists body. split; [exact Hbody|].
    vm_compute in Hbody. injection Hbody as <-.
    vm_compute. repeat split.
Defined.

Lemma dw_spend_tokens_spec vehicle_id amount db pk ledger :
  dw_has_vehicle db vehicle_id = true ->
  dw_ledger db vehicle_id = Found pk ledger ->
  dw_spend_outcome vehicle_id amount db pk ledger.
Proof.
  intros Hv Hl. unfold dw_spend_outcome.
  set (requested := DriveWise.get_default amount 0).
  set (available := DriveWise.RewardToken.tokens_available ledger).
  unfold DriveWise.spend_tokens.
  apply first_existsb in Hv. destruct Hv as (i & vehicle & Hv). rewrite Hv.
  apply first_Some in Hv. destruct Hv as [_ Hid]. apply String.eqb_eq in Hid.
  rewrite (dw_of_vehicle_id vehicle Hid).
  unfold dw_ledger in Hl. rewrite Hl.
  fold requested. fold available. fold (dw_spent ledger requested).
  unfold DriveWise.RewardToken.save.
  destruct (Z.ltb_spec available requested) as [Hlt|Hge].
  - split; [intros _; split; reflexivity|lia].
  - split; [lia|]. intros _.
    destruct (DriveWise.RewardToken.storable (dw_spent ledger requested));
      [|split; reflexivity].
    unfold dw_spend_granted.
    split; [unfold DriveWise.RewardToken.tokens_available; simpl;
            unfold available, DriveWise.RewardToken.tokens_available;
            f_equal; lia|].
    split.
    { unfold dw_ledger. simpl.
      apply get_Found_save_row with (row := ledger); [exact Hl|].
      apply get_Found_nth in Hl. simpl. tauto. }
    split; [apply length_save_row|].
    split; [intros pk' Hne; apply nth_error_save_row_neq; congruence|].
    repeat split.
Qed.

Lemma et_spend_tokens_spec vehicle_id tokens db pk ledger :
  et_has_vehicle db vehicle_id = true ->
  et_ledger db vehicle_id = Found pk ledger ->
  et_spend_outcome vehicle_id tokens db pk ledger.
Proof.
  intros Hv Hl. unfold et_spend_outcome.
  set (requested := ExpenseTracker.get_default tokens 0).
  set (available := ExpenseTracker.RewardToken.tokens_available ledger).
  unfold ExpenseTracker.spend_tokens.
  apply first_existsb in Hv. destruct Hv as (i & vehicle & Hv). rewrite Hv.
  apply first_Some in Hv. destruct Hv as [_ Hid]. apply String.eqb_eq in Hid.
  rewrite (et_of_vehicle_id vehicle Hid).
  unfold et_ledger in Hl. rewrite Hl.
  fold requested. fold available. fold (et_spent ledger requested).
  rewrite Z.gtb_ltb. unfold ExpenseTracker.RewardToken.save.
  destruct (Z.ltb_spec available requested) as [Hlt|Hge].
  - split; [intros _; split; reflexivity|lia].
  - split; [lia|]. intros _.
    destruct (ExpenseTracker.RewardToken.storable (et_spent ledger requested));
      [|split; reflexivity].
    unfold et_spend_granted.
    split; [reflexivity|].
    split.
    { unfold et_ledger. simpl.
      apply get_Found_save_row with (row := ledger); [exact Hl|].
      apply get_Found_nth in Hl. simpl. tauto. }
    split; [apply length_save_row|].
    split; [intros pk' Hne; apply nth_error_save_row_neq; congruence|].
    repeat split.
Qed.

Example dw_first_event :
  DriveWise.process_sensor_data dw_seatbelt_worn DriveWise.empty =
  (DriveWise.mkDB
     [DriveWise.Vehicle.mk "V1" "four_wheeler" (Some "Unknown")]
     [DriveWise.TrafficSign.mk "seatbelt" "Yes" "Main St"]
     [mkComplianceRecord (Some "V1") 0%nat None None false false true true
        "no_violation" "low" None 100]
     [DriveWise.RewardToken.mk "V1" 10 0]
     [],
   DriveWise.HTTP_201_CREATED
     (DriveWise.mkResponseData false None 100 None 10 1 None)).
Proof. vm_compute. reflexivity. Qed.

Example dw_second_event :
  DriveWise.compliance_records dw_db2 =
    [mkComplianceRecord (Some "V1") 0%nat None None false false true true
       "no_violation" "low" None 100;
     mkComplianceRecord (Some "V1") 1%nat None None true true true false
       "no_violation" "low" None 60]
  /\ DriveWise.reward_tokens dw_db2 = [DriveWise.RewardToken.mk "V1" 12 0].
Proof. vm_compute. split; reflexivity. Qed.

Example et_two_events :
  ExpenseTracker.compliance_records et_db2 =
    [mkComplianceRecord 0%nat 0%nat (Some 40) (Some 65) false false true true
       "no_violation" "low" None 70;
     mkComplianceRecord 0%nat 1%nat None None true false true true
       "no_violation" "low" None 100]
  /\ ExpenseTracker.reward_tokens et_db2 =
       [ExpenseTracker.RewardToken.mk "V1" 6 0].
Proof. vm_compute. split; reflexivity. Qed.




Example dw_spend_exact_balance :
  DriveWise.spend_tokens "V1" (Some 10) dw_db1 =
  (DriveWise.mkDB (DriveWise.vehicles dw_db1) (DriveWise.traffic_signs dw_db1)
     (DriveWise.compliance_records dw_db1)
     [DriveWise.RewardToken.mk "V1" 10 10] (DriveWise.leaderboard dw_db1),
   DriveWise.HTTP_200_OK 0).
Proof. vm_compute. reflexivity. Qed.

Example dw_spend_too_much :
  DriveWise.spend_tokens "V1" (Some 11) dw_db1 =
  (dw_db1, DriveWise.HTTP_400_BAD_REQUEST).
Proof. vm_compute. reflexivity. Qed.

Lemma award_tokens_nonneg score :
  0 <= DriveWise.award_tokens score /\ 0 <= ExpenseTracker.award_tokens score.
Proof.
  unfold DriveWise.award_tokens, ExpenseTracker.award_tokens.
  repeat match goal with |- context [?a >=? ?b] => destruct (a >=? b) end; lia.
Qed.

(** C8, at the failing input: a spend request with a negative amount passes
    the balance test in both applications and lowers tokens_spent, from 4 to
    1 in drivewise and from 2 to -3 in expensetrackerapp. *)
Theorem C8_negative_amount_lowers_tokens_spent :
  dw_ledger dw_db_spent "V1" = Found 0%nat (DriveWise.RewardToken.mk "V1" 10 4)
  /\ DriveWise.spend_tokens "V1" (Some (-3)) dw_db_spent =
       (DriveWise.mkDB (DriveWise.vehicles dw_db_spent)
          (DriveWise.traffic_signs dw_db_spent)
          (DriveWise.compliance_records dw_db_spent)
          [DriveWise.RewardToken.mk "V1" 10 1]
          (DriveWise.leaderboard dw_db_spent),
        DriveWise.HTTP_200_OK 9)
  /\ et_ledger et_db_spent "V1" =
       Found 0%nat (ExpenseTracker.RewardToken.mk "V1" 6 2)
  /\ ExpenseTracker.spend_tokens "V1" (Some (-5)) et_db_spent =
       (ExpenseTracker.mkDB (ExpenseTracker.vehicles et_db_spent)
          (ExpenseTracker.driving_sessions et_db_spent)
          (ExpenseTracker.traffic_signs et_db_spent)
          (ExpenseTracker.compliance_records et_db_spent)
          [ExpenseTracker.RewardToken.mk "V1" 6 (-3)],
        ExpenseTracker.HTTP_200_OK (ExpenseTracker.RewardToken.mk "V1" 6 (-3))).
Proof. vm_compute. repeat split. Qed.

(** With a non-negative amount a spend request never lowers a counter. *)
Lemma dw_spend_nonneg_monotone vehicle_id amount db pk ledger :
  dw_has_vehicle db vehicle_id = true ->
  dw_ledger db vehicle_id = Found pk ledger ->
  0 <= DriveWise.get_default amount 0 ->
  exists ledger',
    dw_ledger (fst (DriveWise.spend_tokens vehicle_id amount db)) vehicle_id =
      Found pk ledger'
    /\ DriveWise.RewardToken.tokens_earned ledger' =
       DriveWise.RewardToken.tokens_earned ledger
    /\ DriveWise.RewardToken.tokens_spent ledger <=
       DriveWise.RewardToken.tokens_spent ledger'.
Proof.
  intros Hv Hl Hpos.
  pose proof (@dw_spend_tokens_spec vehicle_id amount db pk ledger Hv Hl) as H.
  unfold dw_spend_outcome in H.
  destruct H as [Hreject Haccept].
  destruct (Z.lt_ge_cases (DriveWise.RewardToken.tokens_available ledger)
              (DriveWise.get_default amount 0)) as [Hlt|Hge].
  - destruct (Hreject Hlt) as [_ ->]. exists ledger.
    split; [exact Hl|]. split; [reflexivity|lia].
  - specialize (Haccept Hge).
    destruct (DriveWise.RewardToken.storable _).
    + unfold dw_spend_granted in Haccept.
      destruct (DriveWise.spend_tokens vehicle_id amount db) as [db' response].
      destruct Haccept as (_ & Hl' & _). eexists.
      split; [exact Hl'|]. cbn. split; [reflexivity|lia].
    + destruct Haccept as [_ ->]. exists ledger.
      split; [exact Hl|]. split; [reflexivity|lia].
Qed.

Lemma et_spend_nonneg_monotone vehicle_id tokens db pk ledger :
  et_has_vehicle db vehicle_id = true ->
  et_ledger db vehicle_id = Found pk ledger ->
  0 <= ExpenseTracker.get_default tokens 0 ->
  exists ledger',
    et_ledger (fst (ExpenseTracker.spend_tokens vehicle_id tokens db)) vehicle_id =
      Found pk ledger'
    /\ ExpenseTracker.RewardToken.tokens_earned ledger' =
       ExpenseTracker.RewardToken.tokens_earned ledger
    /\ ExpenseTracker.RewardToken.tokens_spent ledger <=
       ExpenseTracker.RewardToken.tokens_spent ledger'.
Proof.
  intros Hv Hl Hpos.
  pose proof (@et_spend_tokens_spec vehicle_id tokens db pk ledger Hv Hl) as H.
  unfold et_spend_outcome in H.
  destruct H as [Hreject Haccept].
  destruct (Z.lt_ge_cases (ExpenseTracker.RewardToken.tokens_available ledger)
              (ExpenseTracker.get_default tokens 0)) as [Hlt|Hge].
  - destruct (Hreject Hlt) as [_ ->]. exists ledger.
    split; [exact Hl|]. split; [reflexivity|lia].
  - specialize (Haccept Hge).
    destruct (ExpenseTracker.RewardToken.storable _).
    + unfold et_spend_granted in Haccept.
      destruct (ExpenseTracker.spend_tokens vehicle_id tokens db)
        as [db' response].
      destruct Haccept as (_ & Hl' & _). eexists.
      split; [exact Hl'|]. cbn. split; [reflexivity|lia].
    + destruct Haccept as [_ ->]. exists ledger.
      split; [exact Hl|]. split; [reflexivity|lia].
Qed.

(* ------------------------------------------------------------------ *)
(** ** Compliance records written by the endpoints *)

Lemma save_fst {Owner} pk (self : ComplianceRecord Owner) objects :
  fst (save pk self objects) =
  set_compliance_score self (calculate_compliance_score self).
Proof. destruct pk; reflexivity. Qed.

Lemma calculate_set_compliance_score {Owner} (self : ComplianceRecord Owner) v :
  calculate_compliance_score (set_compliance_score self v) =
  calculate_compliance_score self.
Proof. reflexivity. Qed.

Lemma dw_process_sensor_data_records data db :
  exists created,
    Forall dw_created created /\
    DriveWise.compliance_records (fst (DriveWise.process_sensor_data data db)) =
    DriveWise.compliance_records db ++ created.
Proof.
  unfold DriveWise.process_sensor_data.
  destruct (DriveWise.get_or_create_vehicle _ _) as [vehicle vehicles].
  set (new := DriveWise.new_record data vehicle _).
  destruct (create new (DriveWise.compliance_records db))
    as [[record records]|] eqn:Hc;
    [|exists []; split; [constructor|simpl; rewrite app_nil_r; reflexivity]].
  apply create_Some in Hc. destruct Hc as (Hrec & -> & _).
  exists [record]. split.
  - constructor; [|constructor]. rewrite Hrec.
    exists data, vehicle, (List.length (DriveWise.traffic_signs db)). reflexivity.
  - destruct (DriveWise.RewardToken.get_or_create _ _ _) as [[[[pk t] c] ts]|];
      [|reflexivity].
    destruct (if negb c then _ else _); reflexivity.
Qed.

Lemma dw_spend_tokens_records vehicle_id amount db :
  DriveWise.compliance_records (fst (DriveWise.spend_tokens vehicle_id amount db)) =
  DriveWise.compliance_records db.
Proof.
  unfold DriveWise.spend_tokens.
  destruct (first _ _) as [[i v]|]; [|reflexivity].
  destruct (get _ _) as [|pk t|]; try reflexivity.
  destruct (_ <? _); [reflexivity|].
  destruct (DriveWise.RewardToken.save _ _ _); reflexivity.
Qed.

Lemma dw_run_cons request requests db :
  DriveWise.run (request :: requests) db =
  DriveWise.run requests (fst (DriveWise.handle request db)).
Proof. reflexivity. Qed.

Lemma et_run_cons request requests db :
  ExpenseTracker.run (request :: requests) db =
  ExpenseTracker.run requests (fst (ExpenseTracker.handle request db)).
Proof. reflexivity. Qed.

Lemma dw_run_records requests : forall db,
  exists created,
    Forall dw_created created /\
    DriveWise.compliance_records (DriveWise.run requests db) =
    DriveWise.compliance_records db ++ created.
Proof.
  induction requests as [|request requests IH]; intros db.
  - exists []. split; [constructor|]. simpl. rewrite app_nil_r. reflexivity.
  - rewrite dw_run_cons.
    destruct (IH (fst (DriveWise.handle request db))) as (created & Hc & Heq).
    rewrite Heq. destruct request as [data|vehicle_id amount];
      cbn [DriveWise.handle].
    + destruct (dw_process_sensor_data_records data db) as (new & Hn & Hrec).
      exists (new ++ created). split; [apply Forall_app; split; assumption|].
      rewrite Hrec, <- app_assoc. reflexivity.
    + exists created. split; [assumption|].
      rewrite dw_spend_tokens_records. reflexivity.
Qed.

Lemma et_process_sensor_data_records data db :
  exists created,
    Forall et_created created /\
    ExpenseTracker.compliance_records
      (fst (ExpenseTracker.process_sensor_data data db)) =
    ExpenseTracker.compliance_records db ++ created.
Proof.
  unfold ExpenseTracker.process_sensor_data.
  destruct (ExpenseTracker.get_or_create_vehicle _ _) as [vehicle vehicles].
  destruct (ExpenseTracker.get_or_create_session _ _) as [[session sessions]|];
    [|exists []; split; [constructor|simpl; rewrite app_nil_r; reflexivity]].
  destruct (ExpenseTracker.speed_limit_of data) as [limit|];
    [|exists []; split; [constructor|simpl; rewrite app_nil_r; reflexivity]].
  set (new := ExpenseTracker.new_record data vehicle _ _ _).
  destruct (create new (ExpenseTracker.compliance_records db))
    as [[record records]|] eqn:Hc;
    [|exists []; split; [constructor|simpl; rewrite app_nil_r; reflexivity]].
  apply create_Some in Hc. destruct Hc as (Hrec & -> & _).
  exists [record]. split.
  - constructor; [|constructor]. rewrite Hrec.
    exists data, vehicle, session,
      (List.length (ExpenseTracker.traffic_signs db)), limit. reflexivity.
  - destruct (ExpenseTracker.RewardToken.get_or_create _ _ _)
      as [[[[pk t] c] ts]|]; [|reflexivity].
    destruct (if negb c then _ else _); reflexivity.
Qed.

Lemma et_spend_tokens_records vehicle_id tokens db :
  ExpenseTracker.compliance_records
    (fst (ExpenseTracker.spend_tokens vehicle_id tokens db)) =
  ExpenseTracker.compliance_records db.
Proof.
  unfold ExpenseTracker.spend_tokens.
  destruct (first _ _) as [[i v]|]; [|reflexivity].
  destruct (get _ _) as [|pk t|]; try reflexivity.
  destruct (_ >? _); [reflexivity|].
  destruct (ExpenseTracker.RewardToken.save _ _ _); reflexivity.
Qed.

Lemma et_run_records requests : forall db,
  exists created,
    Forall et_created created /\
    ExpenseTracker.compliance_records (ExpenseTracker.run requests db) =
    ExpenseTracker.compliance_records db ++ created.
Proof.
  induction requests as [|request requests IH]; intros db.
  - exists []. split; [constructor|]. simpl. rewrite app_nil_r. reflexivity.
  - rewrite et_run_cons.
    destruct (IH (fst (ExpenseTracker.handle request db))) as (created & Hc & Heq).
    rewrite Heq. destruct request as [data|vehicle_id tokens];
      cbn [ExpenseTracker.handle].
    + destruct (et_process_sensor_data_records data db) as (new & Hn & Hrec).
      exists (new ++ created). split; [apply Forall_app; split; assumption|].
      rewrite Hrec, <- app_assoc. reflexivity.
    + exists created. split; [assumption|].
      rewrite et_spend_tokens_records. reflexivity.
Qed.

Lemma dw_created_score_derived r : dw_created r -> score_derived r.
Proof. intros (data & vehicle & ts & ->). reflexivity. Qed.

Lemma et_created_score_derived r : et_created r -> score_derived r.
Proof. intros (data & vehicle & s & ts & limit & ->). reflexivity. Qed.

(** C7: every save of a ComplianceRecord overwrites compliance_score with the
    score computed from the record's own fields just before the row is
    written; whatever score the caller put on the record is discarded, and
    every record the endpoints persist satisfies compliance_score =
    calculate_compliance_score of its fields. *)
Theorem C7_score_recomputed_on_save :
  (forall (Owner : Type) pk (self : ComplianceRecord Owner) objects supplied,
     let stored := fst (save pk self objects) in
     score_derived stored
     /\ stored = set_compliance_score self (calculate_compliance_score self)
     /\ save pk (set_compliance_score self supplied) objects = save pk self objects
     /\ snd (save pk self objects) =
          match pk with
          | None => objects ++ [stored]
          | Some pk => save_row pk stored objects
          end)
  /\ (forall requests db,
        exists created,
          Forall score_derived created /\
          DriveWise.compliance_records (DriveWise.run requests db) =
          DriveWise.compliance_records db ++ created)
  /\ (forall requests db,
        exists created,
          Forall score_derived created /\
          ExpenseTracker.compliance_records (ExpenseTracker.run requests db) =
          ExpenseTracker.compliance_records db ++ created).
Proof.
  split; [|split].
  - intros Owner pk self objects supplied stored. subst stored.
    rewrite save_fst.
    split; [reflexivity|]. split; [reflexivity|].
    split; destruct pk; reflexivity.
  - intros requests db. destruct (dw_run_records requests db) as (created & Hc & Heq).
    exists created. split; [|exact Heq].
    eapply Forall_impl; [|exact Hc]. exact dw_created_score_derived.
  - intros requests db. destruct (et_run_records requests db) as (created & Hc & Heq).
    exists created. split; [|exact Heq].
    eapply Forall_impl; [|exact Hc]. exact et_created_score_derived.
Qed.

Example save_discards_supplied_score :
  fst (save None
         (mkComplianceRecord tt 0%nat (Some 40) (Some 65) false false false false
            "no_violation" "low" None 12345) []) =
  mkComplianceRecord tt 0%nat (Some 40) (Some 65) false false false false
    "no_violation" "low" None 70.
Proof. reflexivity. Qed.

(* ------------------------------------------------------------------ *)
(** ** The speed rule in the two endpoints *)

Lemma same_speed_no_penalty {Owner} (r : ComplianceRecord Owner) :
  actual_speed r = speed_limit r -> speed_never_exceeded r.
Proof.
  intros H. assert (Hs : spec_speed_penalty r = 0).
  { unfold spec_speed_penalty. rewrite H.
    destruct (speed_limit r) as [limit|]; [|reflexivity].
    rewrite Z.ltb_irrefl, andb_false_r. reflexivity. }
  split; [exact H|]. split; [exact Hs|].
  rewrite score_is_100_minus_penalties. unfold spec_penalties. rewrite Hs.
  unfold spec_horn_penalty, spec_seatbelt_penalty.
  destruct (no_horn_zone r && horn_applied r);
    destruct (seatbelt_required r && negb (seatbelt_worn r)); reflexivity.
Qed.

Lemma dw_created_speed r : dw_created r -> speed_never_exceeded r.
Proof.
  intros (data & vehicle & ts & ->). apply same_speed_no_penalty.
  rewrite save_fst. reflexivity.
Qed.

(** C10: the Vehicle-keyed endpoint gives speed_limit and actual_speed of the
    record it creates the same value, the event's drive_value (0 when absent),
    for a speed_limit sign and leaves both null for every other sign; so
    actual_speed > speed_limit never holds and no record created through this
    endpoint carries a speed penalty, whereas the session-keyed endpoint,
    which reads actual_speed from the payload, can create one that does. *)
Theorem C10_speed_penalty_unreachable :
  (forall data vehicle traffic_sign,
     let r := DriveWise.new_record data vehicle traffic_sign in
     speed_limit r =
       (if String.eqb (DriveWise.SensorData.sign_type data) "speed_limit"
        then Some (DriveWise.get_default (DriveWise.SensorData.drive_value data) 0)
        else None)
     /\ actual_speed r = speed_limit r)
  /\ (forall requests db,
        exists created,
          Forall speed_never_exceeded created /\
          DriveWise.compliance_records (DriveWise.run requests db) =
          DriveWise.compliance_records db ++ created)
  /\ (exists r,
        ExpenseTracker.compliance_records
          (fst (ExpenseTracker.process_sensor_data et_speed_65
                  ExpenseTracker.empty)) = [r]
        /\ speed_limit r = Some 40 /\ actual_speed r = Some 65
        /\ spec_speed_penalty r = 30
        /\ calculate_compliance_score r = 70).
Proof.
  split; [|split].
  - intros data vehicle ts r. split; reflexivity.
  - intros requests db. destruct (dw_run_records requests db) as (created & Hc & Heq).
    exists created. split; [|exact Heq].
    eapply Forall_impl; [|exact Hc]. exact dw_created_speed.
  - eexists. split; [vm_compute; reflexivity|]. repeat split.
Qed.

Example dw_speeding_goes_unnoticed :
  DriveWise.compliance_records
    (fst (DriveWise.process_sensor_data dw_speed_65 DriveWise.empty)) =
  [mkComplianceRecord (Some "V1") 0%nat (Some 65) (Some 65) false false true false
     "no_violation" "low" None 75].
Proof. vm_compute. reflexivity. Qed.

(* ------------------------------------------------------------------ *)
(** ** The violation classification *)

Lemma dw_created_default r : dw_created r -> default_classification r.
Proof. intros (data & vehicle & ts & ->). split; reflexivity. Qed.

Lemma et_created_default r : et_created r -> default_classification r.
Proof. intros (data & vehicle & s & ts & limit & ->). split; reflexivity. Qed.

Lemma dw_reports_no_violation_holds data db : dw_reports_no_violation data db.
Proof.
  unfold dw_reports_no_violation, DriveWise.process_sensor_data.
  destruct (DriveWise.get_or_create_vehicle _ _) as [vehicle vehicles].
  destruct (create _ _) as [[record records]|] eqn:Hc; [|exact I].
  apply create_Some in Hc. destruct Hc as (-> & _).
  destruct (DriveWise.RewardToken.get_or_create _ _ _) as [[[[pk t] c] ts]|];
    [|exact I].
  destruct (if negb c then _ else _); [|exact I].
  simpl. auto.
Qed.

(** C2, at the failing input and in general: nothing derives violation_type
    or severity from the penalties.  save() keeps the two fields the record
    carries; the sensor endpoints pass neither, so every record they create,
    over any run of requests, holds the defaults 'no_violation' and 'low',
    and the Vehicle-keyed endpoint reports no violation.  At the failing
    input, a horn applied in a no-horn zone by a four-wheeler without
    seatbelt, the record carries the penalties 15 and 25 (score 60), its
    primary violation would be horn_violation, and it is persisted with
    'no_violation' and 'low' and reported as no violation; the session-keyed
    endpoint stores a record speeding by 25 over the limit (penalty 30) with
    'no_violation' too. *)
Theorem C2_violation_type_not_derived :
  (forall (Owner : Type) pk (self : ComplianceRecord Owner) objects,
     violation_type (fst (save pk self objects)) = violation_type self
     /\ severity (fst (save pk self objects)) = severity self)
  /\ (forall requests db,
        exists created,
          Forall default_classification created /\
          DriveWise.compliance_records (DriveWise.run requests db) =
          DriveWise.compliance_records db ++ created)
  /\ (forall requests db,
        exists created,
          Forall default_classification created /\
          ExpenseTracker.compliance_records (ExpenseTracker.run requests db) =
          ExpenseTracker.compliance_records db ++ created)
  /\ (forall data db, dw_reports_no_violation data db)
  /\ (exists r body,
        DriveWise.process_sensor_data dw_horn_applied dw_db1 =
          (DriveWise.mkDB (DriveWise.vehicles dw_db1)
             (DriveWise.traffic_signs dw_db1
              ++ [DriveWise.TrafficSign.mk "no_horn" "Yes" "Main St"])
             (DriveWise.compliance_records dw_db1 ++ [r])
             [DriveWise.RewardToken.mk "V1" 12 0]
             (DriveWise.leaderboard dw_db1),
           DriveWise.HTTP_201_CREATED body)
        /\ spec_horn_penalty r = 15
        /\ spec_seatbelt_penalty r = 25
        /\ compliance_score r = 60
        /\ primary_violation r = "horn_violation"
        /\ violation_type r = "no_violation"
        /\ severity r = "low"
        /\ DriveWise.violation_detected body = false
        /\ DriveWise.response_violation_type body = None)
  /\ (exists r,
        ExpenseTracker.compliance_records
          (fst (ExpenseTracker.process_sensor_data et_speed_65
                  ExpenseTracker.empty)) = [r]
        /\ spec_speed_penalty r = 30
        /\ compliance_score r = 70
        /\ primary_violation r = "speed_violation"
        /\ violation_type r = "no_violation"
        /\ severity r = "low").
Proof.
  split; [|split; [|split; [|split; [|split]]]].
  - intros Owner pk self objects. rewrite save_fst. split; reflexivity.
  - intros requests db.
    destruct (dw_run_records requests db) as (created & Hc & Heq).
    exists created. split; [|exact Heq].
    eapply Forall_impl; [|exact Hc]. exact dw_created_default.
  - intros requests db.
    destruct (et_run_records requests db) as (created & Hc & Heq).
    exists created. split; [|exact Heq].
    eapply Forall_impl; [|exact Hc]. exact et_created_default.
  - exact dw_reports_no_violation_holds.
  - exists (mkComplianceRecord (Some "V1") 1%nat None None true true true false
              "no_violation" "low" None 60).
    eexists. split; [vm_compute; reflexivity|]. repeat split.
  - exists (mkComplianceRecord 0%nat 0%nat (Some 40) (Some 65) false false true
              true "no_violation" "low" None 70).
    split; [vm_compute; reflexivity|]. repeat split.
Qed.

(* ------------------------------------------------------------------ *)
(** ** Vehicle aggregates *)

Lemma length_filter_cons {A} (p : A -> bool) x l :
  Z.of_nat (List.length (filter p (x :: l))) =
  (if p x then 1 else 0) + Z.of_nat (List.length (filter p l)).
Proof. simpl. destruct (p x); simpl List.length; lia. Qed.

(** Comparisons of literal texts are evaluated. *)
Ltac eval_eqb :=
  repeat match goal with
  | |- context [String.eqb ?a ?b] =>
      let v := eval vm_compute in (String.eqb a b) in
      match v with
      | true => change (String.eqb a b) with true
      | false => change (String.eqb a b) with false
      end
  end; cbn [orb andb].

Lemma total_violations_by_type objects self :
  DriveWise.Vehicle.total_violations objects self =
  count_of self "speed_violation" objects
  + count_of self "horn_violation" objects
  + count_of self "seatbelt_violation" objects.
Proof.
  unfold DriveWise.Vehicle.total_violations, count_of.
  induction objects as [|r objects IH]; [reflexivity|].
  rewrite !length_filter_cons, IH.
  unfold DriveWise.Vehicle.violation_type__in. cbn [existsb].
  destruct (DriveWise.Vehicle.of_vehicle self r); cbn [andb]; [|lia].
  destruct (String.eqb_spec (violation_type r) "speed_violation") as [E|_];
    [rewrite ?E; eval_eqb; lia|].
  destruct (String.eqb_spec (violation_type r) "horn_violation") as [E|_];
    [rewrite ?E; eval_eqb; lia|].
  destruct (String.eqb_spec (violation_type r) "seatbelt_violation") as [E|_];
    [rewrite ?E; eval_eqb; lia|].
  cbn [orb]. lia.
Qed.

Lemma violations_and_stops_le_trips objects self :
  0 <= DriveWise.Vehicle.total_violations objects self
  /\ DriveWise.Vehicle.total_violations objects self
     + count_of self "stop_violation" objects
     <= DriveWise.Vehicle.total_trips objects self.
Proof.
  split; [unfold DriveWise.Vehicle.total_violations; lia|].
  unfold DriveWise.Vehicle.total_violations, DriveWise.Vehicle.total_trips,
    count_of.
  induction objects as [|r objects IH]; [simpl; lia|].
  rewrite !length_filter_cons.
  destruct (DriveWise.Vehicle.of_vehicle self r); cbn [andb]; [|lia].
  destruct (String.eqb_spec (violation_type r) "stop_violation") as [E|_].
  - replace (DriveWise.Vehicle.violation_type__in _ r) with false; [lia|].
    unfold DriveWise.Vehicle.violation_type__in. rewrite E. reflexivity.
  - destruct (DriveWise.Vehicle.violation_type__in _ r); lia.
Qed.

(** C5: compliance_rate is 100.0 for a vehicle without records and otherwise
    round(((total_trips - total_violations) / total_trips) * 100, 2);
    total_trips counts all the vehicle's records, total_violations those whose
    violation_type is speed_violation, horn_violation or seatbelt_violation,
    so that a stop_violation record counts as a trip and not as a
    violation. *)
Theorem C5_compliance_rate :
  forall (objects : list DriveWise.CRecord) (self : DriveWise.Vehicle.t),
    let total_trips := DriveWise.Vehicle.total_trips objects self in
    let total_violations := DriveWise.Vehicle.total_violations objects self in
    total_trips =
      Z.of_nat (List.length (filter (DriveWise.Vehicle.of_vehicle self) objects))
    /\ total_violations =
         count_of self "speed_violation" objects
         + count_of self "horn_violation" objects
         + count_of self "seatbelt_violation" objects
    /\ 0 <= total_violations
    /\ total_violations + count_of self "stop_violation" objects <= total_trips
    /\ DriveWise.Vehicle.compliance_rate objects self =
         (if total_trips =? 0 then 100%float
          else Py.round2
                 (Py.truediv (total_trips - total_violations) total_trips
                  * 100)%float).
Proof.
  intros objects self total_trips total_violations.
  split; [reflexivity|].
  split; [apply total_violations_by_type|].
  split; [apply violations_and_stops_le_trips|].
  split; [apply violations_and_stops_le_trips|].
  reflexivity.
Qed.

Example compliance_rate_no_records :
  DriveWise.Vehicle.compliance_rate [] dw_v1 = 100%float.
Proof. reflexivity. Qed.

Example compliance_rate_mixed :
  DriveWise.Vehicle.total_trips dw_mixed_records dw_v1 = 3
  /\ DriveWise.Vehicle.total_violations dw_mixed_records dw_v1 = 1
  /\ count_of dw_v1 "stop_violation" dw_mixed_records = 1
  /\ DriveWise.Vehicle.compliance_rate dw_mixed_records dw_v1 = 66.67%float
  /\ DriveWise.Vehicle.average_compliance_score dw_mixed_records dw_v1 = 90%float.
Proof. vm_compute. repeat split. Qed.

Lemma total_trips_app l l' self :
  DriveWise.Vehicle.total_trips (l ++ l') self =
  DriveWise.Vehicle.total_trips l self + DriveWise.Vehicle.total_trips l' self.
Proof.
  unfold DriveWise.Vehicle.total_trips. rewrite filter_app, length_app. lia.
Qed.

Lemma total_violations_app l l' self :
  DriveWise.Vehicle.total_violations (l ++ l') self =
  DriveWise.Vehicle.total_violations l self
  + DriveWise.Vehicle.total_violations l' self.
Proof.
  unfold DriveWise.Vehicle.total_violations. rewrite filter_app, length_app. lia.
Qed.

Lemma total_violations_default created self :
  Forall default_classification created ->
  DriveWise.Vehicle.total_violations created self = 0.
Proof.
  unfold DriveWise.Vehicle.total_violations.
  induction 1 as [|r created [Hr _] _ IH]; [reflexivity|].
  rewrite length_filter_cons, IH.
  unfold DriveWise.Vehicle.violation_type__in. rewrite Hr.
  rewrite andb_false_r. reflexivity.
Qed.

Lemma compliance_rate_without_violations objects self :
  DriveWise.Vehicle.total_violations objects self = 0 ->
  DriveWise.Vehicle.compliance_rate objects self = 100%float.
Proof.
  intros H. unfold DriveWise.Vehicle.compliance_rate. rewrite H.
  destruct (Z.eqb_spec (DriveWise.Vehicle.total_trips objects self) 0);
    [reflexivity|].
  apply full_rate. unfold DriveWise.Vehicle.total_trips in *. lia.
Qed.

(** C9: every record the sensor endpoint creates keeps the field defaults
    violation_type = 'no_violation' and severity = 'low' (the endpoint does
    not pass them and save does not assign them); hence a vehicle all of
    whose records come from this flow has total_violations = 0 and
    compliance_rate = 100.0, whatever penalties the scores reflect. *)
Theorem C9_endpoint_records_never_count :
  (forall requests db,
     exists created,
       Forall default_classification created /\
       DriveWise.compliance_records (DriveWise.run requests db) =
       DriveWise.compliance_records db ++ created)
  /\ (forall requests db self,
        DriveWise.Vehicle.total_trips (DriveWise.compliance_records db) self = 0 ->
        let objects := DriveWise.compliance_records (DriveWise.run requests db) in
        DriveWise.Vehicle.total_violations objects self = 0
        /\ DriveWise.Vehicle.compliance_rate objects self = 100%float).
Proof.
  assert (Hrun : forall requests db,
     exists created,
       Forall default_classification created /\
       DriveWise.compliance_records (DriveWise.run requests db) =
       DriveWise.compliance_records db ++ created).
  { intros requests db.
    destruct (dw_run_records requests db) as (created & Hc & Heq).
    exists created. split; [|exact Heq].
    eapply Forall_impl; [|exact Hc]. exact dw_created_default. }
  split; [exact Hrun|].
  intros requests db self Hnone objects.
  assert (Hv : DriveWise.Vehicle.total_violations objects self = 0).
  { subst objects. destruct (Hrun requests db) as (created & Hc & ->).
    rewrite total_violations_app, (total_violations_default self Hc).
    pose proof (violations_and_stops_le_trips (DriveWise.compliance_records db) self).
    unfold count_of in *. lia. }
  split; [exact Hv|]. apply compliance_rate_without_violations. exact Hv.
Qed.

Lemma C9_endpoint_records_never_count_witness :
  map (@compliance_score _) (DriveWise.compliance_records dw_db3) = [100; 60; 75]
  /\ DriveWise.Vehicle.total_violations (DriveWise.compliance_records dw_db3)
       dw_v1 = 0
  /\ DriveWise.Vehicle.compliance_rate (DriveWise.compliance_records dw_db3)
       dw_v1 = 100%float.
Proof.
  split; [vm_compute; reflexivity|].
  apply (proj2 C9_endpoint_records_never_count dw_three_events DriveWise.empty dw_v1).
  reflexivity.
Defined.

(* ------------------------------------------------------------------ *)
(** ** The leaderboard ranker *)

Section Ranking.

Import DriveWise.Leaderboard.


Ltac by_cases_on_keys :=
  unfold precedes;
  repeat match goal with
  | |- context [?a =? ?b] => destruct (Z.eqb_spec a b)
  | H : context [?a =? ?b] |- _ => destruct (Z.eqb_spec a b)
  | |- context [?a <? ?b] => destruct (Z.ltb_spec a b)
  | H : context [?a <? ?b] |- _ => destruct (Z.ltb_spec a b)
  | |- context [?a <=? ?b] => destruct (Z.leb_spec a b)
  | H : context [?a <=? ?b] |- _ => destruct (Z.leb_spec a b)
  end; try reflexivity; try discriminate; try lia.

Lemma precedes_total a b : precedes a b = false -> precedes b a = true.
Proof. intros H. revert H. by_cases_on_keys. Qed.

Lemma precedes_trans a b c :
  precedes a b = true -> precedes b c = true -> precedes a c = true.
Proof. intros H1 H2. revert H1 H2. by_cases_on_keys. Qed.

Lemma ranks_above_not_preceded a b : ranks_above a b -> precedes b a = false.
Proof. unfold ranks_above. intros H. by_cases_on_keys. Qed.

Lemma insert_entry_perm x rows : Permutation (insert_entry x rows) (x :: rows).
Proof.
  induction rows as [|y rows IH]; simpl; [reflexivity|].
  destruct (precedes (snd x) (snd y)); [reflexivity|].
  rewrite IH. apply perm_swap.
Qed.

Lemma order_by_perm rows : Permutation (order_by rows) rows.
Proof.
  induction rows as [|x rows IH]; simpl; [reflexivity|].
  rewrite insert_entry_perm. apply perm_skip. exact IH.
Qed.

Lemma insert_entry_sorted x rows :
  StronglySorted before rows -> StronglySorted before (insert_entry x rows).
Proof.
  induction 1 as [|y rows Hss IH Hall]; simpl.
  - constructor; constructor.
  - destruct (precedes (snd x) (snd y)) eqn:E.
    + constructor; [constructor; assumption|].
      constructor; [exact E|].
      eapply Forall_impl; [|exact Hall].
      intros z Hz. unfold before in *. eapply precedes_trans; eassumption.
    + constructor; [exact IH|].
      eapply Permutation_Forall; [symmetry; apply insert_entry_perm|].
      constructor; [|exact Hall].
      apply precedes_total. exact E.
Qed.

Lemma order_by_sorted rows : StronglySorted before (order_by rows).
Proof.
  induction rows as [|x rows IH]; simpl; [constructor|].
  apply insert_entry_sorted. exact IH.
Qed.

Lemma save_ranked_eq objects item :
  save_ranked objects item = save_row (item_pk item) (item_row item) objects.
Proof. destruct item as [rank [pk entry]]. reflexivity. Qed.

Lemma fold_save_ranked_length items : forall objects,
  List.length (fold_left save_ranked items objects) = List.length objects.
Proof.
  induction items as [|item items IH]; intros objects; [reflexivity|].
  cbn [fold_left]. rewrite IH, save_ranked_eq. apply length_save_row.
Qed.

Lemma fold_save_ranked_other items pk : forall objects,
  ~ In pk (map item_pk items) ->
  nth_error (fold_left save_ranked items objects) pk = nth_error objects pk.
Proof.
  induction items as [|item items IH]; intros objects Hnot; [reflexivity|].
  cbn [fold_left]. rewrite IH, save_ranked_eq.
  - apply nth_error_save_row_neq. intros E. apply Hnot. left. exact E.
  - intros Hin. apply Hnot. right. exact Hin.
Qed.

Lemma fold_save_ranked_written items : forall objects item,
  NoDup (map item_pk items) ->
  (forall i, In i items -> (item_pk i < List.length objects)%nat) ->
  In item items ->
  nth_error (fold_left save_ranked items objects) (item_pk item) =
  Some (item_row item).
Proof.
  induction items as [|first items IH]; intros objects item Hnd Hlt Hin;
    [destruct Hin|].
  cbn [fold_left]. cbn [map] in Hnd. apply NoDup_cons_iff in Hnd.
  destruct Hnd as [Hfresh Hnd]. destruct Hin as [->|Hin].
  - rewrite fold_save_ranked_other by exact Hfresh.
    rewrite save_ranked_eq. apply nth_error_save_row_eq. apply Hlt. left.
    reflexivity.
  - apply IH; [exact Hnd| |exact Hin].
    intros i Hi. rewrite save_ranked_eq, length_save_row. apply Hlt. right.
    exact Hi.
Qed.

Lemma enumerate_snd {A} (rows : list A) : forall start,
  map snd (enumerate start rows) = rows.
Proof.
  induction rows as [|x rows IH]; intros start; [reflexivity|].
  cbn [enumerate map snd]. rewrite IH. reflexivity.
Qed.

Lemma enumerate_fst {A} (rows : list A) : forall start,
  map fst (enumerate start rows) =
  map (fun i => start + Z.of_nat i) (seq 0 (List.length rows)).
Proof.
  induction rows as [|x rows IH]; intros start; [reflexivity|].
  cbn [enumerate map fst List.length seq]. rewrite IH, <- seq_shift, map_map.
  f_equal; [lia|]. apply map_ext. intros i. lia.
Qed.



Lemma indexed_from_fst {A} (objects : list A) : forall n,
  map fst (indexed_from n objects) = seq n (List.length objects).
Proof.
  induction objects as [|x objects IH]; intros n; [reflexivity|].
  rewrite indexed_from_cons. cbn [map fst List.length seq]. rewrite IH.
  reflexivity.
Qed.

Lemma map_nth_seq {A} (l : list A) d :
  map (fun i => nth i l d) (seq 0 (List.length l)) = l.
Proof.
  apply nth_ext with (d := d) (d' := d).
  - rewrite length_map, length_seq. reflexivity.
  - intros n Hn. rewrite length_map, length_seq in Hn.
    rewrite (nth_indep _ d (nth 0 l d)) by (rewrite length_map, length_seq; exact Hn).
    rewrite (map_nth (fun i => nth i l d) (seq 0 (List.length l)) 0%nat n).
    rewrite seq_nth by exact Hn. reflexivity.
Qed.

(** After the ranking loop the table holds exactly the rows of the ordered
    query set, each with its position as rank. *)
Lemma ranked_table objects :
  let items := enumerate 1 (order_by (indexed objects)) in
  Permutation (map item_row items) (fold_left save_ranked items objects).
Proof.
  intros items.
  set (ranked := fold_left save_ranked items objects).
  assert (Hpks : map item_pk items = map fst (order_by (indexed objects))).
  { unfold items. rewrite <- (enumerate_snd (order_by (indexed objects)) 1) at 2.
    rewrite map_map. reflexivity. }
  assert (Hperm : Permutation (map item_pk items) (seq 0 (List.length objects))).
  { rewrite Hpks, <- (indexed_from_fst objects 0).
    apply Permutation_map. apply order_by_perm. }
  assert (Hlen : List.length ranked = List.length objects)
    by apply fold_save_ranked_length.
  assert (Hnd : NoDup (map item_pk items)).
  { eapply Permutation_NoDup; [symmetry; exact Hperm|apply seq_NoDup]. }
  assert (Hlt : forall i, In i items -> (item_pk i < List.length objects)%nat).
  { intros i Hi. apply (in_map item_pk) in Hi.
    eapply Permutation_in in Hi; [|exact Hperm]. apply in_seq in Hi. lia. }
  pose (d := create (DriveWise.Vehicle.mk "" "" None)).
  rewrite <- (map_nth_seq ranked d), Hlen.
  replace (map item_row items)
    with (map (fun i => nth i ranked d) (map item_pk items)).
  - apply Permutation_map. exact Hperm.
  - rewrite map_map. apply map_ext_in. intros item Hin.
    apply nth_error_nth. apply fold_save_ranked_written; assumption.
Qed.

Lemma ranked_ranks {A} (rows : list A) (row_of : Z * A -> t) :
  (forall item, rank (row_of item) = fst item) ->
  map rank (map row_of (enumerate 1 rows)) = ranks_1_to (List.length rows).
Proof.
  intros H. rewrite map_map, (map_ext _ fst H), enumerate_fst.
  unfold ranks_1_to. rewrite <- seq_shift, map_map. apply map_ext.
  intros i. lia.
Qed.

Lemma update_all_rankings_ranked vehicles records tokens objects :
  exists refreshed,
    let items := enumerate 1 (order_by (indexed refreshed)) in
    update_all_rankings vehicles records tokens objects =
      fold_left save_ranked items refreshed
    /\ Permutation (map item_row items)
         (update_all_rankings vehicles records tokens objects).
Proof.
  unfold update_all_rankings.
  set (refreshed := fold_left _ (filter _ vehicles) objects).
  exists refreshed. split; [reflexivity|]. apply ranked_table.
Qed.


End Ranking.

Example dw_leaderboard_after_seven_events :
  DriveWise.leaderboard dw_db7 = [dw_entry_v1; dw_entry_v2].
Proof. vm_compute. reflexivity. Qed.


(* ------------------------------------------------------------------ *)
(** ** More on lookups *)

Unset Implicit Arguments.

Section Lookups.

Context {A : Type}.
Variable p : A -> bool.

Lemma filter_indexed_snd (objects : list A) : forall n,
  map snd (filter (on_row p) (indexed_from n objects)) = filter p objects.
Proof.
  induction objects as [|x objects IH]; intros n; [reflexivity|].
  rewrite filter_indexed_cons. cbn [filter].
  destruct (p x); cbn [map snd]; rewrite IH; reflexivity.
Qed.

Lemma first_None (objects : list A) :
  first p objects = None <-> forall x, In x objects -> p x = false.
Proof.
  unfold first, indexed. split.
  - intros H x Hin. destruct (p x) eqn:Hx; [|reflexivity].
    assert (Hf : In x (filter p objects)) by (apply filter_In; auto).
    rewrite <- (filter_indexed_snd objects 0) in Hf.
    destruct (filter (on_row p) (indexed_from 0 objects)); [destruct Hf|discriminate].
  - intros H.
    destruct (filter (on_row p) (indexed_from 0 objects)) as [|[pk row] rest] eqn:Hf;
      [reflexivity|].
    assert (Hin : In (pk, row) (filter (on_row p) (indexed_from 0 objects)))
      by (rewrite Hf; left; reflexivity).
    apply filter_In in Hin. destruct Hin as [Hin Hp].
    apply indexed_from_In in Hin. destruct Hin as [_ Hn].
    apply nth_error_In in Hn. apply H in Hn. unfold on_row in Hp. simpl in Hp.
    congruence.
Qed.

Lemma first_from_least (objects : list A) : forall n pk row,
  hd_error (filter (on_row p) (indexed_from n objects)) = Some (pk, row) ->
  forall j y, (n <= j < pk)%nat -> nth_error objects (j - n) = Some y ->
              p y = false.
Proof.
  induction objects as [|x objects IH]; intros n pk row H j y Hj Hy.
  - discriminate.
  - rewrite filter_indexed_cons in H. destruct (p x) eqn:Hx.
    + injection H as <- <-. lia.
    + destruct (Nat.eq_dec j n) as [->|Hne].
      * rewrite Nat.sub_diag in Hy. injection Hy as <-. exact Hx.
      * eapply IH with (n := S n) (j := j); [exact H|lia|].
        replace (j - n)%nat with (S (j - S n)) in Hy by lia. exact Hy.
Qed.

Lemma first_least (objects : list A) pk row :
  first p objects = Some (pk, row) ->
  forall j y, (j < pk)%nat -> nth_error objects j = Some y -> p y = false.
Proof.
  intros H j y Hj Hy.
  eapply first_from_least with (n := 0%nat) (j := j); [exact H|lia|].
  rewrite Nat.sub_0_r. exact Hy.
Qed.

Lemma first_from_intro (objects : list A) : forall n pk row,
  nth_error objects pk = Some row -> p row = true ->
  (forall j y, (j < pk)%nat -> nth_error objects j = Some y -> p y = false) ->
  hd_error (filter (on_row p) (indexed_from n objects)) = Some ((n + pk)%nat, row).
Proof.
  induction objects as [|x objects IH]; intros n pk row Hn Hp Hleast.
  - destruct pk; discriminate.
  - rewrite filter_indexed_cons. destruct pk as [|pk].
    + injection Hn as <-. rewrite Hp, Nat.add_0_r. reflexivity.
    + rewrite (Hleast 0%nat x) by (reflexivity || lia).
      rewrite IH with (n := S n) (pk := pk) (row := row);
        [f_equal; f_equal; lia|exact Hn|exact Hp|].
      intros j y Hj Hy. apply (Hleast (S j) y); [lia|exact Hy].
Qed.

Lemma first_intro (objects : list A) pk row :
  nth_error objects pk = Some row -> p row = true ->
  (forall j y, (j < pk)%nat -> nth_error objects j = Some y -> p y = false) ->
  first p objects = Some (pk, row).
Proof.
  intros Hn Hp Hleast. unfold first, indexed.
  rewrite first_from_intro with (pk := pk) (row := row); auto.
Qed.

Lemma get_not_multiple (objects : list A) :
  (List.length (filter p objects) <= 1)%nat ->
  get p objects <> MultipleObjectsReturned.
Proof.
  unfold get, indexed. rewrite <- (filter_indexed_snd objects 0), length_map.
  destruct (filter (on_row p) (indexed_from 0 objects)) as [|[pk row] [|? ?]];
    simpl; intros H; try discriminate. lia.
Qed.

Lemma get_DoesNotExist_none (objects : list A) :
  get p objects = DoesNotExist -> forall x, In x objects -> p x = false.
Proof.
  intros H. apply first_None. unfold first. unfold get in H.
  destruct (filter (on_row p) (indexed objects)) as [|[pk row] [|? ?]];
    try discriminate. reflexivity.
Qed.

Lemma save_row_same pk (row : A) objects :
  nth_error objects pk = Some row -> save_row pk row objects = objects.
Proof.
  revert pk. induction objects as [|x objects IH]; intros [|pk] H;
    try discriminate; simpl in *.
  - injection H as ->. reflexivity.
  - rewrite IH by exact H. reflexivity.
Qed.

Lemma map_save_row {B} (f : A -> B) pk row row' objects :
  nth_error objects pk = Some row -> f row' = f row ->
  map f (save_row pk row' objects) = map f objects.
Proof.
  revert pk. induction objects as [|x objects IH]; intros [|pk] H Hf;
    try discriminate; simpl in *.
  - injection H as ->. rewrite Hf. reflexivity.
  - rewrite IH by assumption. reflexivity.
Qed.

Lemma Forall_save_row (P : A -> Prop) pk row objects :
  Forall P objects -> P row -> Forall P (save_row pk row objects).
Proof.
  intros H Hrow. revert pk. induction H as [|x objects Hx H IH]; intros [|pk];
    simpl; constructor; auto.
Qed.

End Lookups.

(* ------------------------------------------------------------------ *)
(** ** Ledgers under any sequence of calls *)

Section Ledgers.

Variable T : Type.
Variables (vehicle : T -> string) (tokens_earned tokens_spent : T -> Z).

Let step := ledger_step vehicle tokens_earned tokens_spent.

Lemma ledger_step_row l l' :
  step l l' ->
  forall pk row, nth_error l pk = Some row ->
  exists row', nth_error l' pk = Some row'
               /\ vehicle row' = vehicle row
               /\ tokens_earned row <= tokens_earned row'.
Proof.
  assert (Hsave : forall objects pk0 row0 row0',
            nth_error objects pk0 = Some row0 ->
            vehicle row0' = vehicle row0 ->
            tokens_earned row0 <= tokens_earned row0' ->
            forall pk row, nth_error objects pk = Some row ->
            exists row', nth_error (save_row pk0 row0' objects) pk = Some row'
                         /\ vehicle row' = vehicle row
                         /\ tokens_earned row <= tokens_earned row').
  { intros objects pk0 row0 row0' H0 Hv He pk row Hrow.
    destruct (Nat.eq_dec pk0 pk) as [->|Hne].
    - exists row0'. rewrite nth_error_save_row_eq
        by (apply nth_error_Some; congruence).
      replace row with row0 by congruence. auto.
    - exists row. rewrite nth_error_save_row_neq by exact Hne.
      split; [exact Hrow|]. split; [reflexivity|lia]. }
  intros [objects|objects new Hfresh He Hs|objects pk0 row0 row0' H0 Hv He Hs
          |objects pk0 row0 row0' H0 Hv He Hs] pk row Hrow.
  - exists row. split; [exact Hrow|]. split; [reflexivity|lia].
  - exists row. rewrite nth_error_app1 by (apply nth_error_Some; congruence).
    split; [exact Hrow|]. split; [reflexivity|lia].
  - eapply Hsave; eassumption.
  - eapply Hsave; try eassumption. lia.
Qed.

Lemma ledger_step_balance l l' :
  step l l' ->
  Forall (fun t => tokens_spent t <= tokens_earned t) l ->
  Forall (fun t => tokens_spent t <= tokens_earned t) l'.
Proof.
  intros [objects|objects new Hfresh He Hs|objects pk0 row0 row0' H0 Hv He Hs
          |objects pk0 row0 row0' H0 Hv He Hs] Hall.
  - exact Hall.
  - apply Forall_app. split; [exact Hall|]. constructor; [lia|constructor].
  - apply Forall_save_row; [exact Hall|].
    rewrite Forall_forall in Hall. apply nth_error_In in H0.
    specialize (Hall _ H0). simpl in Hall. lia.
  - apply Forall_save_row; [exact Hall|exact Hs].
Qed.

Lemma ledger_step_unique l l' :
  step l l' -> NoDup (map vehicle l) -> NoDup (map vehicle l').
Proof.
  intros [objects|objects new Hfresh He Hs|objects pk0 row0 row0' H0 Hv He Hs
          |objects pk0 row0 row0' H0 Hv He Hs] Hnd.
  - exact Hnd.
  - rewrite map_app. cbn [map].
    apply NoDup_app; [exact Hnd|constructor; [intros []|constructor]|].
    intros a Ha [<-|[]]. apply in_map_iff in Ha.
    destruct Ha as (x & Hx & Hin). exact (Hfresh x Hin Hx).
  - erewrite map_save_row; [exact Hnd|exact H0|exact Hv].
  - erewrite map_save_row; [exact Hnd|exact H0|exact Hv].
Qed.

Lemma unique_at_most_one l id :
  NoDup (map vehicle l) ->
  (List.length (filter (fun t => String.eqb (vehicle t) id) l) <= 1)%nat.
Proof.
  induction l as [|x l IH]; intros Hnd; [simpl; lia|].
  cbn [map] in Hnd. apply NoDup_cons_iff in Hnd. destruct Hnd as [Hx Hnd].
  cbn [filter]. destruct (String.eqb_spec (vehicle x) id) as [E|_];
    [|apply IH; exact Hnd].
  replace (filter (fun t => String.eqb (vehicle t) id) l) with (@nil T);
    [simpl; lia|].
  symmetry. rewrite <- (filter_false l). apply filter_ext_in. intros y Hy.
  destruct (String.eqb_spec (vehicle y) id) as [E'|_]; [|reflexivity].
  exfalso. apply Hx. rewrite E, <- E'. apply in_map. exact Hy.
Qed.

End Ledgers.

Lemma dw_of_vehicle_false v x :
  DriveWise.RewardToken.of_vehicle v x = false ->
  DriveWise.RewardToken.vehicle x <> DriveWise.Vehicle.vehicle_id v.
Proof.
  unfold DriveWise.RewardToken.of_vehicle. intros H E.
  rewrite E, String.eqb_refl in H. discriminate.
Qed.

Lemma dw_get_or_create_step v delta objects :
  0 <= delta ->
  match DriveWise.RewardToken.get_or_create v delta objects with
  | None => True
  | Some (pk, row, created, objects') =>
      dw_ledger_step objects objects'
      /\ nth_error objects' pk = Some row
      /\ (created = false -> objects' = objects)
  end.
Proof.
  intros Hdelta. unfold DriveWise.RewardToken.get_or_create.
  destruct (get _ objects) as [|pk row|] eqn:Hget; [| |exact I].
  - split; [|split; [|discriminate]].
    + apply step_created; [|exact Hdelta|reflexivity].
      intros x Hin. apply dw_of_vehicle_false.
      eapply get_DoesNotExist_none; eassumption.
    + rewrite nth_error_app2, Nat.sub_diag by lia. reflexivity.
  - split; [apply step_unchanged|]. split; [|reflexivity].
    apply get_Found_nth in Hget. tauto.
Qed.

Lemma dw_process_sensor_data_ledger_step data db :
  dw_ledger_step (DriveWise.reward_tokens db)
    (DriveWise.reward_tokens (fst (DriveWise.process_sensor_data data db))).
Proof.
  unfold DriveWise.process_sensor_data.
  destruct (DriveWise.get_or_create_vehicle _ _) as [vehicle vehicles].
  destruct (create _ _) as [[record records]|]; [|apply step_unchanged].
  set (delta := DriveWise.award_tokens _).
  assert (Hdelta : 0 <= delta) by apply award_tokens_nonneg.
  unfold DriveWise.RewardToken.get_or_create.
  destruct (get _ (DriveWise.reward_tokens db)) as [|pk row|] eqn:Hget;
    cbn [fst DriveWise.reward_tokens negb].
  - apply step_created; [|exact Hdelta|reflexivity].
    intros x Hin. apply dw_of_vehicle_false.
    eapply get_DoesNotExist_none; eassumption.
  - unfold DriveWise.RewardToken.save.
    destruct (DriveWise.RewardToken.storable _); [|apply step_unchanged].
    apply get_Found_nth in Hget. destruct Hget as [Hn _].
    cbn [fst DriveWise.reward_tokens].
    eapply step_earned; [exact Hn|reflexivity|simpl; lia|reflexivity].
  - apply step_unchanged.
Qed.

Lemma dw_spend_tokens_ledger_step vehicle_id amount db :
  dw_ledger_step (DriveWise.reward_tokens db)
    (DriveWise.reward_tokens (fst (DriveWise.spend_tokens vehicle_id amount db))).
Proof.
  unfold DriveWise.spend_tokens.
  destruct (first _ _) as [[i vehicle]|]; [|apply step_unchanged].
  destruct (get _ _) as [|pk row|] eqn:Hget; try apply step_unchanged.
  destruct (Z.ltb_spec (DriveWise.RewardToken.tokens_available row)
              (DriveWise.get_default amount 0)) as [Hlt|Hge];
    [apply step_unchanged|].
  unfold DriveWise.RewardToken.save.
  destruct (DriveWise.RewardToken.storable _); [|apply step_unchanged].
  apply get_Found_nth in Hget. destruct Hget as [Hn _].
  cbn [fst DriveWise.reward_tokens].
  eapply step_spent; [exact Hn|reflexivity|reflexivity|].
  unfold DriveWise.RewardToken.tokens_available in Hge. simpl. lia.
Qed.

Lemma dw_get_reward_tokens_ledger_step vehicle_id db :
  dw_ledger_step (DriveWise.reward_tokens db)
    (DriveWise.reward_tokens (fst (DriveWiseViews.get_reward_tokens vehicle_id db))).
Proof.
  unfold DriveWiseViews.get_reward_tokens.
  destruct (DriveWiseViews.get_vehicle _ _) as [vehicle|]; [|apply step_unchanged].
  pose proof (dw_get_or_create_step vehicle 0 (DriveWise.reward_tokens db)
                (Z.le_refl 0)) as H.
  destruct (DriveWise.RewardToken.get_or_create _ _ _) as [[[[pk row] c] objects']|];
    [|apply step_unchanged].
  exact (proj1 H).
Qed.

Lemma dw_get_leaderboard_reward_tokens limit db :
  DriveWise.reward_tokens (fst (DriveWiseViews.get_leaderboard limit db)) =
  DriveWise.reward_tokens db.
Proof.
  unfold DriveWiseViews.get_leaderboard.
  destruct (match limit with None => _ | Some _ => _ end) as [n|]; [|reflexivity].
  destruct ((n <? 0) || _); [reflexivity|].
  destruct (all_some _); reflexivity.
Qed.

Lemma dw_serve_ledger_step call db :
  dw_ledger_step (DriveWise.reward_tokens db)
    (DriveWise.reward_tokens (DriveWiseViews.serve call db)).
Proof.
  destruct call as [data|vehicle_id amount|vehicle_id|limit];
    cbn [DriveWiseViews.serve].
  - apply dw_process_sensor_data_ledger_step.
  - apply dw_spend_tokens_ledger_step.
  - apply dw_get_reward_tokens_ledger_step.
  - rewrite dw_get_leaderboard_reward_tokens. apply step_unchanged.
Qed.

Lemma et_of_vehicle_false v x :
  ExpenseTracker.RewardToken.of_vehicle v x = false ->
  ExpenseTracker.RewardToken.vehicle x <> ExpenseTracker.Vehicle.vehicle_id v.
Proof.
  unfold ExpenseTracker.RewardToken.of_vehicle. intros H E.
  rewrite E, String.eqb_refl in H. discriminate.
Qed.

Lemma et_get_or_create_step v delta objects :
  0 <= delta ->
  match ExpenseTracker.RewardToken.get_or_create v delta objects with
  | None => True
  | Some (pk, row, created, objects') =>
      et_ledger_step objects objects'
      /\ nth_error objects' pk = Some row
      /\ (created = false -> objects' = objects)
  end.
Proof.
  intros Hdelta. unfold ExpenseTracker.RewardToken.get_or_create.
  destruct (get _ objects) as [|pk row|] eqn:Hget; [| |exact I].
  - split; [|split; [|discriminate]].
    + apply step_created; [|exact Hdelta|reflexivity].
      intros x Hin. apply et_of_vehicle_false.
      eapply get_DoesNotExist_none; eassumption.
    + rewrite nth_error_app2, Nat.sub_diag by lia. reflexivity.
  - split; [apply step_unchanged|]. split; [|reflexivity].
    apply get_Found_nth in Hget. tauto.
Qed.

Lemma et_process_sensor_data_ledger_step data db :
  et_ledger_step (ExpenseTracker.reward_tokens db)
    (ExpenseTracker.reward_tokens
       (fst (ExpenseTracker.process_sensor_data data db))).
Proof.
  unfold ExpenseTracker.process_sensor_data.
  destruct (ExpenseTracker.get_or_create_vehicle _ _) as [vehicle vehicles].
  destruct (ExpenseTracker.get_or_create_session _ _) as [[session sessions]|];
    [|apply step_unchanged].
  destruct (ExpenseTracker.speed_limit_of data) as [limit|];
    [|apply step_unchanged].
  destruct (create _ _) as [[record records]|]; [|apply step_unchanged].
  set (delta := ExpenseTracker.award_tokens _).
  assert (Hdelta : 0 <= delta) by apply award_tokens_nonneg.
  unfold ExpenseTracker.RewardToken.get_or_create.
  destruct (get _ (ExpenseTracker.reward_tokens db)) as [|pk row|] eqn:Hget;
    cbn [fst ExpenseTracker.reward_tokens negb].
  - apply step_created; [|exact Hdelta|reflexivity].
    intros x Hin. apply et_of_vehicle_false.
    eapply get_DoesNotExist_none; eassumption.
  - unfold ExpenseTracker.RewardToken.save.
    destruct (ExpenseTracker.RewardToken.storable _); [|apply step_unchanged].
    apply get_Found_nth in Hget. destruct Hget as [Hn _].
    cbn [fst ExpenseTracker.reward_tokens].
    eapply step_earned; [exact Hn|reflexivity|simpl; lia|reflexivity].
  - apply step_unchanged.
Qed.

Lemma et_spend_tokens_ledger_step vehicle_id tokens db :
  et_ledger_step (ExpenseTracker.reward_tokens db)
    (ExpenseTracker.reward_tokens
       (fst (ExpenseTracker.spend_tokens vehicle_id tokens db))).
Proof.
  unfold ExpenseTracker.spend_tokens.
  destruct (first _ _) as [[i vehicle]|]; [|apply step_unchanged].
  destruct (get _ _) as [|pk row|] eqn:Hget; try apply step_unchanged.
  rewrite Z.gtb_ltb.
  destruct (Z.ltb_spec (ExpenseTracker.RewardToken.tokens_available row)
              (ExpenseTracker.get_default tokens 0)) as [Hlt|Hge];
    [apply step_unchanged|].
  unfold ExpenseTracker.RewardToken.save.
  destruct (ExpenseTracker.RewardToken.storable _); [|apply step_unchanged].
  apply get_Found_nth in Hget. destruct Hget as [Hn _].
  cbn [fst ExpenseTracker.reward_tokens].
  eapply step_spent; [exact Hn|reflexivity|reflexivity|].
  unfold ExpenseTracker.RewardToken.tokens_available in Hge. simpl. lia.
Qed.

Lemma et_serve_ledger_step call db :
  et_ledger_step (ExpenseTracker.reward_tokens db)
    (ExpenseTracker.reward_tokens (ExpenseTrackerViews.serve call db)).
Proof.
  destruct call as [data|vehicle_id tokens|vehicle_id|vehicle_id];
    cbn [ExpenseTrackerViews.serve].
  - apply et_process_sensor_data_ledger_step.
  - apply et_spend_tokens_ledger_step.
  - unfold ExpenseTrackerViews.get_reward_tokens.
    destruct (ExpenseTrackerViews.get_vehicle _ _) as [vehicle|];
      [|apply step_unchanged].
    pose proof (et_get_or_create_step vehicle 0
                  (ExpenseTracker.reward_tokens db) (Z.le_refl 0)) as H.
    destruct (ExpenseTracker.RewardToken.get_or_create _ _ _)
      as [[[[pk row] c] objects']|]; [|apply step_unchanged].
    exact (proj1 H).
  - unfold ExpenseTrackerViews.get_dashboard_stats.
    destruct (ExpenseTrackerViews.get_vehicle _ _) as [vehicle|];
      [|apply step_unchanged].
    pose proof (et_get_or_create_step vehicle 0
                  (ExpenseTracker.reward_tokens db) (Z.le_refl 0)) as H.
    destruct (ExpenseTracker.RewardToken.get_or_create _ _ _)
      as [[[[pk row] c] objects']|]; [|apply step_unchanged].
    exact (proj1 H).
Qed.

(** A property of the ledger table kept by every step is kept by every
    sequence of calls. *)
Lemma dw_session_ledgers (P : list DriveWise.RewardToken.t -> Prop) :
  (forall l l', dw_ledger_step l l' -> P l -> P l') ->
  forall calls db,
    P (DriveWise.reward_tokens db) ->
    P (DriveWise.reward_tokens (DriveWiseViews.session calls db)).
Proof.
  intros Hstep calls. induction calls as [|call calls IH]; intros db H;
    [exact H|].
  cbn [DriveWiseViews.session fold_left]. apply IH.
  eapply Hstep; [apply dw_serve_ledger_step|exact H].
Qed.

Lemma et_session_ledgers (P : list ExpenseTracker.RewardToken.t -> Prop) :
  (forall l l', et_ledger_step l l' -> P l -> P l') ->
  forall calls db,
    P (ExpenseTracker.reward_tokens db) ->
    P (ExpenseTracker.reward_tokens (ExpenseTrackerViews.session calls db)).
Proof.
  intros Hstep calls. induction calls as [|call calls IH]; intros db H;
    [exact H|].
  cbn [ExpenseTrackerViews.session fold_left]. apply IH.
  eapply Hstep; [apply et_serve_ledger_step|exact H].
Qed.

Lemma dw_session_row calls : forall db pk row,
  nth_error (DriveWise.reward_tokens db) pk = Some row ->
  exists row',
    nth_error (DriveWise.reward_tokens (DriveWiseViews.session calls db)) pk =
      Some row'
    /\ DriveWise.RewardToken.vehicle row' = DriveWise.RewardToken.vehicle row
    /\ DriveWise.RewardToken.tokens_earned row <=
       DriveWise.RewardToken.tokens_earned row'.
Proof.
  induction calls as [|call calls IH]; intros db pk row Hrow.
  - exists row. split; [exact Hrow|]. split; [reflexivity|lia].
  - cbn [DriveWiseViews.session fold_left].
    destruct (ledger_step_row _ _ _ _ _ _ (dw_serve_ledger_step call db) _ _ Hrow)
      as (row1 & H1 & Hv1 & He1).
    destruct (IH _ _ _ H1) as (row' & H' & Hv' & He').
    exists row'. split; [exact H'|]. split; [congruence|lia].
Qed.

Lemma et_session_row calls : forall db pk row,
  nth_error (ExpenseTracker.reward_tokens db) pk = Some row ->
  exists row',
    nth_error (ExpenseTracker.reward_tokens (ExpenseTrackerViews.session calls db))
      pk = Some row'
    /\ ExpenseTracker.RewardToken.vehicle row' =
       ExpenseTracker.RewardToken.vehicle row
    /\ ExpenseTracker.RewardToken.tokens_earned row <=
       ExpenseTracker.RewardToken.tokens_earned row'.
Proof.
  induction calls as [|call calls IH]; intros db pk row Hrow.
  - exists row. split; [exact Hrow|]. split; [reflexivity|lia].
  - cbn [ExpenseTrackerViews.session fold_left].
    destruct (ledger_step_row _ _ _ _ _ _ (et_serve_ledger_step call db) _ _ Hrow)
      as (row1 & H1 & Hv1 & He1).
    destruct (IH _ _ _ H1) as (row' & H' & Hv' & He').
    exists row'. split; [exact H'|]. split; [congruence|lia].
Qed.

(** X1: whatever calls are served, a ledger row stays in the table under the
    same key, for the same vehicle, and its tokens_earned never decreases. *)
Theorem X1_tokens_earned_never_decreases :
  (forall calls db pk row,
     nth_error (DriveWise.reward_tokens db) pk = Some row ->
     exists row',
       nth_error (DriveWise.reward_tokens (DriveWiseViews.session calls db)) pk =
         Some row'
       /\ DriveWise.RewardToken.vehicle row' = DriveWise.RewardToken.vehicle row
       /\ DriveWise.RewardToken.tokens_earned row <=
          DriveWise.RewardToken.tokens_earned row')
  /\ (forall calls db pk row,
        nth_error (ExpenseTracker.reward_tokens db) pk = Some row ->
        exists row',
          nth_error
            (ExpenseTracker.reward_tokens (ExpenseTrackerViews.session calls db))
            pk = Some row'
          /\ ExpenseTracker.RewardToken.vehicle row' =
             ExpenseTracker.RewardToken.vehicle row
          /\ ExpenseTracker.RewardToken.tokens_earned row <=
             ExpenseTracker.RewardToken.tokens_earned row').
Proof.
  split.
  - intros calls db pk row H. apply dw_session_row. exact H.
  - intros calls db pk row H. apply et_session_row. exact H.
Qed.

Lemma X1_tokens_earned_never_decreases_witness :
  (exists row',
     nth_error (DriveWise.reward_tokens (DriveWiseViews.session dw_calls dw_db1))
       0 = Some row'
     /\ DriveWise.RewardToken.vehicle row' = "V1"
     /\ 10 <= DriveWise.RewardToken.tokens_earned row')
  /\ (exists row',
        nth_error
          (ExpenseTracker.reward_tokens
             (ExpenseTrackerViews.session et_calls et_db2)) 0 = Some row'
        /\ ExpenseTracker.RewardToken.vehicle row' = "V1"
        /\ 6 <= ExpenseTracker.RewardToken.tokens_earned row').
Proof.
  split.
  - apply (proj1 X1_tokens_earned_never_decreases dw_calls dw_db1 0%nat
             (DriveWise.RewardToken.mk "V1" 10 0)).
    vm_compute. reflexivity.
  - apply (proj2 X1_tokens_earned_never_decreases et_calls et_db2 0%nat
             (ExpenseTracker.RewardToken.mk "V1" 6 0)).
    vm_compute. reflexivity.
Defined.

Example dw_calls_ledgers :
  DriveWise.reward_tokens (DriveWiseViews.session dw_calls dw_db1) =
  [DriveWise.RewardToken.mk "V1" 10 2; DriveWise.RewardToken.mk "V2" 2 0].
Proof. vm_compute. reflexivity. Qed.

Example et_calls_ledgers :
  ExpenseTracker.reward_tokens (ExpenseTrackerViews.session et_calls et_db2) =
  [ExpenseTracker.RewardToken.mk "V1" 6 4].
Proof. vm_compute. reflexivity. Qed.

(** X2: the available balance of a ledger never becomes negative: if every
    ledger has tokens_earned - tokens_spent >= 0, so it has after any
    sequence of calls, negative spend amounts included. *)
Theorem X2_balance_never_negative :
  (forall calls db,
     Forall (fun t => 0 <= DriveWise.RewardToken.tokens_available t)
       (DriveWise.reward_tokens db) ->
     Forall (fun t => 0 <= DriveWise.RewardToken.tokens_available t)
       (DriveWise.reward_tokens (DriveWiseViews.session calls db)))
  /\ (forall calls db,
        Forall (fun t => 0 <= ExpenseTracker.RewardToken.tokens_available t)
          (ExpenseTracker.reward_tokens db) ->
        Forall (fun t => 0 <= ExpenseTracker.RewardToken.tokens_available t)
          (ExpenseTracker.reward_tokens (ExpenseTrackerViews.session calls db))).
Proof.
  split.
  - intros calls db.
    apply (dw_session_ledgers
             (Forall (fun t => 0 <= DriveWise.RewardToken.tokens_available t))).
    intros l l' Hstep H.
    eapply Forall_impl;
      [|eapply ledger_step_balance;
        [exact Hstep|eapply Forall_impl; [|exact H]]];
      unfold DriveWise.RewardToken.tokens_available; simpl; intros; lia.
  - intros calls db.
    apply (et_session_ledgers
             (Forall (fun t => 0 <= ExpenseTracker.RewardToken.tokens_available t))).
    intros l l' Hstep H.
    eapply Forall_impl;
      [|eapply ledger_step_balance;
        [exact Hstep|eapply Forall_impl; [|exact H]]];
      unfold ExpenseTracker.RewardToken.tokens_available; simpl; intros; lia.
Qed.

Lemma X2_balance_never_negative_witness :
  Forall (fun t => 0 <= DriveWise.RewardToken.tokens_available t)
    (DriveWise.reward_tokens (DriveWiseViews.session dw_calls dw_db1))
  /\ Forall (fun t => 0 <= ExpenseTracker.RewardToken.tokens_available t)
       (ExpenseTracker.reward_tokens
          (ExpenseTrackerViews.session et_calls et_db2)).
Proof.
  split.
  - apply (proj1 X2_balance_never_negative dw_calls dw_db1).
    vm_compute. constructor; [discriminate|constructor].
  - apply (proj2 X2_balance_never_negative et_calls et_db2).
    vm_compute. constructor; [discriminate|constructor].
Defined.

(** X3: no call ever gives a vehicle a second ledger: if the vehicles of the
    ledger rows are pairwise distinct, they are after any sequence of
    calls. *)
Theorem X3_one_ledger_per_vehicle :
  (forall calls db,
     NoDup (map DriveWise.RewardToken.vehicle (DriveWise.reward_tokens db)) ->
     NoDup (map DriveWise.RewardToken.vehicle
              (DriveWise.reward_tokens (DriveWiseViews.session calls db))))
  /\ (forall calls db,
        NoDup (map ExpenseTracker.RewardToken.vehicle
                 (ExpenseTracker.reward_tokens db)) ->
        NoDup (map ExpenseTracker.RewardToken.vehicle
                 (ExpenseTracker.reward_tokens
                    (ExpenseTrackerViews.session calls db)))).
Proof.
  split.
  - intros calls db.
    apply (dw_session_ledgers
             (fun l => NoDup (map DriveWise.RewardToken.vehicle l))).
    intros l l' Hstep. eapply ledger_step_unique. exact Hstep.
  - intros calls db.
    apply (et_session_ledgers
             (fun l => NoDup (map ExpenseTracker.RewardToken.vehicle l))).
    intros l l' Hstep. eapply ledger_step_unique. exact Hstep.
Qed.

Lemma X3_one_ledger_per_vehicle_witness :
  NoDup (map DriveWise.RewardToken.vehicle
           (DriveWise.reward_tokens (DriveWiseViews.session dw_calls dw_db1)))
  /\ NoDup (map ExpenseTracker.RewardToken.vehicle
              (ExpenseTracker.reward_tokens
                 (ExpenseTrackerViews.session et_calls et_db2))).
Proof.
  split.
  - apply (proj1 X3_one_ledger_per_vehicle dw_calls dw_db1).
    vm_compute. constructor; [intros []|constructor].
  - apply (proj2 X3_one_ledger_per_vehicle et_calls et_db2).
    vm_compute. constructor; [intros []|constructor].
Defined.

Lemma dw_unique_ledger db vehicle_id :
  NoDup (map DriveWise.RewardToken.vehicle (DriveWise.reward_tokens db)) ->
  dw_ledger db vehicle_id <> MultipleObjectsReturned.
Proof.
  intros Hnd. unfold dw_ledger. apply get_not_multiple.
  apply (unique_at_most_one _ DriveWise.RewardToken.vehicle _ vehicle_id Hnd).
Qed.

Lemma et_unique_ledger db vehicle_id :
  NoDup (map ExpenseTracker.RewardToken.vehicle (ExpenseTracker.reward_tokens db)) ->
  et_ledger db vehicle_id <> MultipleObjectsReturned.
Proof.
  intros Hnd. unfold et_ledger. apply get_not_multiple.
  apply (unique_at_most_one _ ExpenseTracker.RewardToken.vehicle _ vehicle_id Hnd).
Qed.

Lemma dw_process_sensor_data_created data db :
  NoDup (map DriveWise.RewardToken.vehicle (DriveWise.reward_tokens db)) ->
  dw_speed_fits data = true ->
  dw_ledger_has_room db (DriveWise.SensorData.vehicle_id data) = true ->
  exists body,
    snd (DriveWise.process_sensor_data data db) = DriveWise.HTTP_201_CREATED body.
Proof.
  intros Hnd Hfits Hroom.
  apply dw_event_stored; [apply dw_unique_ledger; exact Hnd|exact Hfits|exact Hroom].
Qed.

Lemma dw_process_sensor_data_overflow data db :
  dw_speed_fits data = false ->
  DriveWise.process_sensor_data data db =
  (DriveWise.mkDB
     (snd (DriveWise.get_or_create_vehicle
             (DriveWise.SensorData.vehicle_id data) (DriveWise.vehicles db)))
     (DriveWise.traffic_signs db
      ++ [DriveWise.TrafficSign.mk (DriveWise.SensorData.sign_type data)
            (DriveWise.get_default (DriveWise.SensorData.sign_value data) "")
            (DriveWise.get_default (DriveWise.SensorData.location data) "")])
     (DriveWise.compliance_records db) (DriveWise.reward_tokens db)
     (DriveWise.leaderboard db),
   DriveWise.HTTP_500_INTERNAL_SERVER_ERROR).
Proof.
  intros Hfits. unfold DriveWise.process_sensor_data.
  destruct (DriveWise.get_or_create_vehicle _ _) as [vehicle vehicles].
  rewrite create_eq. unfold dw_speed_fits in Hfits.
  cbn [DriveWise.new_record speed_limit actual_speed].
  destruct (String.eqb _ "speed_limit"); [|discriminate].
  cbn [IntegerField_null]. rewrite Hfits. reflexivity.
Qed.

(** X4: where no vehicle has two ledgers, hence on every database built from
    the empty one by the calls, the drivewise sensor endpoint answers 201
    whenever the values it writes fit their integer columns: the
    MultipleObjectsReturned error of the ledger lookup cannot arise there.
    When the speed value of a speed_limit event does not fit, the endpoint
    answers 500 and stores neither a record nor tokens, while the traffic
    sign it created before stays in the database. *)
Theorem X4_sensor_endpoint_fails_only_on_overflow :
  (forall data db,
     NoDup (map DriveWise.RewardToken.vehicle (DriveWise.reward_tokens db)) ->
     dw_speed_fits data = true ->
     dw_ledger_has_room db (DriveWise.SensorData.vehicle_id data) = true ->
     exists body,
       snd (DriveWise.process_sensor_data data db) =
       DriveWise.HTTP_201_CREATED body)
  /\ (forall calls data,
        let db := DriveWiseViews.session calls DriveWise.empty in
        dw_speed_fits data = true ->
        dw_ledger_has_room db (DriveWise.SensorData.vehicle_id data) = true ->
        exists body,
          snd (DriveWise.process_sensor_data data db) =
          DriveWise.HTTP_201_CREATED body)
  /\ (forall data db,
        dw_speed_fits data = false ->
        let db' := fst (DriveWise.process_sensor_data data db) in
        snd (DriveWise.process_sensor_data data db) =
          DriveWise.HTTP_500_INTERNAL_SERVER_ERROR
        /\ DriveWise.compliance_records db' = DriveWise.compliance_records db
        /\ DriveWise.reward_tokens db' = DriveWise.reward_tokens db
        /\ DriveWise.leaderboard db' = DriveWise.leaderboard db
        /\ List.length (DriveWise.traffic_signs db') =
           S (List.length (DriveWise.traffic_signs db))).
Proof.
  split; [exact dw_process_sensor_data_created|]. split.
  - intros calls data db. apply dw_process_sensor_data_created.
    apply (dw_session_ledgers
             (fun l => NoDup (map DriveWise.RewardToken.vehicle l))).
    + intros l l' Hstep. eapply ledger_step_unique. exact Hstep.
    + constructor.
  - intros data db Hfits db'. subst db'.
    rewrite (dw_process_sensor_data_overflow data db Hfits). cbn [fst snd].
    repeat split. cbn [DriveWise.traffic_signs].
    rewrite length_app. cbn [List.length]. lia.
Qed.

Lemma X4_sensor_endpoint_fails_only_on_overflow_witness :
  (exists body,
     snd (DriveWise.process_sensor_data dw_horn_applied dw_db1) =
     DriveWise.HTTP_201_CREATED body)
  /\ snd (DriveWise.process_sensor_data dw_speed_overflow dw_db1) =
       DriveWise.HTTP_500_INTERNAL_SERVER_ERROR
  /\ DriveWise.compliance_records
       (fst (DriveWise.process_sensor_data dw_speed_overflow dw_db1)) =
     DriveWise.compliance_records dw_db1.
Proof.
  destruct X4_sensor_endpoint_fails_only_on_overflow as (Hfits & _ & Hover).
  split.
  - apply (Hfits dw_horn_applied dw_db1); [|reflexivity|reflexivity].
    vm_compute. constructor; [intros []|constructor].
  - destruct (Hover dw_speed_overflow dw_db1) as (Hanswer & Hrecords & _);
      [reflexivity|].
    split; [exact Hanswer|exact Hrecords].
Defined.

(* ------------------------------------------------------------------ *)
(** ** When the session-keyed sensor endpoint fails *)

Lemma filter_andb {A} (a b : A -> bool) l :
  filter (fun x => a x && b x) l = filter a (filter b l).
Proof.
  induction l as [|x l IH]; [reflexivity|]. cbn [filter].
  destruct (b x); cbn [filter]; rewrite ?andb_true_r, ?andb_false_r;
    [destruct (a x)|]; rewrite IH; reflexivity.
Qed.

Lemma et_session_lookup_not_multiple v sessions :
  NoDup (map ExpenseTracker.DrivingSession.vehicle
           (filter ExpenseTracker.DrivingSession.is_active sessions)) ->
  ExpenseTracker.get_or_create_session v sessions <> None.
Proof.
  intros Hnd. unfold ExpenseTracker.get_or_create_session.
  set (p := fun s => _ && _).
  assert (Hget : get p sessions <> MultipleObjectsReturned).
  { apply get_not_multiple. unfold p. rewrite filter_andb.
    rewrite (filter_ext (fun s => Bool.eqb (ExpenseTracker.DrivingSession.is_active s) true)
               ExpenseTracker.DrivingSession.is_active)
      by (intros s; destruct (ExpenseTracker.DrivingSession.is_active s); reflexivity).
    apply unique_at_most_one. exact Hnd. }
  destruct (get p sessions); [discriminate|discriminate|contradiction].
Qed.

Lemma et_get_or_create_session_unique v sessions pk sessions' :
  NoDup (map ExpenseTracker.DrivingSession.vehicle
           (filter ExpenseTracker.DrivingSession.is_active sessions)) ->
  ExpenseTracker.get_or_create_session v sessions = Some (pk, sessions') ->
  NoDup (map ExpenseTracker.DrivingSession.vehicle
           (filter ExpenseTracker.DrivingSession.is_active sessions')).
Proof.
  intros Hnd. unfold ExpenseTracker.get_or_create_session.
  destruct (get _ sessions) as [|pk0 row|] eqn:Hget; intros H;
    [|injection H as _ <-; exact Hnd|discriminate].
  injection H as _ <-. rewrite filter_app, map_app. cbn.
  apply NoDup_app; [exact Hnd|constructor; [intros []|constructor]|].
  intros a Ha [<-|[]]. apply in_map_iff in Ha. destruct Ha as (s & Hs & Hin).
  apply filter_In in Hin. destruct Hin as [Hin Hactive].
  pose proof (get_DoesNotExist_none _ _ Hget s Hin) as Hp. cbv beta in Hp.
  rewrite Hs, String.eqb_refl, Hactive in Hp. discriminate.
Qed.

Lemma et_process_sensor_data_sessions data db :
  NoDup (map ExpenseTracker.DrivingSession.vehicle
           (filter ExpenseTracker.DrivingSession.is_active
              (ExpenseTracker.driving_sessions db))) ->
  NoDup (map ExpenseTracker.DrivingSession.vehicle
           (filter ExpenseTracker.DrivingSession.is_active
              (ExpenseTracker.driving_sessions
                 (fst (ExpenseTracker.process_sensor_data data db))))).
Proof.
  intros Hnd. unfold ExpenseTracker.process_sensor_data.
  destruct (ExpenseTracker.get_or_create_vehicle _ _) as [vehicle vehicles].
  destruct (ExpenseTracker.get_or_create_session _ _) as [[session sessions]|]
    eqn:Hs; [|exact Hnd].
  apply (et_get_or_create_session_unique _ _ _ _ Hnd) in Hs.
  destruct (ExpenseTracker.speed_limit_of data) as [limit|]; [|exact Hs].
  destruct (create _ _) as [[record records]|]; [|exact Hs].
  destruct (ExpenseTracker.RewardToken.get_or_create _ _ _)
    as [[[[pk t] c] ts]|]; [|exact Hs].
  destruct (if negb c then _ else _); exact Hs.
Qed.

Lemma et_serve_sessions call db :
  NoDup (map ExpenseTracker.DrivingSession.vehicle
           (filter ExpenseTracker.DrivingSession.is_active
              (ExpenseTracker.driving_sessions db))) ->
  NoDup (map ExpenseTracker.DrivingSession.vehicle
           (filter ExpenseTracker.DrivingSession.is_active
              (ExpenseTracker.driving_sessions
                 (ExpenseTrackerViews.serve call db)))).
Proof.
  intros Hnd. destruct call as [data|vehicle_id tokens|vehicle_id|vehicle_id];
    cbn [ExpenseTrackerViews.serve].
  - apply et_process_sensor_data_sessions. exact Hnd.
  - unfold ExpenseTracker.spend_tokens.
    destruct (first _ _) as [[i v]|]; [|exact Hnd].
    destruct (get _ _) as [|pk t|]; try exact Hnd.
    destruct (_ >? _); [exact Hnd|].
    destruct (ExpenseTracker.RewardToken.save _ _ _); exact Hnd.
  - unfold ExpenseTrackerViews.get_reward_tokens.
    destruct (ExpenseTrackerViews.get_vehicle _ _) as [v|]; [|exact Hnd].
    destruct (ExpenseTracker.RewardToken.get_or_create _ _ _)
      as [[[[pk t] c] ts]|]; exact Hnd.
  - unfold ExpenseTrackerViews.get_dashboard_stats.
    destruct (ExpenseTrackerViews.get_vehicle _ _) as [v|]; [|exact Hnd].
    destruct (ExpenseTracker.RewardToken.get_or_create _ _ _)
      as [[[[pk t] c] ts]|]; exact Hnd.
Qed.

Lemma et_session_unique_rows calls : forall db,
  et_unique_rows db -> et_unique_rows (ExpenseTrackerViews.session calls db).
Proof.
  induction calls as [|call calls IH]; intros db [Hl Hs]; [split; assumption|].
  cbn [ExpenseTrackerViews.session fold_left]. apply IH. split.
  - eapply ledger_step_unique; [apply et_serve_ledger_step|exact Hl].
  - apply et_serve_sessions. exact Hs.
Qed.

Lemma et_unique_session db vehicle_id :
  NoDup (map ExpenseTracker.DrivingSession.vehicle
           (filter ExpenseTracker.DrivingSession.is_active
              (ExpenseTracker.driving_sessions db))) ->
  et_session db vehicle_id <> MultipleObjectsReturned.
Proof.
  intros Hs Hmany.
  apply (et_session_lookup_not_multiple
           (ExpenseTracker.Vehicle.mk vehicle_id "" None) _ Hs).
  unfold ExpenseTracker.get_or_create_session. unfold et_session in Hmany.
  cbn [ExpenseTracker.Vehicle.vehicle_id]. rewrite Hmany. reflexivity.
Qed.

Lemma et_process_sensor_data_refused data db :
  et_session db (ExpenseTracker.SensorData.vehicle_id data)
    <> MultipleObjectsReturned ->
  et_speed_fits data = false ->
  let db' := fst (ExpenseTracker.process_sensor_data data db) in
  snd (ExpenseTracker.process_sensor_data data db) =
    ExpenseTracker.HTTP_500_INTERNAL_SERVER_ERROR
  /\ ExpenseTracker.compliance_records db' =
     ExpenseTracker.compliance_records db
  /\ ExpenseTracker.reward_tokens db' = ExpenseTracker.reward_tokens db
  /\ List.length (ExpenseTracker.traffic_signs db') =
     S (List.length (ExpenseTracker.traffic_signs db))
  /\ et_has_vehicle db' (ExpenseTracker.SensorData.vehicle_id data) = true.
Proof.
  intros Hsession Hfits. unfold ExpenseTracker.process_sensor_data.
  pose proof (et_get_or_create_vehicle_id
                (ExpenseTracker.SensorData.vehicle_id data)
                (ExpenseTracker.vehicles db)) as Hid.
  assert (Hhas : existsb
            (fun v => String.eqb (ExpenseTracker.Vehicle.vehicle_id v)
                        (ExpenseTracker.SensorData.vehicle_id data))
            (snd (ExpenseTracker.get_or_create_vehicle
                    (ExpenseTracker.SensorData.vehicle_id data)
                    (ExpenseTracker.vehicles db))) = true).
  { unfold ExpenseTracker.get_or_create_vehicle.
    destruct (first _ (ExpenseTracker.vehicles db)) as [[i v]|] eqn:Hf.
    - apply first_Some in Hf. destruct Hf as [Hn Hp]. apply existsb_exists.
      exists v. split; [eapply nth_error_In; exact Hn|exact Hp].
    - cbn [snd]. rewrite existsb_app. cbn. rewrite String.eqb_refl.
      apply orb_true_r. }
  destruct (ExpenseTracker.get_or_create_vehicle _ _) as [vehicle vehicles].
  cbn [fst snd] in Hid, Hhas.
  destruct (et_session_lookup vehicle db Hid Hsession) as (s & ss & ->).
  unfold et_speed_fits in Hfits.
  destruct (ExpenseTracker.speed_limit_of data) as [limit|].
  - rewrite create_eq. cbn [ExpenseTracker.new_record speed_limit actual_speed].
    rewrite Hfits. cbn. repeat split.
    + rewrite length_app. simpl. lia.
    + exact Hhas.
  - cbn. repeat split.
    + rewrite length_app. simpl. lia.
    + exact Hhas.
Qed.

(** X5: on a database built from the empty one by the calls, the
    session-keyed sensor endpoint answers 201 whenever int(sign_value) of a
    speed_limit sign succeeds and the values written fit their integer
    columns.  When int(sign_value) raises, or the speed limit or the actual
    speed does not fit its column, the endpoint answers 500 and writes
    neither a record nor tokens, while the vehicle and the traffic sign it
    created before stay in the database. *)
Theorem X5_session_endpoint_fails_only_on_its_values :
  forall calls data,
    let db := ExpenseTrackerViews.session calls ExpenseTracker.empty in
    (et_speed_fits data = true ->
     et_ledger_has_room db (ExpenseTracker.SensorData.vehicle_id data) = true ->
     exists body,
       snd (ExpenseTracker.process_sensor_data data db) =
       ExpenseTracker.HTTP_201_CREATED body)
    /\ (et_speed_fits data = false ->
        let db' := fst (ExpenseTracker.process_sensor_data data db) in
        snd (ExpenseTracker.process_sensor_data data db) =
          ExpenseTracker.HTTP_500_INTERNAL_SERVER_ERROR
        /\ ExpenseTracker.compliance_records db' =
           ExpenseTracker.compliance_records db
        /\ ExpenseTracker.reward_tokens db' = ExpenseTracker.reward_tokens db
        /\ List.length (ExpenseTracker.traffic_signs db') =
           S (List.length (ExpenseTracker.traffic_signs db))
        /\ et_has_vehicle db' (ExpenseTracker.SensorData.vehicle_id data) = true).
Proof.
  intros calls data db.
  assert (Hunique : et_unique_rows db)
    by (apply et_session_unique_rows; split; constructor).
  destruct Hunique as [Hl Hs]. split.
  - intros Hfits Hroom. apply et_event_stored.
    + apply et_unique_session. exact Hs.
    + apply et_unique_ledger. exact Hl.
    + exact Hfits.
    + exact Hroom.
  - intros Hfits. apply et_process_sensor_data_refused; [|exact Hfits].
    apply et_unique_session. exact Hs.
Qed.

Lemma X5_session_endpoint_fails_only_on_its_values_witness :
  (exists body,
     snd (ExpenseTracker.process_sensor_data et_no_horn et_db1) =
     ExpenseTracker.HTTP_201_CREATED body)
  /\ snd (ExpenseTracker.process_sensor_data et_speed_overflow et_db1) =
       ExpenseTracker.HTTP_500_INTERNAL_SERVER_ERROR
  /\ ExpenseTracker.compliance_records
       (fst (ExpenseTracker.process_sensor_data et_speed_overflow et_db1)) =
     ExpenseTracker.compliance_records et_db1.
Proof.
  pose proof (X5_session_endpoint_fails_only_on_its_values
                [ExpenseTrackerViews.ProcessSensorData et_speed_65])
    as Hcalls.
  split.
  - destruct (Hcalls et_no_horn) as [Hstored _].
    apply Hstored; reflexivity.
  - destruct (Hcalls et_speed_overflow) as [_ Hrefused].
    destruct (Hrefused eq_refl) as (Hanswer & Hrecords & _).
    split; [exact Hanswer|exact Hrecords].
Defined.

Example et_unparsable_sign_value :
  ExpenseTracker.process_sensor_data
    (ExpenseTracker.SensorData.mk "V2" "speed_limit" (Some "forty") (Some 50)
       false true None) ExpenseTracker.empty =
  (ExpenseTracker.mkDB
     [ExpenseTracker.Vehicle.mk "V2" "four_wheeler" (Some "Unknown")]
     [ExpenseTracker.DrivingSession.mk "V2" true]
     [ExpenseTracker.TrafficSign.mk "speed_limit" "forty" ""]
     [] [],
   ExpenseTracker.HTTP_500_INTERNAL_SERVER_ERROR).
Proof. vm_compute. reflexivity. Qed.

(** A sign value in Arabic-Indic digits is a number for [int]: the record
    holds the limit 40 and the event is stored. *)
Example et_arabic_indic_sign_value :
  Py.int_of_str arabic_indic_40 = Some 40
  /\ ExpenseTracker.compliance_records
       (fst (ExpenseTracker.process_sensor_data
               (ExpenseTracker.SensorData.mk "V2" "speed_limit"
                  (Some arabic_indic_40) (Some 65) false true None)
               ExpenseTracker.empty)) =
     [mkComplianceRecord 0%nat 0%nat (Some 40) (Some 65) false false true true
        "no_violation" "low" None 70].
Proof. vm_compute. split; reflexivity. Qed.

(** A speed of 2^63 is no value of the column: no record is written. *)
Example et_speed_overflow_refused :
  ExpenseTracker.process_sensor_data et_speed_overflow ExpenseTracker.empty =
  (ExpenseTracker.mkDB
     [ExpenseTracker.Vehicle.mk "V1" "four_wheeler" (Some "Unknown")]
     [ExpenseTracker.DrivingSession.mk "V1" true]
     [ExpenseTracker.TrafficSign.mk "speed_limit" "40" "Main St"]
     [] [],
   ExpenseTracker.HTTP_500_INTERNAL_SERVER_ERROR).
Proof. vm_compute. reflexivity. Qed.

(* ------------------------------------------------------------------ *)
(** ** Trips, qualification and what an event of drivewise can score *)

Lemma dw_new_record_overflow data vehicle traffic_sign :
  dw_speed_fits data = false ->
  IntegerField_null (speed_limit (DriveWise.new_record data vehicle traffic_sign))
  && IntegerField_null
       (actual_speed (DriveWise.new_record data vehicle traffic_sign)) = false.
Proof.
  unfold dw_speed_fits. cbn [DriveWise.new_record speed_limit actual_speed].
  destruct (String.eqb _ "speed_limit"); [|discriminate].
  cbn [IntegerField_null]. intros ->. reflexivity.
Qed.

Lemma dw_process_sensor_data_record data db :
  exists vehicle traffic_sign,
    DriveWise.Vehicle.vehicle_id vehicle = DriveWise.SensorData.vehicle_id data
    /\ DriveWise.compliance_records (fst (DriveWise.process_sensor_data data db)) =
       DriveWise.compliance_records db
       ++ (if dw_speed_fits data
           then [fst (save None (DriveWise.new_record data vehicle traffic_sign) [])]
           else [])
    /\ match snd (DriveWise.process_sensor_data data db) with
       | DriveWise.HTTP_201_CREATED body =>
           dw_speed_fits data = true
           /\ DriveWise.response_compliance_score body =
             calculate_compliance_score
               (DriveWise.new_record data vehicle traffic_sign)
           /\ DriveWise.response_tokens_earned body =
                DriveWise.award_tokens
                  (calculate_compliance_score
                     (DriveWise.new_record data vehicle traffic_sign))
           /\ DriveWise.response_total_trips body =
                DriveWise.Vehicle.total_trips
                  (DriveWise.compliance_records
                     (fst (DriveWise.process_sensor_data data db))) vehicle
       | _ => True
       end.
Proof.
  unfold DriveWise.process_sensor_data.
  pose proof (dw_get_or_create_vehicle_id
                (DriveWise.SensorData.vehicle_id data) (DriveWise.vehicles db)) as Hid.
  destruct (DriveWise.get_or_create_vehicle _ _) as [vehicle vehicles].
  cbn [fst] in Hid.
  exists vehicle, (List.length (DriveWise.traffic_signs db)).
  split; [exact Hid|]. rewrite create_eq.
  destruct (dw_speed_fits data) eqn:Hfits.
  - rewrite dw_new_record_fits by exact Hfits.
    destruct (DriveWise.RewardToken.get_or_create _ _ _) as [[[[pk t] c] ts]|];
      [|cbn; repeat split].
    destruct (if negb c then _ else _); cbn; repeat split.
  - rewrite dw_new_record_overflow by exact Hfits. cbn.
    rewrite app_nil_r. repeat split.
Qed.

Lemma dw_serve_records call db :
  exists created,
    DriveWise.compliance_records (DriveWiseViews.serve call db) =
    DriveWise.compliance_records db ++ created.
Proof.
  destruct call as [data|vehicle_id amount|vehicle_id|limit];
    cbn [DriveWiseViews.serve].
  - destruct (dw_process_sensor_data_records data db) as (created & _ & H).
    exists created. exact H.
  - exists []. rewrite dw_spend_tokens_records, app_nil_r. reflexivity.
  - exists []. rewrite app_nil_r. unfold DriveWiseViews.get_reward_tokens.
    destruct (DriveWiseViews.get_vehicle _ _) as [v|]; [|reflexivity].
    destruct (DriveWise.RewardToken.get_or_create _ _ _) as [[[[pk t] c] ts]|];
      reflexivity.
  - exists []. rewrite app_nil_r. unfold DriveWiseViews.get_leaderboard.
    destruct (match limit with None => _ | Some _ => _ end) as [n|];
      [|reflexivity].
    destruct ((n <? 0) || _); [reflexivity|]. destruct (all_some _); reflexivity.
Qed.

Lemma dw_session_records calls : forall db,
  exists created,
    DriveWise.compliance_records (DriveWiseViews.session calls db) =
    DriveWise.compliance_records db ++ created.
Proof.
  induction calls as [|call calls IH]; intros db.
  - exists []. rewrite app_nil_r. reflexivity.
  - cbn [DriveWiseViews.session fold_left].
    destruct (IH (DriveWiseViews.serve call db)) as (later & Hlater).
    destruct (dw_serve_records call db) as (created & Hcreated).
    exists (created ++ later).
    unfold DriveWiseViews.session in Hlater. rewrite Hlater, Hcreated.
    rewrite app_assoc. reflexivity.
Qed.

(** X6: a drivewise sensor event whose record is stored, that is whose
    speed value fits the column, adds exactly one trip to the vehicle of the
    event and none to any other vehicle; an event whose record cannot be
    stored adds no trip.  A 201 answer reports the previous number of trips
    of the vehicle plus one. *)
Theorem X6_one_trip_per_event :
  forall data db,
    let db' := fst (DriveWise.process_sensor_data data db) in
    (forall self,
       DriveWise.Vehicle.total_trips (DriveWise.compliance_records db') self =
       DriveWise.Vehicle.total_trips (DriveWise.compliance_records db) self
       + (if String.eqb (DriveWise.Vehicle.vehicle_id self)
                        (DriveWise.SensorData.vehicle_id data)
             && dw_speed_fits data
          then 1 else 0))
    /\ match snd (DriveWise.process_sensor_data data db) with
       | DriveWise.HTTP_201_CREATED body =>
           exists vehicle,
             DriveWise.Vehicle.vehicle_id vehicle =
               DriveWise.SensorData.vehicle_id data
             /\ DriveWise.response_total_trips body =
                DriveWise.Vehicle.total_trips (DriveWise.compliance_records db)
                  vehicle + 1
       | _ => True
       end.
Proof.
  intros data db db'. subst db'.
  destruct (dw_process_sensor_data_record data db)
    as (vehicle & ts & Hid & Hrecords & Hbody).
  assert (Htrips : forall self,
       DriveWise.Vehicle.total_trips
         (DriveWise.compliance_records (fst (DriveWise.process_sensor_data data db)))
         self =
       DriveWise.Vehicle.total_trips (DriveWise.compliance_records db) self
       + (if String.eqb (DriveWise.Vehicle.vehicle_id self)
                        (DriveWise.SensorData.vehicle_id data)
             && dw_speed_fits data
          then 1 else 0)).
  { intros self. rewrite Hrecords, total_trips_app. f_equal.
    destruct (dw_speed_fits data); [|rewrite andb_false_r; reflexivity].
    rewrite andb_true_r.
    unfold DriveWise.Vehicle.total_trips, DriveWise.Vehicle.of_vehicle.
    rewrite save_fst. cbn [filter owner set_compliance_score DriveWise.new_record].
    rewrite Hid, String.eqb_sym.
    destruct (String.eqb _ _); reflexivity. }
  split; [exact Htrips|].
  destruct (snd (DriveWise.process_sensor_data data db)); try exact I.
  exists vehicle. split; [exact Hid|].
  destruct Hbody as (Hfits & _ & _ & ->).
  rewrite Htrips, Hid, String.eqb_refl, Hfits. reflexivity.
Qed.

Example dw_overflow_adds_no_trip :
  DriveWise.process_sensor_data dw_speed_overflow dw_db1 =
  (DriveWise.mkDB (DriveWise.vehicles dw_db1)
     (DriveWise.traffic_signs dw_db1
      ++ [DriveWise.TrafficSign.mk "speed_limit" "40" "Main St"])
     (DriveWise.compliance_records dw_db1) (DriveWise.reward_tokens dw_db1)
     (DriveWise.leaderboard dw_db1),
   DriveWise.HTTP_500_INTERNAL_SERVER_ERROR).
Proof. vm_compute. reflexivity. Qed.

Lemma total_trips_nonneg objects self :
  0 <= DriveWise.Vehicle.total_trips objects self.
Proof. unfold DriveWise.Vehicle.total_trips. lia. Qed.

(** X7: records are never removed, so the number of trips of a vehicle never
    decreases and a vehicle that qualifies for the leaderboard keeps
    qualifying, whatever calls are served. *)
Theorem X7_qualification_never_lost :
  forall calls db self,
    DriveWise.Vehicle.total_trips (DriveWise.compliance_records db) self <=
    DriveWise.Vehicle.total_trips
      (DriveWise.compliance_records (DriveWiseViews.session calls db)) self
    /\ (DriveWise.Vehicle.qualifies_for_leaderboard
          (DriveWise.compliance_records db) self = true ->
        DriveWise.Vehicle.qualifies_for_leaderboard
          (DriveWise.compliance_records (DriveWiseViews.session calls db)) self
        = true).
Proof.
  intros calls db self.
  destruct (dw_session_records calls db) as (created & ->).
  rewrite total_trips_app. pose proof (total_trips_nonneg created self).
  split; [lia|]. unfold DriveWise.Vehicle.qualifies_for_leaderboard.
  rewrite total_trips_app, !Z.leb_le. lia.
Qed.

Lemma X7_qualification_never_lost_witness :
  DriveWise.Vehicle.qualifies_for_leaderboard
    (DriveWise.compliance_records (DriveWiseViews.session dw_calls dw_db3)) dw_v1
  = true.
Proof.
  apply (X7_qualification_never_lost dw_calls dw_db3 dw_v1). reflexivity.
Defined.

Lemma dw_new_record_score data vehicle traffic_sign :
  let sign := DriveWise.SensorData.sign_type data in
  let one :=
    DriveWise.get_default (DriveWise.SensorData.drive_value data) 0 =? 1 in
  calculate_compliance_score (DriveWise.new_record data vehicle traffic_sign) =
  100
  - (if String.eqb sign "no_horn" && one then 15 else 0)
  - (if String.eqb (DriveWise.Vehicle.vehicle_type vehicle) "four_wheeler"
        && negb (String.eqb sign "seatbelt" && one)
     then 25 else 0).
Proof.
  intros sign one.
  destruct (same_speed_no_penalty
              (DriveWise.new_record data vehicle traffic_sign) eq_refl)
    as (_ & _ & ->).
  unfold spec_horn_penalty, spec_seatbelt_penalty, DriveWise.new_record.
  cbn [no_horn_zone horn_applied seatbelt_required seatbelt_worn].
  fold sign. fold one.
  destruct (String.eqb sign "no_horn"), (String.eqb sign "seatbelt"), one,
    (String.eqb (DriveWise.Vehicle.vehicle_type vehicle) "four_wheeler");
    reflexivity.
Qed.

(** X8: the sensor endpoint of drivewise can only score 100, 85, 75 or 60:
    15 off for a horn reported at a no_horn sign, 25 off for a four-wheeler
    unless the event is a seatbelt sign reporting the belt worn, never a
    speed penalty.  The tokens awarded are 10, 5, 5 and 2: never zero. *)
Theorem X8_scores_of_the_sensor_endpoint :
  forall data db,
    match snd (DriveWise.process_sensor_data data db) with
    | DriveWise.HTTP_201_CREATED body =>
        let score := DriveWise.response_compliance_score body in
        In score [100; 85; 75; 60]
        /\ DriveWise.response_tokens_earned body =
             (if score =? 100 then 10 else if score =? 60 then 2 else 5)
        /\ exists vehicle,
             DriveWise.Vehicle.vehicle_id vehicle =
               DriveWise.SensorData.vehicle_id data
             /\ score =
                100
                - (if String.eqb (DriveWise.SensorData.sign_type data) "no_horn"
                      && (DriveWise.get_default
                            (DriveWise.SensorData.drive_value data) 0 =? 1)
                   then 15 else 0)
                - (if String.eqb (DriveWise.Vehicle.vehicle_type vehicle)
                        "four_wheeler"
                      && negb (String.eqb (DriveWise.SensorData.sign_type data)
                                 "seatbelt"
                               && (DriveWise.get_default
                                     (DriveWise.SensorData.drive_value data) 0
                                   =? 1))
                   then 25 else 0)
    | _ => True
    end.
Proof.
  intros data db.
  destruct (dw_process_sensor_data_record data db)
    as (vehicle & ts & Hid & _ & Hbody).
  destruct (snd (DriveWise.process_sensor_data data db)); try exact I.
  destruct Hbody as (_ & Hscore & Htokens & _). cbv zeta.
  rewrite Htokens, Hscore, dw_new_record_score. cbv zeta.
  split; [|split; [|exists vehicle; split; [exact Hid|reflexivity]]];
    destruct (String.eqb _ "no_horn" && _), (String.eqb _ "four_wheeler" && _);
    cbn; auto.
Qed.

Example dw_four_wheeler_always_charged :
  map (fun data =>
         match snd (DriveWise.process_sensor_data data dw_db1) with
         | DriveWise.HTTP_201_CREATED body =>
             (DriveWise.response_compliance_score body,
              DriveWise.response_tokens_earned body)
         | _ => (0, 0)
         end)
      [dw_seatbelt_worn; dw_speed_65; dw_horn_applied] =
  [(100, 10); (75, 5); (60, 2)].
Proof. vm_compute. reflexivity. Qed.

(* ------------------------------------------------------------------ *)
(** ** The leaderboard after a ranker pass *)

Section Refresh.

Import DriveWise.Leaderboard.

Variable records : list DriveWise.CRecord.
Variable tokens : list DriveWise.RewardToken.t.

Lemma update_all_rankings_passes vehicles objects :
  update_all_rankings vehicles records tokens objects =
  rank_pass
    (fold_left (refresh_step records tokens)
       (vehicles_with_records vehicles records) objects).
Proof. reflexivity. Qed.

Lemma save_row_last {A} (objects : list A) x row :
  save_row (List.length objects) row (objects ++ [x]) = objects ++ [row].
Proof.
  induction objects as [|y objects IH]; [reflexivity|].
  cbn [List.length app save_row]. rewrite IH. reflexivity.
Qed.

Lemma refresh_step_found objects v pk self :
  first (of_vehicle v) objects = Some (pk, self) ->
  refresh_step records tokens objects v =
  save_row pk (with_stats records tokens v self) objects.
Proof.
  intros H. unfold refresh_step, get_or_create. rewrite H. reflexivity.
Qed.

Lemma refresh_step_created objects v :
  first (of_vehicle v) objects = None ->
  refresh_step records tokens objects v =
  objects ++ [with_stats records tokens v (create v)].
Proof.
  intros H. unfold refresh_step, get_or_create. rewrite H.
  unfold update_stats. apply save_row_last.
Qed.

Lemma with_stats_current v self :
  vehicle self = DriveWise.Vehicle.vehicle_id v ->
  is_current records tokens v (with_stats records tokens v self).
Proof. intros H. split; [exact H|reflexivity]. Qed.

Lemma with_stats_same_vehicle v w :
  DriveWise.Vehicle.vehicle_id w = DriveWise.Vehicle.vehicle_id v ->
  forall self, with_stats records tokens w self = with_stats records tokens v self.
Proof.
  intros H self.
  unfold with_stats, DriveWise.Vehicle.total_violations,
    DriveWise.Vehicle.total_trips, DriveWise.Vehicle.compliance_rate,
    DriveWise.Vehicle.average_compliance_score,
    DriveWise.Vehicle.total_violations, DriveWise.Vehicle.total_trips,
    DriveWise.Vehicle.of_vehicle, DriveWise.RewardToken.of_vehicle.
  rewrite H. reflexivity.
Qed.

Lemma of_vehicle_same v w :
  DriveWise.Vehicle.vehicle_id w = DriveWise.Vehicle.vehicle_id v ->
  of_vehicle w = of_vehicle v.
Proof. intros H. unfold of_vehicle. rewrite H. reflexivity. Qed.

Lemma of_vehicle_true v e :
  of_vehicle v e = true <-> vehicle e = DriveWise.Vehicle.vehicle_id v.
Proof. unfold of_vehicle. apply String.eqb_eq. Qed.

(** After its step the vehicle's entry is the first match and is current. *)
Lemma refresh_step_current objects v :
  exists pk e,
    first (of_vehicle v) (refresh_step records tokens objects v) = Some (pk, e)
    /\ is_current records tokens v e.
Proof.
  destruct (first (of_vehicle v) objects) as [[pk self]|] eqn:Hf.
  - rewrite (refresh_step_found _ _ _ _ Hf).
    pose proof Hf as Hsome. apply first_Some in Hsome. destruct Hsome as [Hn Hp].
    exists pk, (with_stats records tokens v self). split.
    + apply first_intro.
      * apply nth_error_save_row_eq. apply nth_error_Some. congruence.
      * exact Hp.
      * intros j y Hj Hy. rewrite nth_error_save_row_neq in Hy by lia.
        eapply first_least; eassumption.
    + apply with_stats_current. apply of_vehicle_true. exact Hp.
  - rewrite (refresh_step_created _ _ Hf).
    exists (List.length objects), (with_stats records tokens v (create v)).
    split.
    + apply first_intro.
      * rewrite nth_error_app2, Nat.sub_diag by lia. reflexivity.
      * apply of_vehicle_true. reflexivity.
      * intros j y Hj Hy. rewrite nth_error_app1 in Hy by exact Hj.
        apply nth_error_In in Hy. revert y Hy. apply first_None. exact Hf.
    + apply with_stats_current. reflexivity.
Qed.

(** A current first match stays where it is, and current, through the step
    of any vehicle. *)
Lemma refresh_step_keeps objects v w pk e :
  first (of_vehicle v) objects = Some (pk, e) ->
  is_current records tokens v e ->
  exists e',
    first (of_vehicle v) (refresh_step records tokens objects w) = Some (pk, e')
    /\ is_current records tokens v e'.
Proof.
  intros Hf [Hv Hcur].
  pose proof Hf as Hsome. apply first_Some in Hsome. destruct Hsome as [Hn Hp].
  destruct (String.eqb_spec (DriveWise.Vehicle.vehicle_id w)
              (DriveWise.Vehicle.vehicle_id v)) as [Hid|Hid].
  - assert (Hfw : first (of_vehicle w) objects = Some (pk, e))
      by (rewrite (of_vehicle_same _ _ Hid); exact Hf).
    rewrite (refresh_step_found _ _ _ _ Hfw), (with_stats_same_vehicle _ _ Hid), Hcur.
    rewrite save_row_same by exact Hn. exists e. split; [exact Hf|].
    split; assumption.
  - exists e. split; [|split; assumption].
    destruct (first (of_vehicle w) objects) as [[pk' self]|] eqn:Hfw.
    + rewrite (refresh_step_found _ _ _ _ Hfw).
      pose proof Hfw as Hsome'. apply first_Some in Hsome'. destruct Hsome' as [Hn' Hp'].
      apply of_vehicle_true in Hp'.
      assert (Hne : pk' <> pk).
      { intros ->. rewrite Hn in Hn'. injection Hn' as ->. congruence. }
      apply first_intro.
      * rewrite nth_error_save_row_neq by exact Hne. exact Hn.
      * exact Hp.
      * intros j y Hj Hy. destruct (Nat.eq_dec pk' j) as [->|Hj'].
        -- rewrite nth_error_save_row_eq in Hy
             by (apply nth_error_Some; congruence).
           injection Hy as <-. unfold of_vehicle. cbn. rewrite Hp'.
           apply String.eqb_neq. exact Hid.
        -- rewrite nth_error_save_row_neq in Hy by exact Hj'.
           eapply first_least; eassumption.
    + rewrite (refresh_step_created _ _ Hfw). apply first_intro.
      * rewrite nth_error_app1 by (apply nth_error_Some; congruence). exact Hn.
      * exact Hp.
      * intros j y Hj Hy.
        rewrite nth_error_app1 in Hy
          by (assert (pk < List.length objects)%nat
                by (apply nth_error_Some; congruence); lia).
        eapply first_least; eassumption.
Qed.

Lemma refresh_keeps vs : forall objects v pk e,
  first (of_vehicle v) objects = Some (pk, e) ->
  is_current records tokens v e ->
  exists e',
    first (of_vehicle v) (fold_left (refresh_step records tokens) vs objects) =
      Some (pk, e')
    /\ is_current records tokens v e'.
Proof.
  induction vs as [|w vs IH]; intros objects v pk e Hf Hcur.
  - exists e. split; assumption.
  - cbn [fold_left].
    destruct (refresh_step_keeps objects v w pk e Hf Hcur) as (e1 & Hf1 & Hcur1).
    eapply IH; eassumption.
Qed.

Lemma refresh_current vs : forall objects v,
  In v vs ->
  exists pk e,
    first (of_vehicle v) (fold_left (refresh_step records tokens) vs objects) =
      Some (pk, e)
    /\ is_current records tokens v e.
Proof.
  induction vs as [|w vs IH]; intros objects v Hin; [destruct Hin|].
  cbn [fold_left]. destruct Hin as [->|Hin].
  - destruct (refresh_step_current objects v) as (pk & e & Hf & Hcur).
    exists pk. eapply refresh_keeps; eassumption.
  - apply IH. exact Hin.
Qed.

End Refresh.

Section RankPass.

Import DriveWise.Leaderboard.

Lemma rank_items_keys objects :
  Permutation (map item_pk (enumerate 1 (order_by (indexed objects))))
              (seq 0 (List.length objects)).
Proof.
  replace (map item_pk (enumerate 1 (order_by (indexed objects))))
    with (map fst (order_by (indexed objects))).
  - rewrite <- (indexed_from_fst objects 0). apply Permutation_map.
    apply order_by_perm.
  - rewrite <- (enumerate_snd (order_by (indexed objects)) 1) at 1.
    rewrite map_map. reflexivity.
Qed.

Lemma rank_items_bound objects item :
  In item (enumerate 1 (order_by (indexed objects))) ->
  1 <= fst item <= Z.of_nat (List.length objects).
Proof.
  intros Hin. apply (in_map fst) in Hin. rewrite enumerate_fst in Hin.
  apply in_map_iff in Hin. destruct Hin as (i & <- & Hi). apply in_seq in Hi.
  rewrite (Permutation_length (order_by_perm (indexed objects))) in Hi.
  unfold indexed, indexed_from in Hi.
  rewrite length_combine, length_seq, Nat.min_id in Hi. lia.
Qed.

Lemma rank_pass_length objects :
  List.length (rank_pass objects) = List.length objects.
Proof. apply fold_save_ranked_length. Qed.

Lemma rank_pass_row objects pk e :
  nth_error objects pk = Some e ->
  exists r,
    nth_error (rank_pass objects) pk = Some (set_rank e r)
    /\ 1 <= r <= Z.of_nat (List.length objects).
Proof.
  intros Hn.
  assert (Hin : In (pk, e) (order_by (indexed objects))).
  { apply (Permutation_in _ (Permutation_sym (order_by_perm (indexed objects)))).
    apply indexed_from_In. rewrite Nat.sub_0_r. split; [lia|exact Hn]. }
  rewrite <- (enumerate_snd (order_by (indexed objects)) 1) in Hin.
  apply in_map_iff in Hin. destruct Hin as ([r [pk' e']] & Hsnd & Hin).
  cbn [snd] in Hsnd. injection Hsnd as -> ->.
  exists r. split; [|exact (rank_items_bound objects _ Hin)].
  unfold rank_pass.
  apply (fold_save_ranked_written
           (enumerate 1 (order_by (indexed objects))) objects (r, (pk, e))).
  - eapply Permutation_NoDup;
      [symmetry; apply rank_items_keys|apply seq_NoDup].
  - intros i Hi. apply (in_map item_pk) in Hi.
    eapply Permutation_in in Hi; [|apply rank_items_keys].
    apply in_seq in Hi. lia.
  - exact Hin.
Qed.

Lemma rank_pass_first objects v pk e :
  first (of_vehicle v) objects = Some (pk, e) ->
  exists r,
    first (of_vehicle v) (rank_pass objects) = Some (pk, set_rank e r)
    /\ 1 <= r <= Z.of_nat (List.length objects).
Proof.
  intros Hf. pose proof Hf as Hsome. apply first_Some in Hsome.
  destruct Hsome as [Hn Hp].
  destruct (rank_pass_row objects pk e Hn) as (r & Hr & Hbound).
  exists r. split; [|exact Hbound].
  apply first_intro; [exact Hr|exact Hp|].
  intros j y Hj Hy.
  assert (Hlen : (j < List.length objects)%nat).
  { rewrite <- rank_pass_length. apply nth_error_Some. congruence. }
  destruct (nth_error objects j) as [ej|] eqn:Hej;
    [|apply nth_error_None in Hej; lia].
  destruct (rank_pass_row objects j ej Hej) as (rj & Hrj & _).
  rewrite Hrj in Hy. injection Hy as <-.
  exact (first_least _ _ _ _ Hf j ej Hj Hej).
Qed.

Lemma rank_pass_vehicles objects :
  map vehicle (rank_pass objects) = map vehicle objects.
Proof.
  apply nth_error_ext. intros n. rewrite !nth_error_map.
  destruct (nth_error objects n) as [e|] eqn:He.
  - destruct (rank_pass_row objects n e He) as (r & -> & _). reflexivity.
  - apply nth_error_None in He. rewrite <- rank_pass_length in He.
    apply nth_error_None in He. rewrite He. reflexivity.
Qed.

End RankPass.

Section RankerPass.

Import DriveWise.Leaderboard.

Lemma is_current_set_rank records tokens v e r :
  is_current records tokens v e -> is_current records tokens v (set_rank e r).
Proof.
  intros [Hv Hcur]. split; [exact Hv|].
  rewrite <- Hcur at 2. reflexivity.
Qed.

Lemma update_all_rankings_current vehicles records tokens objects v :
  In v vehicles ->
  3 <= DriveWise.Vehicle.total_trips records v ->
  exists pk e,
    first (of_vehicle v) (update_all_rankings vehicles records tokens objects) =
      Some (pk, e)
    /\ is_current records tokens v e
    /\ 1 <= rank e <=
       Z.of_nat (List.length
                   (update_all_rankings vehicles records tokens objects)).
Proof.
  intros Hin Htrips. rewrite update_all_rankings_passes.
  assert (Hvs : In v (vehicles_with_records vehicles records)).
  { apply filter_In. split; [exact Hin|]. apply Z.leb_le. exact Htrips. }
  destruct (refresh_current records tokens _ objects v Hvs) as (pk & e & Hf & Hcur).
  destruct (rank_pass_first _ v pk e Hf) as (r & Hr & Hbound).
  exists pk, (set_rank e r). split; [exact Hr|].
  split; [apply is_current_set_rank; exact Hcur|].
  rewrite rank_pass_length. exact Hbound.
Qed.

(** X9: after update_all_rankings every vehicle with at least three records
    has a leaderboard row, the one a lookup by vehicle finds, and that row
    holds the vehicle's current trips, violations, rates and earned tokens
    and a rank between 1 and the number of rows. *)
Theorem X9_qualified_vehicles_are_ranked :
  forall vehicles records tokens objects v,
    In v vehicles ->
    3 <= DriveWise.Vehicle.total_trips records v ->
    let ranked := update_all_rankings vehicles records tokens objects in
    exists pk e,
      first (of_vehicle v) ranked = Some (pk, e)
      /\ vehicle e = DriveWise.Vehicle.vehicle_id v
      /\ total_trips e = DriveWise.Vehicle.total_trips records v
      /\ total_violations e = DriveWise.Vehicle.total_violations records v
      /\ compliance_rate e =
           to_decimal (DriveWise.Vehicle.compliance_rate records v)
      /\ average_compliance_score e =
           to_decimal (DriveWise.Vehicle.average_compliance_score records v)
      /\ total_tokens_earned e =
           match first (DriveWise.RewardToken.of_vehicle v) tokens with
           | Some (_, reward_token) =>
               DriveWise.RewardToken.tokens_earned reward_token
           | None => 0
           end
      /\ 1 <= rank e <= Z.of_nat (List.length ranked).
Proof.
  intros vehicles records tokens objects v Hin Htrips ranked.
  destruct (update_all_rankings_current vehicles records tokens objects v
              Hin Htrips) as (pk & e & Hf & [Hv Hcur] & Hrank).
  exists pk, e. split; [exact Hf|]. split; [exact Hv|].
  repeat split; try (rewrite <- Hcur at 1; reflexivity); apply Hrank.
Qed.

Lemma X9_qualified_vehicles_are_ranked_witness :
  exists pk e,
    first (of_vehicle dw_v2) (DriveWise.leaderboard dw_db7) = Some (pk, e)
    /\ vehicle e = "V2" /\ total_trips e = 4 /\ total_tokens_earned e = 40
    /\ 1 <= rank e <= 2.
Proof.
  assert (Hsame : update_all_rankings (DriveWise.vehicles dw_db7)
                    (DriveWise.compliance_records dw_db7)
                    (DriveWise.reward_tokens dw_db7)
                    (DriveWise.leaderboard dw_db7) =
                  DriveWise.leaderboard dw_db7) by (vm_compute; reflexivity).
  destruct (X9_qualified_vehicles_are_ranked (DriveWise.vehicles dw_db7)
              (DriveWise.compliance_records dw_db7)
              (DriveWise.reward_tokens dw_db7) (DriveWise.leaderboard dw_db7)
              dw_v2)
    as (pk & e & Hf & Hv & Ht & _ & _ & _ & Htok & Hr).
  - vm_compute. right. left. reflexivity.
  - vm_compute. discriminate.
  - rewrite Hsame in Hf, Hr. exists pk, e. split; [exact Hf|].
    split; [exact Hv|]. split; [exact Ht|]. split; [exact Htok|exact Hr].
Defined.

End RankerPass.

Section Keys.

Import DriveWise.Leaderboard.

Variable records : list DriveWise.CRecord.
Variable tokens : list DriveWise.RewardToken.t.

Lemma refresh_step_vehicles objects w :
  map vehicle (refresh_step records tokens objects w) =
  map vehicle objects
  ++ match first (of_vehicle w) objects with
     | Some _ => []
     | None => [DriveWise.Vehicle.vehicle_id w]
     end.
Proof.
  destruct (first (of_vehicle w) objects) as [[pk self]|] eqn:Hf.
  - rewrite (refresh_step_found _ _ _ _ _ _ Hf), app_nil_r.
    apply first_Some in Hf. destruct Hf as [Hn _].
    eapply map_save_row; [exact Hn|reflexivity].
  - rewrite (refresh_step_created _ _ _ _ Hf), map_app. reflexivity.
Qed.

Lemma refresh_vehicles vs : forall objects,
  exists added,
    map vehicle (fold_left (refresh_step records tokens) vs objects) =
      map vehicle objects ++ added
    /\ (forall id, In id added ->
          exists v, In v vs /\ DriveWise.Vehicle.vehicle_id v = id)
    /\ (NoDup (map vehicle objects) -> NoDup (map vehicle objects ++ added)).
Proof.
  induction vs as [|w vs IH]; intros objects.
  - exists []. rewrite app_nil_r. split; [reflexivity|].
    split; [intros id []|auto].
  - cbn [fold_left].
    destruct (IH (refresh_step records tokens objects w))
      as (added & Heq & Hadded & Hnd).
    rewrite refresh_step_vehicles in Heq, Hnd.
    destruct (first (of_vehicle w) objects) as [[pk self]|] eqn:Hf.
    + rewrite app_nil_r in Heq, Hnd. exists added. split; [exact Heq|].
      split; [|exact Hnd].
      intros id Hid. destruct (Hadded id Hid) as (v & Hv & Hvid).
      exists v. split; [right; exact Hv|exact Hvid].
    + exists (DriveWise.Vehicle.vehicle_id w :: added).
      rewrite <- app_assoc in Heq, Hnd. split; [exact Heq|]. split.
      * intros id [<-|Hid]; [exists w; split; [left|]; reflexivity|].
        destruct (Hadded id Hid) as (v & Hv & Hvid).
        exists v. split; [right; exact Hv|exact Hvid].
      * intros Hobjects. apply Hnd.
        apply NoDup_app; [exact Hobjects|constructor; [intros []|constructor]|].
        intros a Ha [<-|[]]. apply in_map_iff in Ha.
        destruct Ha as (x & Hx & Hin).
        pose proof (proj1 (first_None (of_vehicle w) objects) Hf x Hin) as Hp.
        unfold of_vehicle in Hp. rewrite Hx, String.eqb_refl in Hp.
        discriminate.
Qed.

End Keys.

(** X10: update_all_rankings never removes a leaderboard row nor moves one to
    another vehicle; the rows it appends belong to vehicles of the table with
    at least three records, and it never gives a vehicle a second row. *)
Theorem X10_ranker_keeps_the_rows :
  forall vehicles records tokens objects,
    let ranked :=
      DriveWise.Leaderboard.update_all_rankings vehicles records tokens objects in
    exists added,
      map DriveWise.Leaderboard.vehicle ranked =
        map DriveWise.Leaderboard.vehicle objects ++ added
      /\ (forall id, In id added ->
            exists v, In v vehicles
                      /\ DriveWise.Vehicle.vehicle_id v = id
                      /\ 3 <= DriveWise.Vehicle.total_trips records v)
      /\ (NoDup (map DriveWise.Leaderboard.vehicle objects) ->
          NoDup (map DriveWise.Leaderboard.vehicle ranked)).
Proof.
  intros vehicles records tokens objects ranked. subst ranked.
  rewrite update_all_rankings_passes, rank_pass_vehicles.
  destruct (refresh_vehicles records tokens
              (vehicles_with_records vehicles records) objects)
    as (added & Heq & Hadded & Hnd).
  exists added. split; [exact Heq|]. split.
  - intros id Hid. destruct (Hadded id Hid) as (v & Hv & Hvid).
    apply filter_In in Hv. destruct Hv as [Hv Htrips].
    exists v. split; [exact Hv|]. split; [exact Hvid|].
    apply Z.leb_le. exact Htrips.
  - intros Hobjects. rewrite Heq. apply Hnd. exact Hobjects.
Qed.

Lemma X10_ranker_keeps_the_rows_witness :
  NoDup (map DriveWise.Leaderboard.vehicle
           (DriveWise.Leaderboard.update_all_rankings
              (DriveWise.vehicles dw_db7) (DriveWise.compliance_records dw_db7)
              (DriveWise.reward_tokens dw_db7) [dw_entry_v2])).
Proof.
  destruct (X10_ranker_keeps_the_rows (DriveWise.vehicles dw_db7)
              (DriveWise.compliance_records dw_db7)
              (DriveWise.reward_tokens dw_db7) [dw_entry_v2])
    as (added & _ & _ & H).
  apply H. vm_compute. constructor; [intros []|constructor].
Defined.

Example dw_ranker_appends_the_missing_row :
  DriveWise.Leaderboard.update_all_rankings
    (DriveWise.vehicles dw_db7) (DriveWise.compliance_records dw_db7)
    (DriveWise.reward_tokens dw_db7) [dw_entry_v2] =
  [dw_entry_v2; dw_entry_v1].
Proof. vm_compute. reflexivity. Qed.

Section Runs.

Import DriveWise.Leaderboard.

Lemma refresh_fixpoint records tokens vs : forall objects,
  (forall v, In v vs ->
     exists pk e, first (of_vehicle v) objects = Some (pk, e)
                  /\ is_current records tokens v e) ->
  fold_left (refresh_step records tokens) vs objects = objects.
Proof.
  induction vs as [|w vs IH]; intros objects H; [reflexivity|].
  cbn [fold_left].
  destruct (H w (or_introl eq_refl)) as (pk & e & Hf & [_ Hcur]).
  rewrite (refresh_step_found _ _ _ _ _ _ Hf), Hcur.
  apply first_Some in Hf. rewrite save_row_same by apply Hf.
  apply IH. intros v Hv. apply H. right. exact Hv.
Qed.

Lemma enumerate_map {A B} (g : A -> B) rows : forall start,
  enumerate start (map g rows) =
  map (fun item => (fst item, g (snd item))) (enumerate start rows).
Proof.
  induction rows as [|x rows IH]; intros start; [reflexivity|].
  cbn [map enumerate fst snd]. rewrite IH. reflexivity.
Qed.

Lemma indexed_from_map {A} (h : nat * A -> A) objects : forall n,
  indexed_from n (map h (indexed_from n objects)) =
  map (fun x => (fst x, h x)) (indexed_from n objects).
Proof.
  induction objects as [|x objects IH]; intros n; [reflexivity|].
  rewrite indexed_from_cons. cbn [map]. rewrite indexed_from_cons.
  cbn [fst]. rewrite IH. reflexivity.
Qed.

Lemma nth_error_indexed_from {A} (objects : list A) : forall n i,
  nth_error (indexed_from n objects) i =
  option_map (pair (n + i)%nat) (nth_error objects i).
Proof.
  induction objects as [|x objects IH]; intros n [|i]; try reflexivity.
  - rewrite indexed_from_cons. cbn. rewrite Nat.add_0_r. reflexivity.
  - rewrite indexed_from_cons. cbn [nth_error]. rewrite IH.
    replace (S n + i)%nat with (n + S i)%nat by lia. reflexivity.
Qed.

Lemma fold_save_ranked_noop items : forall objects,
  (forall item, In item items ->
     nth_error objects (item_pk item) = Some (item_row item)) ->
  fold_left save_ranked items objects = objects.
Proof.
  induction items as [|item items IH]; intros objects H; [reflexivity|].
  cbn [fold_left]. rewrite save_ranked_eq.
  rewrite save_row_same by (apply H; left; reflexivity).
  apply IH. intros i Hi. apply H. right. exact Hi.
Qed.

(** A list sorted by an order that is antisymmetric on its elements is the
    only sorted arrangement of these elements. *)
Lemma sorted_arrangement_unique {A} (R : A -> A -> Prop) : forall l1 l2,
  StronglySorted R l1 -> StronglySorted R l2 -> Permutation l1 l2 ->
  (forall a b, In a l1 -> In b l1 -> R a b -> R b a -> a = b) ->
  l1 = l2.
Proof.
  induction l1 as [|a l1 IH]; intros l2 H1 H2 Hp Hanti.
  - apply Permutation_nil in Hp. subst. reflexivity.
  - destruct l2 as [|b l2].
    { apply Permutation_sym, Permutation_nil in Hp. discriminate. }
    inversion H1 as [|? ? Hs1 Hall1]; inversion H2 as [|? ? Hs2 Hall2]; subst.
    assert (Ha : In a (b :: l2))
      by (eapply Permutation_in; [exact Hp|left; reflexivity]).
    assert (Hb : In b (a :: l1))
      by (eapply Permutation_in;
          [apply Permutation_sym; exact Hp|left; reflexivity]).
    assert (Hab : a = b).
    { rewrite Forall_forall in Hall1, Hall2.
      destruct Ha as [Ha|Ha]; [congruence|].
      destruct Hb as [Hb'|Hb']; [congruence|].
      apply Hanti; [left; reflexivity|right; exact Hb'
                   |apply Hall1; exact Hb'|apply Hall2; exact Ha]. }
    subst b. f_equal. apply IH; [exact Hs1|exact Hs2| |].
    + eapply Permutation_cons_inv. exact Hp.
    + intros x y Hx Hy. apply Hanti; right; assumption.
Qed.

(** The ranking loop over any arrangement of the rows. *)
Section RankPassBy.

Variable objects : list t.
Variable ordered : list (nat * t).
Hypothesis arrangement : Permutation ordered (indexed objects).

Lemma rank_pass_by_keys :
  Permutation (map item_pk (enumerate 1 ordered)) (seq 0 (List.length objects)).
Proof.
  replace (map item_pk (enumerate 1 ordered)) with (map fst ordered).
  - rewrite <- (indexed_from_fst objects 0). apply Permutation_map.
    exact arrangement.
  - rewrite <- (enumerate_snd ordered 1) at 1.
    rewrite map_map. reflexivity.
Qed.

Lemma rank_pass_by_length :
  List.length (rank_pass_by ordered objects) = List.length objects.
Proof. apply fold_save_ranked_length. Qed.

Lemma rank_pass_by_item item :
  In item (enumerate 1 ordered) ->
  nth_error (rank_pass_by ordered objects) (item_pk item) = Some (item_row item).
Proof.
  intros Hin. unfold rank_pass_by. apply fold_save_ranked_written.
  - eapply Permutation_NoDup;
      [symmetry; apply rank_pass_by_keys|apply seq_NoDup].
  - intros i Hi. apply (in_map item_pk) in Hi.
    eapply Permutation_in in Hi; [|apply rank_pass_by_keys].
    apply in_seq in Hi. lia.
  - exact Hin.
Qed.

Lemma rank_pass_by_row pk e :
  nth_error objects pk = Some e ->
  exists r, nth_error (rank_pass_by ordered objects) pk = Some (set_rank e r).
Proof.
  intros Hn.
  assert (Hin : In (pk, e) ordered).
  { apply (Permutation_in _ (Permutation_sym arrangement)).
    apply indexed_from_In. rewrite Nat.sub_0_r. split; [lia|exact Hn]. }
  rewrite <- (enumerate_snd ordered 1) in Hin.
  apply in_map_iff in Hin. destruct Hin as ([r [pk' e']] & Hsnd & Hin).
  cbn [snd] in Hsnd. injection Hsnd as -> ->.
  exists r. exact (rank_pass_by_item (r, (pk, e)) Hin).
Qed.

Lemma rank_pass_by_first v pk e :
  first (of_vehicle v) objects = Some (pk, e) ->
  exists r,
    first (of_vehicle v) (rank_pass_by ordered objects) = Some (pk, set_rank e r).
Proof.
  intros Hf. pose proof Hf as Hsome. apply first_Some in Hsome.
  destruct Hsome as [Hn Hp].
  destruct (rank_pass_by_row pk e Hn) as (r & Hr).
  exists r. apply first_intro; [exact Hr|exact Hp|].
  intros j y Hj Hy.
  assert (Hlen : (j < List.length objects)%nat).
  { rewrite <- rank_pass_by_length. apply nth_error_Some. congruence. }
  destruct (nth_error objects j) as [ej|] eqn:Hej;
    [|apply nth_error_None in Hej; lia].
  destruct (rank_pass_by_row j ej Hej) as (rj & Hrj).
  rewrite Hrj in Hy. injection Hy as <-.
  exact (first_least _ _ _ _ Hf j ej Hj Hej).
Qed.

(** The loop writes ranks only: row by row the table is the old one with
    the rank the loop left. *)
Lemma rank_pass_by_as_map :
  let ranked := rank_pass_by ordered objects in
  ranked =
  map (fun x : nat * t => set_rank (snd x) (rank (nth (fst x) ranked (snd x))))
      (indexed objects).
Proof.
  intros ranked. apply nth_error_ext. intros i.
  rewrite nth_error_map. unfold indexed. rewrite nth_error_indexed_from.
  destruct (nth_error objects i) as [e|] eqn:He; cbn [option_map].
  - destruct (rank_pass_by_row i e He) as (r & Hr).
    fold ranked in Hr. rewrite Hr. cbn [fst snd Nat.add].
    rewrite (nth_error_nth _ _ e Hr). reflexivity.
  - apply nth_error_None. unfold ranked. rewrite rank_pass_by_length.
    apply nth_error_None. exact He.
Qed.

Lemma rank_pass_by_unranked :
  map unranked (rank_pass_by ordered objects) = map unranked objects.
Proof.
  apply nth_error_ext. intros i. rewrite !nth_error_map.
  destruct (nth_error objects i) as [e|] eqn:He.
  - destruct (rank_pass_by_row i e He) as (r & ->). reflexivity.
  - apply nth_error_None in He. rewrite <- rank_pass_by_length in He.
    apply nth_error_None in He. rewrite He. reflexivity.
Qed.

End RankPassBy.

(** The function of the model is one of the runs. *)
Lemma update_all_rankings_run vehicles records tokens objects :
  ranking_run vehicles records tokens objects
    (update_all_rankings vehicles records tokens objects).
Proof.
  exists (vehicles_with_records vehicles records).
  exists (order_by
            (indexed (fold_left (refresh_step records tokens)
                        (vehicles_with_records vehicles records) objects))).
  split; [reflexivity|]. split; [apply order_by_perm|].
  split; [apply order_by_sorted|reflexivity].
Qed.

(** After any run every qualifying vehicle has its row, with current
    statistics. *)
Lemma ranking_run_current vehicles records tokens objects ranked v :
  ranking_run vehicles records tokens objects ranked ->
  In v (vehicles_with_records vehicles records) ->
  exists pk e,
    first (of_vehicle v) ranked = Some (pk, e)
    /\ is_current records tokens v e.
Proof.
  intros (visit & ordered & Hvisit & Hordered & _ & ->) Hv.
  apply (Permutation_in _ (Permutation_sym Hvisit)) in Hv.
  destruct (refresh_current records tokens visit objects v Hv)
    as (pk & e & Hf & Hcur).
  destruct (rank_pass_by_first _ _ Hordered v pk e Hf) as (r & Hr).
  exists pk, (set_rank e r). split; [exact Hr|].
  apply is_current_set_rank. exact Hcur.
Qed.

(** Rows that tie neither way on the key are equal rows of the same key. *)
Lemma keys_distinct_antisymmetric objects a b :
  keys_distinct objects ->
  In a (indexed objects) -> In b (indexed objects) ->
  before a b -> before b a -> a = b.
Proof.
  intros Hkeys Ha Hb Hab Hba. destruct a as [i ea], b as [j eb].
  apply indexed_from_In in Ha, Hb. rewrite Nat.sub_0_r in Ha, Hb.
  destruct Ha as [_ Ha], Hb as [_ Hb].
  destruct (Nat.eq_dec i j) as [->|Hne]; [congruence|exfalso].
  unfold before in Hab, Hba. cbn [snd] in Hab, Hba.
  destruct (Hkeys i j ea eb Ha Hb Hne) as [Habove|Habove];
    apply ranks_above_not_preceded in Habove; congruence.
Qed.

(** X11: update_all_rankings is idempotent up to the order the database
    gives to rows that tie on the sort key.  Whatever order the database
    returns the vehicles and the tied rows in, a second run after a first
    one adds no row and changes no column but the rank; and when no two rows
    tie on (total_trips, total_violations, compliance_rate), the second run
    leaves the table, ranks included, exactly as the first run left it. *)
Theorem X11_ranker_is_idempotent :
  forall vehicles records tokens objects ranked again,
    ranking_run vehicles records tokens objects ranked ->
    ranking_run vehicles records tokens ranked again ->
    map unranked again = map unranked ranked
    /\ (keys_distinct ranked -> again = ranked).
Proof.
  intros vehicles records tokens objects ranked again Hfirst Hsecond.
  destruct Hsecond as (visit2 & ordered2 & Hvisit2 & Hperm2 & Hsorted2 & ->).
  assert (Hsame : fold_left (refresh_step records tokens) visit2 ranked = ranked).
  { apply refresh_fixpoint. intros v Hv.
    apply (ranking_run_current vehicles records tokens objects ranked v Hfirst).
    apply (Permutation_in _ Hvisit2). exact Hv. }
  rewrite Hsame in *. split.
  - apply rank_pass_by_unranked. exact Hperm2.
  - intros Hkeys.
    destruct Hfirst as (visit1 & ordered1 & _ & Hperm1 & Hsorted1 & Hranked).
    set (refreshed := fold_left (refresh_step records tokens) visit1 objects) in *.
    pose proof (rank_pass_by_as_map refreshed ordered1 Hperm1) as Hmap.
    cbv zeta in Hmap. rewrite <- Hranked in Hmap.
    set (k := fun x : nat * t =>
                set_rank (snd x) (rank (nth (fst x) ranked (snd x)))) in *.
    set (g := fun x : nat * t => (fst x, k x)).
    assert (Hindexed : indexed ranked = map g (indexed refreshed)).
    { transitivity (indexed (map k (indexed refreshed)));
        [f_equal; exact Hmap|apply indexed_from_map]. }
    assert (Hordered : ordered2 = map g ordered1).
    { symmetry. apply (sorted_arrangement_unique before).
      - clear - Hsorted1. induction Hsorted1 as [|x l Hl IH Hall]; cbn [map];
          constructor; [exact IH|].
        apply Forall_forall. intros y Hy. apply in_map_iff in Hy.
        destruct Hy as (z & <- & Hz). rewrite Forall_forall in Hall.
        exact (Hall z Hz).
      - exact Hsorted2.
      - rewrite Hperm2, Hindexed. apply Permutation_map. exact Hperm1.
      - intros a b Ha Hb. apply (keys_distinct_antisymmetric ranked a b Hkeys);
          rewrite Hindexed;
          [eapply Permutation_in; [apply Permutation_map; exact Hperm1|exact Ha]
          |eapply Permutation_in; [apply Permutation_map; exact Hperm1|exact Hb]]. }
    rewrite Hordered. unfold rank_pass_by. rewrite enumerate_map.
    apply fold_save_ranked_noop.
    intros item' Hin. apply in_map_iff in Hin.
    destruct Hin as ([r [pk e]] & <- & Hin).
    pose proof (rank_pass_by_item refreshed ordered1 Hperm1 _ Hin) as Hitem.
    unfold item_pk, item_row in *. cbn [fst snd] in *.
    rewrite Hranked. exact Hitem.
Qed.

Lemma X11_ranker_is_idempotent_witness :
  let ranked :=
    update_all_rankings (DriveWise.vehicles dw_db7)
      (DriveWise.compliance_records dw_db7) (DriveWise.reward_tokens dw_db7)
      (DriveWise.leaderboard dw_db3) in
  ranked = [dw_entry_v1; dw_entry_v2]
  /\ update_all_rankings (DriveWise.vehicles dw_db7)
       (DriveWise.compliance_records dw_db7) (DriveWise.reward_tokens dw_db7)
       ranked = ranked.
Proof.
  intros ranked.
  assert (Hranked : ranked = [dw_entry_v1; dw_entry_v2])
    by (vm_compute; reflexivity).
  split; [exact Hranked|].
  apply (X11_ranker_is_idempotent (DriveWise.vehicles dw_db7)
           (DriveWise.compliance_records dw_db7) (DriveWise.reward_tokens dw_db7)
           (DriveWise.leaderboard dw_db3) ranked).
  - apply update_all_rankings_run.
  - apply update_all_rankings_run.
  - rewrite Hranked. intros i j a b Hi Hj Hne.
    destruct i as [|[|i]], j as [|[|j]]; cbn in Hi, Hj;
      try congruence; try (destruct i; discriminate);
      try (destruct j; discriminate);
      injection Hi as <-; injection Hj as <-; [right|left]; left;
      vm_compute; reflexivity.
Defined.

End Runs.
(* ------------------------------------------------------------------ *)
(** ** The views get_leaderboard and get_vehicle_ranking *)

Section SortBy.

Variable A : Type.

Lemma insert_by_perm (leb : A -> A -> bool) x rows :
  Permutation (insert_by leb x rows) (x :: rows).
Proof.
  induction rows as [|y rows IH]; cbn [insert_by]; [reflexivity|].
  destruct (leb x y); [reflexivity|].
  etransitivity; [apply perm_skip; exact IH|apply perm_swap].
Qed.

Lemma sort_by_perm (leb : A -> A -> bool) rows :
  Permutation (sort_by leb rows) rows.
Proof.
  induction rows as [|x rows IH]; [constructor|].
  cbn [sort_by fold_right]. fold (sort_by leb rows).
  etransitivity; [apply insert_by_perm|]. apply perm_skip. exact IH.
Qed.

Variable key : A -> Z.

Lemma insert_by_keys_sorted x rows :
  StronglySorted Z.le (map key rows) ->
  StronglySorted Z.le
    (map key (insert_by (fun a b => key a <=? key b) x rows)).
Proof.
  induction rows as [|y rows IH]; intros H.
  - cbn. constructor; constructor.
  - cbn [map] in H. inversion H as [|? ? Hs Hall]; subst.
    cbn [insert_by]. destruct (key x <=? key y) eqn:E.
    + cbn [map]. constructor; [exact H|].
      apply Z.leb_le in E. constructor; [exact E|].
      eapply Forall_impl; [|exact Hall]. intros z Hz. lia.
    + cbn [map]. constructor; [apply IH; exact Hs|].
      apply Z.leb_gt in E.
      apply (Permutation_Forall
               (Permutation_sym
                  (Permutation_map key
                     (insert_by_perm (fun a b => key a <=? key b) x rows)))).
      cbn [map]. constructor; [lia|exact Hall].
Qed.

Lemma sort_by_keys_sorted rows :
  StronglySorted Z.le (map key (sort_by (fun a b => key a <=? key b) rows)).
Proof.
  induction rows as [|x rows IH]; [constructor|].
  cbn [sort_by fold_right]. apply insert_by_keys_sorted. exact IH.
Qed.

End SortBy.

Lemma sorted_perm_unique : forall l1 l2 : list Z,
  StronglySorted Z.le l1 -> StronglySorted Z.le l2 ->
  Permutation l1 l2 -> l1 = l2.
Proof.
  induction l1 as [|a l1 IH]; intros l2 H1 H2 Hp.
  - apply Permutation_nil in Hp. subst. reflexivity.
  - destruct l2 as [|b l2].
    { apply Permutation_sym, Permutation_nil in Hp. discriminate. }
    inversion H1 as [|? ? Hs1 Hall1]; inversion H2 as [|? ? Hs2 Hall2]; subst.
    assert (Hab : a = b).
    { assert (Ha : In a (b :: l2))
        by (eapply Permutation_in; [exact Hp|left; reflexivity]).
      assert (Hb : In b (a :: l1))
        by (eapply Permutation_in;
            [apply Permutation_sym; exact Hp|left; reflexivity]).
      rewrite Forall_forall in Hall1, Hall2.
      destruct Ha as [Ha|Ha]; [congruence|].
      destruct Hb as [Hb|Hb]; [congruence|].
      apply Hall1 in Hb. apply Hall2 in Ha. lia. }
    subst b. f_equal. apply IH; [exact Hs1|exact Hs2|].
    eapply Permutation_cons_inv. exact Hp.
Qed.

Lemma ranks_sorted n : forall start,
  StronglySorted Z.le (map Z.of_nat (seq start n)).
Proof.
  induction n as [|n IH]; intros start; cbn [seq map]; constructor.
  - apply IH.
  - apply Forall_forall. intros z Hz. apply in_map_iff in Hz.
    destruct Hz as (i & <- & Hi). apply in_seq in Hi. lia.
Qed.

Lemma all_some_map {A B C} (f : A -> option B) (g : B -> C) (h : A -> C) xs :
  (forall x, In x xs -> exists y, f x = Some y /\ g y = h x) ->
  exists ys, all_some (map f xs) = Some ys /\ map g ys = map h xs.
Proof.
  induction xs as [|x xs IH]; intros H.
  - exists []. split; reflexivity.
  - destruct (H x (or_introl eq_refl)) as (y & Hy & Hg).
    destruct IH as (ys & Hys & Hm); [intros z Hz; apply H; right; exact Hz|].
    exists (y :: ys). cbn [map all_some]. rewrite Hy, Hys. cbn [option_map map].
    rewrite Hg, Hm. split; reflexivity.
Qed.

Lemma firstn_In {A} (xs : list A) : forall n x, In x (firstn n xs) -> In x xs.
Proof.
  intros n x H. rewrite <- (firstn_skipn n xs). apply in_or_app. left. exact H.
Qed.

Lemma firstn_seq n : forall start len,
  firstn n (seq start len) = seq start (Nat.min n len).
Proof.
  induction n as [|n IH]; intros start [|len]; try reflexivity.
  cbn [seq firstn Nat.min]. rewrite IH. reflexivity.
Qed.

Section LeaderboardView.

Import DriveWise.Leaderboard.

Lemma update_all_rankings_ranks vehicles records tokens objects :
  let ranked := update_all_rankings vehicles records tokens objects in
  Permutation (map rank ranked) (ranks_1_to (List.length ranked)).
Proof.
  intros ranked.
  destruct (update_all_rankings_ranked vehicles records tokens objects)
    as (refreshed & _ & Hperm).
  fold ranked in Hperm. cbv zeta in Hperm.
  set (ordered := order_by (indexed refreshed)) in *.
  assert (Hlen : List.length (enumerate 1 ordered) = List.length ordered).
  { rewrite <- (enumerate_snd ordered 1) at 2. symmetry. apply length_map. }
  transitivity (map rank (map item_row (enumerate 1 ordered))).
  - apply Permutation_map. symmetry. exact Hperm.
  - rewrite <- (Permutation_length Hperm), length_map, Hlen.
    rewrite ranked_ranks by reflexivity. reflexivity.
Qed.

Lemma update_all_rankings_by_rank vehicles records tokens objects :
  let ranked := update_all_rankings vehicles records tokens objects in
  map rank (sort_by DriveWiseViews.rank_leb ranked) =
  ranks_1_to (List.length ranked).
Proof.
  intros ranked. apply sorted_perm_unique.
  - exact (sort_by_keys_sorted t rank ranked).
  - apply ranks_sorted.
  - etransitivity; [apply Permutation_map, sort_by_perm|].
    apply update_all_rankings_ranks.
Qed.

Lemma update_all_rankings_vehicles vehicles records tokens objects e :
  In e (update_all_rankings vehicles records tokens objects) ->
  In (vehicle e) (map vehicle objects)
  \/ exists v, In v vehicles /\ DriveWise.Vehicle.vehicle_id v = vehicle e.
Proof.
  intros Hin. apply (in_map vehicle) in Hin.
  rewrite update_all_rankings_passes, rank_pass_vehicles in Hin.
  destruct (refresh_vehicles records tokens
              (vehicles_with_records vehicles records) objects)
    as (added & Heq & Hadded & _).
  rewrite Heq in Hin. apply in_app_or in Hin.
  destruct Hin as [Hin|Hin]; [left; exact Hin|right].
  destruct (Hadded _ Hin) as (v & Hv & Hid).
  apply filter_In in Hv. exists v. split; [apply Hv|exact Hid].
Qed.

Lemma dw_get_leaderboard_db limit db :
  fst (DriveWiseViews.get_leaderboard limit db) =
  DriveWiseViews.set_leaderboard db
    (update_all_rankings (DriveWise.vehicles db)
       (DriveWise.compliance_records db) (DriveWise.reward_tokens db)
       (DriveWise.leaderboard db)).
Proof.
  unfold DriveWiseViews.get_leaderboard.
  destruct (match limit with None => _ | Some _ => _ end) as [n|]; [|reflexivity].
  destruct ((n <? 0) || _); [reflexivity|].
  destruct (all_some _); reflexivity.
Qed.

Lemma dw_ranked_entry_row db e :
  dw_entries_have_vehicles db = true ->
  let ranked :=
    update_all_rankings (DriveWise.vehicles db)
      (DriveWise.compliance_records db) (DriveWise.reward_tokens db)
      (DriveWise.leaderboard db) in
  In e ranked ->
  exists row,
    DriveWiseViews.leaderboard_row (DriveWiseViews.set_leaderboard db ranked) e
      = Some row
    /\ DriveWiseViews.row_rank row = rank e.
Proof.
  intros Hfk ranked Hin.
  assert (Hex : existsb
                  (fun v => String.eqb (DriveWise.Vehicle.vehicle_id v) (vehicle e))
                  (DriveWise.vehicles db) = true).
  { destruct (update_all_rankings_vehicles _ _ _ _ _ Hin) as [Hold|(v & Hv & Hid)].
    - apply in_map_iff in Hold. destruct Hold as (e0 & He0 & Hin0).
      unfold dw_entries_have_vehicles in Hfk.
      rewrite forallb_forall in Hfk. rewrite <- He0. apply Hfk. exact Hin0.
    - apply existsb_exists. exists v. split; [exact Hv|].
      rewrite Hid. apply String.eqb_refl. }
  apply first_existsb in Hex. destruct Hex as (pk & v & Hf).
  unfold DriveWiseViews.leaderboard_row, DriveWiseViews.get_vehicle.
  cbn [DriveWiseViews.set_leaderboard DriveWise.vehicles].
  rewrite Hf. cbn [option_map snd]. eexists. split; reflexivity.
Qed.

(** X12: get_leaderboard, asked for [n] rows, [n] a 64-bit integer that is
    not negative, answers 200 with the rows of rank 1, 2, ... in this order,
    as many as the table has and at most [n]: after the ranking pass the
    ranks are distinct, so ordering by rank leaves no choice. *)
Theorem X12_leaderboard_lists_the_top_ranks :
  forall limit n db,
    match limit with
    | None => Some 10
    | Some text => Py.int_of_str text
    end = Some n ->
    0 <= n <= 2 ^ 63 - 1 ->
    dw_entries_have_vehicles db = true ->
    exists rows total,
      snd (DriveWiseViews.get_leaderboard limit db) =
        DriveWiseViews.Leaderboard200 rows total
      /\ map DriveWiseViews.row_rank rows =
         ranks_1_to
           (Nat.min (Z.to_nat n)
              (List.length
                 (DriveWise.leaderboard
                    (fst (DriveWiseViews.get_leaderboard limit db))))).
Proof.
  intros limit n db Hlimit Hn Hfk.
  rewrite dw_get_leaderboard_db.
  cbn [DriveWiseViews.set_leaderboard DriveWise.leaderboard].
  unfold DriveWiseViews.get_leaderboard. rewrite Hlimit.
  replace ((n <? 0) || negb (IntegerField n)) with false
    by (symmetry; apply orb_false_iff; split;
        [apply Z.ltb_ge; lia
        |apply negb_false_iff, IntegerField_spec; lia]).
  set (ranked := update_all_rankings _ _ _ _).
  cbn [DriveWiseViews.set_leaderboard DriveWise.leaderboard DriveWise.vehicles
       DriveWise.compliance_records].
  fold (DriveWiseViews.set_leaderboard db ranked).
  destruct (all_some_map
              (DriveWiseViews.leaderboard_row
                 (DriveWiseViews.set_leaderboard db ranked))
              DriveWiseViews.row_rank rank
              (firstn (Z.to_nat n) (sort_by DriveWiseViews.rank_leb ranked)))
    as (rows & Hrows & Hranks).
  { intros e He. apply firstn_In in He.
    apply (Permutation_in _ (sort_by_perm _ DriveWiseViews.rank_leb ranked)) in He.
    apply (dw_ranked_entry_row db e Hfk). exact He. }
  rewrite Hrows. eexists rows, _. split; [reflexivity|].
  rewrite Hranks, <- firstn_map.
  unfold ranked at 1. rewrite update_all_rankings_by_rank. fold ranked.
  unfold ranks_1_to. rewrite firstn_map, firstn_seq. reflexivity.
Qed.

Example dw_leaderboard_limit_beyond_the_database :
  snd (DriveWiseViews.get_leaderboard (Some "9223372036854775808") dw_db7) =
    DriveWiseViews.Leaderboard500
  /\ snd (DriveWiseViews.get_leaderboard (Some "-1") dw_db7) =
       DriveWiseViews.Leaderboard500
  /\ snd (DriveWiseViews.get_leaderboard (Some "ten") dw_db7) =
       DriveWiseViews.Leaderboard500.
Proof. vm_compute. repeat split. Qed.

Lemma X12_leaderboard_lists_the_top_ranks_witness :
  exists rows total,
    snd (DriveWiseViews.get_leaderboard (Some "1") dw_db7) =
      DriveWiseViews.Leaderboard200 rows total
    /\ map DriveWiseViews.row_rank rows = [1].
Proof.
  destruct (X12_leaderboard_lists_the_top_ranks (Some "1") 1 dw_db7)
    as (rows & total & Hrows & Hranks).
  - vm_compute. reflexivity.
  - lia.
  - vm_compute. reflexivity.
  - exists rows, total. split; [exact Hrows|].
    rewrite Hranks. vm_compute. reflexivity.
Defined.

End LeaderboardView.

Lemma dw_get_or_create_vehicle_first vehicle_id objects :
  exists pk,
    first (fun v => String.eqb (DriveWise.Vehicle.vehicle_id v) vehicle_id)
      (snd (DriveWise.get_or_create_vehicle vehicle_id objects)) =
    Some (pk, fst (DriveWise.get_or_create_vehicle vehicle_id objects)).
Proof.
  unfold DriveWise.get_or_create_vehicle.
  destruct (first _ objects) as [[pk v]|] eqn:Hf.
  - exists pk. exact Hf.
  - exists (List.length objects). cbn [fst snd]. apply first_intro.
    + rewrite nth_error_app2, Nat.sub_diag by lia. reflexivity.
    + apply String.eqb_refl.
    + intros j y Hj Hy. rewrite nth_error_app1 in Hy by exact Hj.
      apply nth_error_In in Hy. revert y Hy. apply first_None. exact Hf.
Qed.

(** X13: right after the sensor endpoint answered 201 for a vehicle,
    get_vehicle_ranking of that vehicle answers 400 with the trips of the
    answer and one or two entries still needed when the trips are fewer than
    three, and otherwise 200 with the rank the endpoint reported and the same
    number of trips; it answers neither 404 nor 500. *)
Theorem X13_ranking_after_an_event :
  forall data db body,
    snd (DriveWise.process_sensor_data data db) =
      DriveWise.HTTP_201_CREATED body ->
    let db' := fst (DriveWise.process_sensor_data data db) in
    let trips := DriveWise.response_total_trips body in
    1 <= trips
    /\ (trips < 3 ->
        DriveWiseViews.get_vehicle_ranking
          (DriveWise.SensorData.vehicle_id data) db' =
        DriveWiseViews.Ranking400 trips (3 - trips))
    /\ (3 <= trips ->
        exists ranking,
          DriveWiseViews.get_vehicle_ranking
            (DriveWise.SensorData.vehicle_id data) db' =
          DriveWiseViews.Ranking200 ranking
          /\ DriveWise.current_rank body =
             Some (DriveWiseViews.ranking_rank ranking)
          /\ DriveWiseViews.ranking_total_trips ranking = trips).
Proof.
  intros data db body. unfold DriveWise.process_sensor_data.
  destruct (dw_get_or_create_vehicle_first
              (DriveWise.SensorData.vehicle_id data) (DriveWise.vehicles db))
    as (pk0 & Hv).
  destruct (DriveWise.get_or_create_vehicle _ _) as [vehicle vehicles].
  cbn [fst snd] in Hv.
  rewrite create_eq. destruct (_ && _); [|discriminate]. unfold save.
  destruct (DriveWise.RewardToken.get_or_create _ _ _) as [[[[pk t] c] ts]|];
    cbn [fst snd]; [|discriminate].
  destruct (if negb c then _ else _) as [saved|]; cbn [fst snd]; [|discriminate].
  intros Hbody. injection Hbody as <-.
  cbn [DriveWise.response_total_trips DriveWise.current_rank].
  match goal with
  | |- context [DriveWise.Vehicle.total_trips ?rs vehicle] => set (records := rs)
  end.
  set (trips := DriveWise.Vehicle.total_trips records vehicle).
  assert (Hone : 1 <= trips).
  { unfold trips, records. rewrite total_trips_app.
    pose proof (total_trips_nonneg (DriveWise.compliance_records db) vehicle).
    unfold DriveWise.Vehicle.total_trips at 2.
    unfold DriveWise.Vehicle.of_vehicle.
    cbn [filter owner set_compliance_score DriveWise.new_record].
    rewrite String.eqb_refl. cbn [List.length]. lia. }
  split; [exact Hone|].
  unfold DriveWiseViews.get_vehicle_ranking, DriveWiseViews.get_vehicle.
  cbn [DriveWise.vehicles DriveWise.compliance_records DriveWise.leaderboard].
  rewrite Hv. cbn [option_map snd].
  unfold DriveWise.Vehicle.qualifies_for_leaderboard. fold records. fold trips.
  split.
  - intros Hlt. destruct (3 <=? trips) eqn:E; [apply Z.leb_le in E; lia|].
    reflexivity.
  - intros Hge. destruct (3 <=? trips) eqn:E; [|apply Z.leb_gt in E; lia].
    cbn [negb].
    apply first_Some in Hv. destruct Hv as [Hnth _].
    apply nth_error_In in Hnth.
    match goal with
    | |- context [DriveWise.Leaderboard.update_all_rankings ?vs ?rs ?tk ?os] =>
        destruct (update_all_rankings_current vs rs tk os vehicle Hnth Hge)
          as (pk1 & e & Hf & [_ Hcur] & _)
    end.
    rewrite Hf. eexists. split; [reflexivity|].
    cbn [option_map snd DriveWiseViews.ranking_rank
         DriveWiseViews.ranking_total_trips].
    split; [reflexivity|]. rewrite <- Hcur. reflexivity.
Qed.

Lemma X13_ranking_after_an_event_witness :
  exists ranking,
    DriveWiseViews.get_vehicle_ranking "V2"
      (fst (DriveWise.process_sensor_data dw_v2_data dw_db7)) =
    DriveWiseViews.Ranking200 ranking
    /\ DriveWiseViews.ranking_total_trips ranking = 5.
Proof.
  assert (Hbody : exists body,
            snd (DriveWise.process_sensor_data dw_v2_data dw_db7) =
              DriveWise.HTTP_201_CREATED body
            /\ DriveWise.response_total_trips body = 5)
    by (vm_compute; eexists; split; reflexivity).
  destruct Hbody as (body & Hbody & Htrips).
  destruct (X13_ranking_after_an_event dw_v2_data dw_db7 body Hbody)
    as (_ & _ & Hranked).
  destruct Hranked as (ranking & Hanswer & _ & Hsame); [rewrite Htrips; lia|].
  exists ranking. split; [exact Hanswer|]. rewrite Hsame. exact Htrips.
Defined.
(* ------------------------------------------------------------------ *)
(** ** Reading the ledger and the dashboard *)

Lemma dw_get_reward_tokens_found vehicle_id db i vehicle pk row :
  first (fun v => String.eqb (DriveWise.Vehicle.vehicle_id v) vehicle_id)
    (DriveWise.vehicles db) = Some (i, vehicle) ->
  get (DriveWise.RewardToken.of_vehicle vehicle) (DriveWise.reward_tokens db) =
    Found pk row ->
  DriveWiseViews.get_reward_tokens vehicle_id db =
    (db, DriveWiseViews.Tokens200 row).
Proof.
  intros Hv Hg.
  unfold DriveWiseViews.get_reward_tokens, DriveWiseViews.get_vehicle.
  rewrite Hv. cbn [option_map snd].
  unfold DriveWise.RewardToken.get_or_create. rewrite Hg.
  destruct db; reflexivity.
Qed.

Lemma et_get_reward_tokens_found vehicle_id db i vehicle pk row :
  first (fun v => String.eqb (ExpenseTracker.Vehicle.vehicle_id v) vehicle_id)
    (ExpenseTracker.vehicles db) = Some (i, vehicle) ->
  get (ExpenseTracker.RewardToken.of_vehicle vehicle)
    (ExpenseTracker.reward_tokens db) = Found pk row ->
  ExpenseTrackerViews.get_reward_tokens vehicle_id db =
    (db, ExpenseTrackerViews.Tokens200 row).
Proof.
  intros Hv Hg.
  unfold ExpenseTrackerViews.get_reward_tokens, ExpenseTrackerViews.get_vehicle.
  rewrite Hv. cbn [option_map snd].
  unfold ExpenseTracker.RewardToken.get_or_create. rewrite Hg.
  destruct db; reflexivity.
Qed.

(** X14: a ledger read right after a granted spend shows what the spend
    answered and writes nothing: in drivewise the balance of the answer, in
    expensetrackerapp the very row of the answer. *)
Theorem X14_read_after_spend :
  (forall vehicle_id amount db available,
     snd (DriveWise.spend_tokens vehicle_id amount db) =
       DriveWise.HTTP_200_OK available ->
     let db' := fst (DriveWise.spend_tokens vehicle_id amount db) in
     exists row,
       DriveWiseViews.get_reward_tokens vehicle_id db' =
         (db', DriveWiseViews.Tokens200 row)
       /\ DriveWise.RewardToken.tokens_available row = available)
  /\ (forall vehicle_id tokens db row,
        snd (ExpenseTracker.spend_tokens vehicle_id tokens db) =
          ExpenseTracker.HTTP_200_OK row ->
        let db' := fst (ExpenseTracker.spend_tokens vehicle_id tokens db) in
        ExpenseTrackerViews.get_reward_tokens vehicle_id db' =
          (db', ExpenseTrackerViews.Tokens200 row)).
Proof.
  split.
  - intros vehicle_id amount db available.
    unfold DriveWise.spend_tokens.
    destruct (first _ (DriveWise.vehicles db)) as [[i vehicle]|] eqn:Hv;
      [|discriminate].
    destruct (get _ (DriveWise.reward_tokens db)) as [|pk t|] eqn:Hg;
      try discriminate.
    destruct (_ <? _); [discriminate|].
    unfold DriveWise.RewardToken.save.
    destruct (DriveWise.RewardToken.storable _); [|discriminate].
    cbn [fst snd]. intros Hok. injection Hok as <-.
    eexists. split; [|reflexivity].
    eapply dw_get_reward_tokens_found with (i := i) (pk := pk).
    + exact Hv.
    + cbn [DriveWise.reward_tokens]. eapply get_Found_save_row; [exact Hg|].
      apply get_Found_nth in Hg. destruct Hg as [_ Hp]. exact Hp.
  - intros vehicle_id tokens db row.
    unfold ExpenseTracker.spend_tokens.
    destruct (first _ (ExpenseTracker.vehicles db)) as [[i vehicle]|] eqn:Hv;
      [|discriminate].
    destruct (get _ (ExpenseTracker.reward_tokens db)) as [|pk t|] eqn:Hg;
      try discriminate.
    destruct (_ >? _); [discriminate|].
    unfold ExpenseTracker.RewardToken.save.
    destruct (ExpenseTracker.RewardToken.storable _); [|discriminate].
    cbn [fst snd]. intros Hok. injection Hok as <-.
    eapply et_get_reward_tokens_found with (i := i) (pk := pk).
    + exact Hv.
    + cbn [ExpenseTracker.reward_tokens]. eapply get_Found_save_row; [exact Hg|].
      apply get_Found_nth in Hg. destruct Hg as [_ Hp]. exact Hp.
Qed.

Lemma X14_read_after_spend_witness :
  (exists row,
     DriveWiseViews.get_reward_tokens "V1" dw_db_spent =
       (dw_db_spent, DriveWiseViews.Tokens200 row)
     /\ DriveWise.RewardToken.tokens_available row = 6)
  /\ ExpenseTrackerViews.get_reward_tokens "V1" (fst et_spend_2) =
       (fst et_spend_2,
        ExpenseTrackerViews.Tokens200 (ExpenseTracker.RewardToken.mk "V1" 6 2)).
Proof.
  destruct X14_read_after_spend as [Hdw Het]. split.
  - apply (Hdw "V1" (Some 4) dw_db1 6). vm_compute. reflexivity.
  - apply (Het "V1" (Some 2) et_db2 (ExpenseTracker.RewardToken.mk "V1" 6 2)).
    vm_compute. reflexivity.
Defined.

(** X15: get_reward_tokens of drivewise is idempotent: it may create the
    missing ledger of a known vehicle, and a second call then gives the same
    answer and leaves the database as the first call left it. *)
Theorem X15_ledger_read_is_idempotent :
  forall vehicle_id db,
    DriveWiseViews.get_reward_tokens vehicle_id
      (fst (DriveWiseViews.get_reward_tokens vehicle_id db)) =
    DriveWiseViews.get_reward_tokens vehicle_id db.
Proof.
  intros vehicle_id db.
  destruct (first (fun v => String.eqb (DriveWise.Vehicle.vehicle_id v) vehicle_id)
              (DriveWise.vehicles db)) as [[i vehicle]|] eqn:Hv.
  - destruct (get (DriveWise.RewardToken.of_vehicle vehicle)
                (DriveWise.reward_tokens db)) as [|pk row|] eqn:Hg.
    + unfold DriveWiseViews.get_reward_tokens at 2 3.
      unfold DriveWiseViews.get_vehicle. rewrite Hv. cbn [option_map snd].
      unfold DriveWise.RewardToken.get_or_create. rewrite Hg. cbn [fst].
      eapply dw_get_reward_tokens_found with (i := i).
      * exact Hv.
      * cbn [DriveWiseViews.set_reward_tokens DriveWise.reward_tokens].
        apply get_DoesNotExist_app; [exact Hg|].
        unfold DriveWise.RewardToken.of_vehicle.
        cbn [DriveWise.RewardToken.vehicle]. apply String.eqb_refl.
    + rewrite (dw_get_reward_tokens_found vehicle_id db i vehicle pk row Hv Hg).
      cbn [fst]. apply (dw_get_reward_tokens_found vehicle_id db i vehicle pk row Hv Hg).
    + assert (Hsame : DriveWiseViews.get_reward_tokens vehicle_id db =
                      (db, DriveWiseViews.Tokens500)).
      { unfold DriveWiseViews.get_reward_tokens, DriveWiseViews.get_vehicle.
        rewrite Hv. cbn [option_map snd].
        unfold DriveWise.RewardToken.get_or_create. rewrite Hg. reflexivity. }
      rewrite Hsame. cbn [fst]. exact Hsame.
  - assert (Hsame : DriveWiseViews.get_reward_tokens vehicle_id db =
                    (db, DriveWiseViews.Tokens500)).
    { unfold DriveWiseViews.get_reward_tokens, DriveWiseViews.get_vehicle.
      rewrite Hv. reflexivity. }
    rewrite Hsame. cbn [fst]. exact Hsame.
Qed.

Example dw_ledger_read_creates_the_ledger :
  DriveWise.reward_tokens
    (fst (DriveWiseViews.get_reward_tokens "V1"
            (DriveWiseViews.set_reward_tokens dw_db1 []))) =
  [DriveWise.RewardToken.mk "V1" 0 0].
Proof. vm_compute. reflexivity. Qed.

Lemma et_serve_records call db :
  exists created,
    Forall et_created created /\
    ExpenseTracker.compliance_records (ExpenseTrackerViews.serve call db) =
    ExpenseTracker.compliance_records db ++ created.
Proof.
  destruct call as [data|vehicle_id tokens|vehicle_id|vehicle_id];
    cbn [ExpenseTrackerViews.serve].
  - apply et_process_sensor_data_records.
  - exists []. split; [constructor|].
    rewrite et_spend_tokens_records, app_nil_r. reflexivity.
  - exists []. split; [constructor|]. rewrite app_nil_r.
    unfold ExpenseTrackerViews.get_reward_tokens.
    destruct (ExpenseTrackerViews.get_vehicle _ _) as [v|]; [|reflexivity].
    destruct (ExpenseTracker.RewardToken.get_or_create _ _ _)
      as [[[[pk t] c] ts]|]; reflexivity.
  - exists []. split; [constructor|]. rewrite app_nil_r.
    unfold ExpenseTrackerViews.get_dashboard_stats.
    destruct (ExpenseTrackerViews.get_vehicle _ _) as [v|]; [|reflexivity].
    destruct (ExpenseTracker.RewardToken.get_or_create _ _ _)
      as [[[[pk t] c] ts]|]; reflexivity.
Qed.

Lemma et_session_records calls : forall db,
  exists created,
    Forall et_created created /\
    ExpenseTracker.compliance_records (ExpenseTrackerViews.session calls db) =
    ExpenseTracker.compliance_records db ++ created.
Proof.
  induction calls as [|call calls IH]; intros db.
  - exists []. split; [constructor|]. rewrite app_nil_r. reflexivity.
  - cbn [ExpenseTrackerViews.session fold_left].
    destruct (IH (ExpenseTrackerViews.serve call db)) as (later & Hl & Hlater).
    destruct (et_serve_records call db) as (created & Hc & Hcreated).
    exists (created ++ later). split; [apply Forall_app; split; assumption|].
    unfold ExpenseTrackerViews.session in Hlater.
    rewrite Hlater, Hcreated, app_assoc. reflexivity.
Qed.

Lemma filter_no_violation {Owner} (p : ComplianceRecord Owner -> bool) types objects :
  existsb (String.eqb "no_violation") types = false ->
  Forall default_classification objects ->
  filter (fun r => p r && existsb (String.eqb (violation_type r)) types) objects
  = [].
Proof.
  intros Htypes. induction 1 as [|r objects [Hr _] _ IH]; [reflexivity|].
  cbn [filter]. rewrite Hr, Htypes, andb_false_r. exact IH.
Qed.

(** X16: as long as every record comes from the sensor endpoint, the
    dashboard of expensetrackerapp reports no violation and a compliance
    rate of 100 (the float 100.0 once the vehicle has a record), whatever
    the scores of the records are. *)
Theorem X16_dashboard_never_shows_a_violation :
  forall calls db vehicle_id stats,
    Forall default_classification (ExpenseTracker.compliance_records db) ->
    snd (ExpenseTrackerViews.get_dashboard_stats vehicle_id
           (ExpenseTrackerViews.session calls db)) =
      ExpenseTrackerViews.Stats200 stats ->
    ExpenseTrackerViews.stats_violations stats = 0
    /\ ExpenseTrackerViews.stats_compliance_rate stats =
       (if ExpenseTrackerViews.stats_total_trips stats >? 0
        then ExpenseTrackerViews.Float 100
        else ExpenseTrackerViews.Int 100).
Proof.
  intros calls db vehicle_id stats Hdb.
  destruct (et_session_records calls db) as (created & Hc & Hrecords).
  assert (Hall : Forall default_classification
                   (ExpenseTracker.compliance_records
                      (ExpenseTrackerViews.session calls db))).
  { rewrite Hrecords. apply Forall_app. split; [exact Hdb|].
    eapply Forall_impl; [|exact Hc]. exact et_created_default. }
  set (db' := ExpenseTrackerViews.session calls db) in *.
  unfold ExpenseTrackerViews.get_dashboard_stats.
  destruct (ExpenseTrackerViews.get_vehicle vehicle_id db') as [vehicle|];
    [|discriminate].
  destruct (ExpenseTracker.RewardToken.get_or_create _ _ _)
    as [[[[pk t] c] ts]|]; [|discriminate].
  cbn [snd]. intros Hok. injection Hok as <-.
  cbn [ExpenseTrackerViews.stats_violations
       ExpenseTrackerViews.stats_compliance_rate
       ExpenseTrackerViews.stats_total_trips].
  pose proof (filter_no_violation (ExpenseTrackerViews.of_vehicle db' vehicle)
                ["speed_violation"; "horn_violation"; "seatbelt_violation"]
                _ eq_refl Hall) as Hnone.
  match goal with
  | |- Z.of_nat (List.length ?l) = 0 /\ _ =>
      replace l with (@nil ExpenseTracker.CRecord) by (symmetry; exact Hnone)
  end.
  cbn [List.length Z.of_nat]. split; [reflexivity|].
  destruct (_ >? 0) eqn:Hpos; [|reflexivity].
  cbn [ExpenseTrackerViews.round2]. f_equal. apply full_rate. lia.
Qed.

Lemma X16_dashboard_never_shows_a_violation_witness :
  exists stats,
    snd (ExpenseTrackerViews.get_dashboard_stats "V1"
           (ExpenseTrackerViews.session et_calls et_db2)) =
      ExpenseTrackerViews.Stats200 stats
    /\ ExpenseTrackerViews.stats_total_trips stats = 2
    /\ ExpenseTrackerViews.stats_violations stats = 0
    /\ ExpenseTrackerViews.stats_compliance_rate stats =
       ExpenseTrackerViews.Float 100.
Proof.
  assert (Hstats : exists stats,
            snd (ExpenseTrackerViews.get_dashboard_stats "V1"
                   (ExpenseTrackerViews.session et_calls et_db2)) =
              ExpenseTrackerViews.Stats200 stats
            /\ ExpenseTrackerViews.stats_total_trips stats = 2)
    by (vm_compute; eexists; split; reflexivity).
  destruct Hstats as (stats & Hstats & Htrips).
  destruct (X16_dashboard_never_shows_a_violation et_calls et_db2 "V1" stats)
    as [Hnone Hrate].
  - vm_compute. repeat constructor.
  - exact Hstats.
  - exists stats. split; [exact Hstats|]. split; [exact Htrips|].
    split; [exact Hnone|]. rewrite Hrate, Htrips. reflexivity.
Defined.
